(** * Google Cloud SDK: container, kubeconfig, functions and sql helpers

    A shallow embedding of the command-library code of the SDK (Python 2):

    - [lib/googlecloudsdk/api_lib/container/api_adapter.py]  (Module [ApiAdapter])
    - [lib/googlecloudsdk/api_lib/container/kubeconfig.py]   (Module [Kubeconfig])
    - [lib/surface/container/clusters/upgrade.py]            (Module [Upgrade])
    - [lib/googlecloudsdk/command_lib/functions/deploy/util.py] (Module [FunctionsDeploy])
    - [lib/googlecloudsdk/command_lib/sql/instances.py]      (Module [SqlInstances])

    Further parts of the same files, and of
    [lib/googlecloudsdk/command_lib/container/container_command_util.py],
    are in the modules [Lookup], [LabelsLookup], [ClusterLabels],
    [NodeTaints], [NodeIdentity], [ClusterNetwork], [KubeconfigFile],
    [FunctionsSource], [ContainerCommandUtil], [UpgradeCommand] and
    [NodePoolUpdate].

    Python integers are [Z]; attributes that may hold [None] are [option];
    dictionaries are [gmap]; a function that may raise returns [result]. *)

From stdpp Require Import base numbers list sorting strings pretty gmap.
From Stdlib Require Import ZArith Lia.

Local Open Scope Z_scope.

(** ** Python preliminaries *)

Module Py.

(** The exceptions the modelled code raises, by class. *)
Inductive exn : Type :=
| UtilError (msg : string)              (* api_lib.container.util.Error *)
| KubeconfigError (msg : string)        (* kubeconfig.Error *)
| HttpException (status : Z)            (* calliope.exceptions.HttpException *)
| ToolException (msg : string)          (* calliope.exceptions.ToolException *)
| RequiredArgumentException (arg msg : string)
| InvalidArgumentException (arg msg : string)
| OversizedDeployment (actual limit : string) (* api_lib.functions.exceptions *)
| ParseError (msg : string)             (* core.util.semver.ParseError *)
| TypeError
| KeyError (key : string)
| ZeroDivisionError
| OverflowError
| AttributeError (attr : string)
| UnboundLocalError (var : string).

(** The outcome of a call into the API client: a value, or one of the
    [apitools] exceptions the callers catch by class ([HttpNotFoundError] is
    a subclass of [HttpError]). *)
Inductive api_result (A : Type) : Type :=
| Returned (a : A)
| RaisedHttpNotFoundError
| RaisedHttpError (status_code : Z).
Arguments Returned {A} a.
Arguments RaisedHttpNotFoundError {A}.
Arguments RaisedHttpError {A} status_code.

Inductive result (A : Type) : Type :=
| Ok (a : A)
| Raise (e : exn).
Arguments Ok {A} a.
Arguments Raise {A} e.

(** Sequencing: the first exception raised propagates. *)
Global Instance result_ret : MRet result := λ A a, Ok a.
Global Instance result_bind : MBind result := λ A B k r,
  match r with
  | Ok a => k a
  | Raise e => Raise e
  end.

Global Instance result_fmap : FMap result := λ A B f r,
  match r with
  | Ok a => Ok (f a)
  | Raise e => Raise e
  end.

Definition is_ok {A} (r : result A) : bool :=
  match r with Ok _ => true | Raise _ => false end.

(** Truth value of an object, as tested by [if], [not], [and], [or]. *)
Class Truthy (A : Type) := truthy : A → bool.
Global Hint Mode Truthy ! : typeclass_instances.

Global Instance truthy_bool : Truthy bool := λ b, b.
Global Instance truthy_Z : Truthy Z := λ n, negb (n =? 0).
Global Instance truthy_string : Truthy string :=
  λ s, match s with EmptyString => false | _ => true end.
Global Instance truthy_list {A} : Truthy (list A) :=
  λ l, match l with [] => false | _ => true end.
Global Instance truthy_option {A} `{Truthy A} : Truthy (option A) :=
  λ o, match o with Some a => truthy a | None => false end.
Global Instance truthy_dict {V} : Truthy (gmap string V) :=
  λ d, negb (bool_decide (dom d = ∅)).

(** [x is not None]. *)
Definition is_not_None {A} (x : option A) : bool :=
  if x is Some _ then true else false.

(** [x or d] where [d] is not [None]. *)
Definition or_default {A} `{Truthy A} (x : option A) (d : A) : A :=
  match x with
  | Some a => if truthy a then a else d
  | None => d
  end.

(** [a / b] on integers (Python 2, no [division] import): floor division. *)
Definition floordiv (a b : Z) : result Z :=
  if b =? 0 then Raise ZeroDivisionError else Ok (a / b).

(** [range(0, n)]. *)
Definition range0 (n : Z) : list Z := Z.of_nat <$> seq 0 (Z.to_nat n).

(** [len(l)]. *)
Definition len {A} (l : list A) : Z := Z.of_nat (length l).

(** [str(n)] for an integer. *)
Definition str_int (n : Z) : string := pretty n.

End Py.

Import Py.

(** ** api_adapter.py *)

Module ApiAdapter.

Definition MAX_NODES_PER_POOL : Z := 1000.

Definition PREREQUISITE_OPTION_ERROR_MSG (prerequisite opt : string) : string :=
  "Cannot specify --" +:+ opt +:+ " without --" +:+ prerequisite +:+ ".
".

Definition MISMATCH_AUTHORIZED_NETWORKS_ERROR_MSG : string :=
  "Cannot use --main-authorized-networks if --enable-main-authorized-networks is not specified.".

Definition NO_AUTOPROVISIONING_MSG : string :=
  "Node autoprovisioning is currently in alpha. Please contact GKE support if you're interested in enabling alpha features in your cluster.
".

(** The attributes of [CreateClusterOptions] read by the node-pool sharding
    of [CreateClusterCommon] and by [ParseTpuOptions]. *)
Record CreateClusterOptions : Type := {
  num_nodes : option Z;
  max_nodes_per_pool : option Z;
  enable_autoscaling : option bool;
  min_nodes : option Z;
  max_nodes : option Z;
  node_version : option string;
  enable_autorepair : option bool;
  enable_autoupgrade : option bool;
  enable_kubernetes_alpha : option bool;
  enable_ip_alias : option bool;
  tpu_ipv4_cidr : option string;
  enable_tpu : option bool;
}.

Record NodePoolAutoscaling : Type := {
  npa_enabled : option bool;
  minNodeCount : option Z;
  maxNodeCount : option Z;
}.

Record NodeManagement : Type := {
  autoRepair : option bool;
  autoUpgrade : option bool;
}.

Section NodePools.
(** The [NodeConfig] message shared by all pools is built before the
    sharding and passed through unchanged. *)
Context {NodeConfig : Type}.

Record NodePool : Type := {
  name : string;
  initialNodeCount : Z;
  config : NodeConfig;
  autoscaling : option NodePoolAutoscaling;
  version : option string;
  management : option NodeManagement;
}.

Definition _GetNodeManagement (options : CreateClusterOptions)
  : option NodeManagement :=
  match enable_autorepair options, enable_autoupgrade options with
  | None, None => None
  | r, u => Some {| autoRepair := r; autoUpgrade := u |}
  end.

(** [pool_names], given [pools]. *)
Definition pool_names_of (pools : Z) : list string :=
  if pools =? 1 then ["default-pool"]
  else (λ i, "default-pool-" +:+ str_int i) <$> range0 pools.

(** One [NodePool] message of the loop body. *)
Definition make_pool (options : CreateClusterOptions) (node_config : NodeConfig)
    (name : string) (nodes : Z) : NodePool :=
  let autoscaling :=
    if truthy (enable_autoscaling options)
    then Some {| npa_enabled := enable_autoscaling options;
                 minNodeCount := min_nodes options;
                 maxNodeCount := max_nodes options |}
    else None in
  {| name := name;
     initialNodeCount := nodes;
     config := node_config;
     autoscaling := autoscaling;
     version := node_version options;
     management := _GetNodeManagement options |}.

(** [for name in pool_names: ...], threading [to_add]. *)
Fixpoint fill_pools (options : CreateClusterOptions) (node_config : NodeConfig)
    (per_pool : Z) (pool_names : list string) (to_add : Z) : list NodePool :=
  match pool_names with
  | [] => []
  | name :: rest =>
      let nodes := if to_add >? per_pool then per_pool else to_add in
      make_pool options node_config name nodes
        :: fill_pools options node_config per_pool rest (to_add - nodes)
  end.

(** The node-pool sharding of [CreateClusterCommon] (the [nodePools] of
    the cluster message). *)
Definition CreateClusterCommon_pools (options : CreateClusterOptions)
    (node_config : NodeConfig) : result (list NodePool) :=
  match num_nodes options with
  | None => Raise TypeError
  | Some num_nodes =>
      let max_nodes_per_pool :=
        or_default (max_nodes_per_pool options) MAX_NODES_PER_POOL in
      pools ← floordiv (num_nodes + max_nodes_per_pool - 1) max_nodes_per_pool;
      let pool_names := pool_names_of pools in
      per_pool ← floordiv (num_nodes + len pool_names - 1) (len pool_names);
      Ok (fill_pools options node_config per_pool pool_names num_nodes)
  end.

(** Total of [initialNodeCount] over a list of pools. *)
Definition total_nodes (ps : list NodePool) : Z :=
  foldr (λ p acc, initialNodeCount p + acc) 0 ps.
End NodePools.
Arguments NodePool : clear implicits.

(** Options that set only the node count and the pool limit. *)
Definition sharding_options (n m : Z) : CreateClusterOptions :=
  {| num_nodes := Some n; max_nodes_per_pool := Some m;
     enable_autoscaling := None; min_nodes := None; max_nodes := None;
     node_version := None; enable_autorepair := None;
     enable_autoupgrade := None; enable_kubernetes_alpha := None;
     enable_ip_alias := None; tpu_ipv4_cidr := None; enable_tpu := None |}.

(** *** [ParseTpuOptions] *)

(** The fields of the [Cluster] message written by the private-cluster and
    TPU parse stages, and the fingerprint the label update reads. *)
Record Cluster : Type := {
  enableKubernetesAlpha : option bool;
  mainIpv4CidrBlock : option string;
  privateCluster : option bool;
  enableTpu : option bool;
  labelFingerprint : option string;
}.

(** [ParseTpuOptions] assigns into [cluster]; the model returns the
    cluster after the call. *)
Definition ParseTpuOptions (options : CreateClusterOptions) (cluster : Cluster)
  : result Cluster :=
  if truthy (enable_tpu options) && negb (truthy (enable_kubernetes_alpha options))
  then Raise (UtilError
         (PREREQUISITE_OPTION_ERROR_MSG "enable-kubernetes-alpha" "enable-tpu"))
  else if truthy (enable_tpu options) && negb (truthy (enable_ip_alias options))
  then Raise (UtilError
         (PREREQUISITE_OPTION_ERROR_MSG "enable-ip-alias" "enable-tpu"))
  else if negb (truthy (enable_tpu options)) && truthy (tpu_ipv4_cidr options)
  then Raise (UtilError
         (PREREQUISITE_OPTION_ERROR_MSG "enable-tpu" "tpu-ipv4-cidr"))
  else if truthy (enable_tpu options)
  then Ok {| enableKubernetesAlpha := enableKubernetesAlpha cluster;
             mainIpv4CidrBlock := mainIpv4CidrBlock cluster;
             privateCluster := privateCluster cluster;
             enableTpu := enable_tpu options;
             labelFingerprint := labelFingerprint cluster |}
  else Ok cluster.

(** Options that set only the four attributes [ParseTpuOptions] reads. *)
Definition tpu_options (tpu alpha ip_alias : option bool) (cidr : option string)
  : CreateClusterOptions :=
  {| num_nodes := None; max_nodes_per_pool := None;
     enable_autoscaling := None; min_nodes := None; max_nodes := None;
     node_version := None; enable_autorepair := None;
     enable_autoupgrade := None; enable_kubernetes_alpha := alpha;
     enable_ip_alias := ip_alias; tpu_ipv4_cidr := cidr; enable_tpu := tpu |}.

Definition empty_cluster : Cluster :=
  {| enableKubernetesAlpha := None; mainIpv4CidrBlock := None;
     privateCluster := None; enableTpu := None; labelFingerprint := None |}.

(** *** [UpdateClusterCommon] *)

Definition INGRESS : string := "HttpLoadBalancing".
Definition HPA : string := "HorizontalPodAutoscaling".
Definition DASHBOARD : string := "KubernetesDashboard".
Definition NETWORK_POLICY : string := "NetworkPolicy".

Module Update.

Record UpdateClusterOptions : Type := {
  version : option string;
  update_main : bool;
  update_nodes : bool;
  node_pool : option string;
  monitoring_service : option string;
  disable_addons : option (gmap string bool);
  enable_autoscaling : option bool;
  min_nodes : option Z;
  max_nodes : option Z;
  image_type : option string;
  locations : option (list string);
  enable_main_authorized_networks : option bool;
  main_authorized_networks : option (list string);
  enable_autoprovisioning : option bool;
  enable_pod_security_policy : option bool;
  enable_binauthz : option bool;
}.

(** [UpdateClusterOptions()] with every argument left at its default. *)
Definition default_options : UpdateClusterOptions :=
  {| version := None; update_main := false; update_nodes := false;
     node_pool := None; monitoring_service := None; disable_addons := None;
     enable_autoscaling := None; min_nodes := None; max_nodes := None;
     image_type := None; locations := None;
     enable_main_authorized_networks := None;
     main_authorized_networks := None; enable_autoprovisioning := None;
     enable_pod_security_policy := None; enable_binauthz := None |}.

(** Each add-on message holds one [disabled] flag. *)
Record AddonsConfig : Type := {
  httpLoadBalancing : option bool;
  horizontalPodAutoscaling : option bool;
  kubernetesDashboard : option bool;
  networkPolicyConfig : option bool;
}.

Record MainAuthorizedNetworksConfig : Type := {
  man_enabled : option bool;
  cidrBlocks : list string;
}.

Record PodSecurityPolicyConfig : Type := { psp_enabled : option bool }.
Record BinaryAuthorization : Type := { ba_enabled : option bool }.

Record ClusterUpdate {ClusterAutoscaling : Type} : Type := {
  desiredNodeVersion : option string;
  desiredNodePoolId : option string;
  desiredImageType : option string;
  desiredMainVersion : option string;
  desiredMonitoringService : option string;
  desiredAddonsConfig : option AddonsConfig;
  desiredNodePoolAutoscaling : option NodePoolAutoscaling;
  desiredLocations : option (list string);
  desiredMainAuthorizedNetworksConfig : option MainAuthorizedNetworksConfig;
  desiredClusterAutoscaling : option ClusterAutoscaling;
  desiredPodSecurityPolicyConfig : option PodSecurityPolicyConfig;
  desiredBinaryAuthorization : option BinaryAuthorization;
}.
Arguments ClusterUpdate : clear implicits.

(** [messages.ClusterUpdate()]: every field unset. *)
Definition ClusterUpdate0 {CA} : ClusterUpdate CA :=
  {| desiredNodeVersion := None; desiredNodePoolId := None;
     desiredImageType := None; desiredMainVersion := None;
     desiredMonitoringService := None; desiredAddonsConfig := None;
     desiredNodePoolAutoscaling := None; desiredLocations := None;
     desiredMainAuthorizedNetworksConfig := None;
     desiredClusterAutoscaling := None;
     desiredPodSecurityPolicyConfig := None;
     desiredBinaryAuthorization := None |}.

(** [messages.ClusterUpdate(f=v, ...)] sets the named fields of the
    empty message; one setter per field. *)
Definition with_desiredNodeVersion {CA} v (u : ClusterUpdate CA) : ClusterUpdate CA :=
  {| desiredNodeVersion := v;
     desiredNodePoolId := desiredNodePoolId u;
     desiredImageType := desiredImageType u;
     desiredMainVersion := desiredMainVersion u;
     desiredMonitoringService := desiredMonitoringService u;
     desiredAddonsConfig := desiredAddonsConfig u;
     desiredNodePoolAutoscaling := desiredNodePoolAutoscaling u;
     desiredLocations := desiredLocations u;
     desiredMainAuthorizedNetworksConfig := desiredMainAuthorizedNetworksConfig u;
     desiredClusterAutoscaling := desiredClusterAutoscaling u;
     desiredPodSecurityPolicyConfig := desiredPodSecurityPolicyConfig u;
     desiredBinaryAuthorization := desiredBinaryAuthorization u |}.
Definition with_desiredNodePoolId {CA} v (u : ClusterUpdate CA) : ClusterUpdate CA :=
  {| desiredNodeVersion := desiredNodeVersion u;
     desiredNodePoolId := v;
     desiredImageType := desiredImageType u;
     desiredMainVersion := desiredMainVersion u;
     desiredMonitoringService := desiredMonitoringService u;
     desiredAddonsConfig := desiredAddonsConfig u;
     desiredNodePoolAutoscaling := desiredNodePoolAutoscaling u;
     desiredLocations := desiredLocations u;
     desiredMainAuthorizedNetworksConfig := desiredMainAuthorizedNetworksConfig u;
     desiredClusterAutoscaling := desiredClusterAutoscaling u;
     desiredPodSecurityPolicyConfig := desiredPodSecurityPolicyConfig u;
     desiredBinaryAuthorization := desiredBinaryAuthorization u |}.
Definition with_desiredImageType {CA} v (u : ClusterUpdate CA) : ClusterUpdate CA :=
  {| desiredNodeVersion := desiredNodeVersion u;
     desiredNodePoolId := desiredNodePoolId u;
     desiredImageType := v;
     desiredMainVersion := desiredMainVersion u;
     desiredMonitoringService := desiredMonitoringService u;
     desiredAddonsConfig := desiredAddonsConfig u;
     desiredNodePoolAutoscaling := desiredNodePoolAutoscaling u;
     desiredLocations := desiredLocations u;
     desiredMainAuthorizedNetworksConfig := desiredMainAuthorizedNetworksConfig u;
     desiredClusterAutoscaling := desiredClusterAutoscaling u;
     desiredPodSecurityPolicyConfig := desiredPodSecurityPolicyConfig u;
     desiredBinaryAuthorization := desiredBinaryAuthorization u |}.
Definition with_desiredMainVersion {CA} v (u : ClusterUpdate CA) : ClusterUpdate CA :=
  {| desiredNodeVersion := desiredNodeVersion u;
     desiredNodePoolId := desiredNodePoolId u;
     desiredImageType := desiredImageType u;
     desiredMainVersion := v;
     desiredMonitoringService := desiredMonitoringService u;
     desiredAddonsConfig := desiredAddonsConfig u;
     desiredNodePoolAutoscaling := desiredNodePoolAutoscaling u;
     desiredLocations := desiredLocations u;
     desiredMainAuthorizedNetworksConfig := desiredMainAuthorizedNetworksConfig u;
     desiredClusterAutoscaling := desiredClusterAutoscaling u;
     desiredPodSecurityPolicyConfig := desiredPodSecurityPolicyConfig u;
     desiredBinaryAuthorization := desiredBinaryAuthorization u |}.
Definition with_desiredMonitoringService {CA} v (u : ClusterUpdate CA) : ClusterUpdate CA :=
  {| desiredNodeVersion := desiredNodeVersion u;
     desiredNodePoolId := desiredNodePoolId u;
     desiredImageType := desiredImageType u;
     desiredMainVersion := desiredMainVersion u;
     desiredMonitoringService := v;
     desiredAddonsConfig := desiredAddonsConfig u;
     desiredNodePoolAutoscaling := desiredNodePoolAutoscaling u;
     desiredLocations := desiredLocations u;
     desiredMainAuthorizedNetworksConfig := desiredMainAuthorizedNetworksConfig u;
     desiredClusterAutoscaling := desiredClusterAutoscaling u;
     desiredPodSecurityPolicyConfig := desiredPodSecurityPolicyConfig u;
     desiredBinaryAuthorization := desiredBinaryAuthorization u |}.
Definition with_desiredAddonsConfig {CA} v (u : ClusterUpdate CA) : ClusterUpdate CA :=
  {| desiredNodeVersion := desiredNodeVersion u;
     desiredNodePoolId := desiredNodePoolId u;
     desiredImageType := desiredImageType u;
     desiredMainVersion := desiredMainVersion u;
     desiredMonitoringService := desiredMonitoringService u;
     desiredAddonsConfig := v;
     desiredNodePoolAutoscaling := desiredNodePoolAutoscaling u;
     desiredLocations := desiredLocations u;
     desiredMainAuthorizedNetworksConfig := desiredMainAuthorizedNetworksConfig u;
     desiredClusterAutoscaling := desiredClusterAutoscaling u;
     desiredPodSecurityPolicyConfig := desiredPodSecurityPolicyConfig u;
     desiredBinaryAuthorization := desiredBinaryAuthorization u |}.
Definition with_desiredNodePoolAutoscaling {CA} v (u : ClusterUpdate CA) : ClusterUpdate CA :=
  {| desiredNodeVersion := desiredNodeVersion u;
     desiredNodePoolId := desiredNodePoolId u;
     desiredImageType := desiredImageType u;
     desiredMainVersion := desiredMainVersion u;
     desiredMonitoringService := desiredMonitoringService u;
     desiredAddonsConfig := desiredAddonsConfig u;
     desiredNodePoolAutoscaling := v;
     desiredLocations := desiredLocations u;
     desiredMainAuthorizedNetworksConfig := desiredMainAuthorizedNetworksConfig u;
     desiredClusterAutoscaling := desiredClusterAutoscaling u;
     desiredPodSecurityPolicyConfig := desiredPodSecurityPolicyConfig u;
     desiredBinaryAuthorization := desiredBinaryAuthorization u |}.
Definition with_desiredLocations {CA} v (u : ClusterUpdate CA) : ClusterUpdate CA :=
  {| desiredNodeVersion := desiredNodeVersion u;
     desiredNodePoolId := desiredNodePoolId u;
     desiredImageType := desiredImageType u;
     desiredMainVersion := desiredMainVersion u;
     desiredMonitoringService := desiredMonitoringService u;
     desiredAddonsConfig := desiredAddonsConfig u;
     desiredNodePoolAutoscaling := desiredNodePoolAutoscaling u;
     desiredLocations := v;
     desiredMainAuthorizedNetworksConfig := desiredMainAuthorizedNetworksConfig u;
     desiredClusterAutoscaling := desiredClusterAutoscaling u;
     desiredPodSecurityPolicyConfig := desiredPodSecurityPolicyConfig u;
     desiredBinaryAuthorization := desiredBinaryAuthorization u |}.
Definition with_desiredMainAuthorizedNetworksConfig {CA} v (u : ClusterUpdate CA) : ClusterUpdate CA :=
  {| desiredNodeVersion := desiredNodeVersion u;
     desiredNodePoolId := desiredNodePoolId u;
     desiredImageType := desiredImageType u;
     desiredMainVersion := desiredMainVersion u;
     desiredMonitoringService := desiredMonitoringService u;
     desiredAddonsConfig := desiredAddonsConfig u;
     desiredNodePoolAutoscaling := desiredNodePoolAutoscaling u;
     desiredLocations := desiredLocations u;
     desiredMainAuthorizedNetworksConfig := v;
     desiredClusterAutoscaling := desiredClusterAutoscaling u;
     desiredPodSecurityPolicyConfig := desiredPodSecurityPolicyConfig u;
     desiredBinaryAuthorization := desiredBinaryAuthorization u |}.
Definition with_desiredClusterAutoscaling {CA} v (u : ClusterUpdate CA) : ClusterUpdate CA :=
  {| desiredNodeVersion := desiredNodeVersion u;
     desiredNodePoolId := desiredNodePoolId u;
     desiredImageType := desiredImageType u;
     desiredMainVersion := desiredMainVersion u;
     desiredMonitoringService := desiredMonitoringService u;
     desiredAddonsConfig := desiredAddonsConfig u;
     desiredNodePoolAutoscaling := desiredNodePoolAutoscaling u;
     desiredLocations := desiredLocations u;
     desiredMainAuthorizedNetworksConfig := desiredMainAuthorizedNetworksConfig u;
     desiredClusterAutoscaling := v;
     desiredPodSecurityPolicyConfig := desiredPodSecurityPolicyConfig u;
     desiredBinaryAuthorization := desiredBinaryAuthorization u |}.
Definition with_desiredPodSecurityPolicyConfig {CA} v (u : ClusterUpdate CA) : ClusterUpdate CA :=
  {| desiredNodeVersion := desiredNodeVersion u;
     desiredNodePoolId := desiredNodePoolId u;
     desiredImageType := desiredImageType u;
     desiredMainVersion := desiredMainVersion u;
     desiredMonitoringService := desiredMonitoringService u;
     desiredAddonsConfig := desiredAddonsConfig u;
     desiredNodePoolAutoscaling := desiredNodePoolAutoscaling u;
     desiredLocations := desiredLocations u;
     desiredMainAuthorizedNetworksConfig := desiredMainAuthorizedNetworksConfig u;
     desiredClusterAutoscaling := desiredClusterAutoscaling u;
     desiredPodSecurityPolicyConfig := v;
     desiredBinaryAuthorization := desiredBinaryAuthorization u |}.
Definition with_desiredBinaryAuthorization {CA} v (u : ClusterUpdate CA) : ClusterUpdate CA :=
  {| desiredNodeVersion := desiredNodeVersion u;
     desiredNodePoolId := desiredNodePoolId u;
     desiredImageType := desiredImageType u;
     desiredMainVersion := desiredMainVersion u;
     desiredMonitoringService := desiredMonitoringService u;
     desiredAddonsConfig := desiredAddonsConfig u;
     desiredNodePoolAutoscaling := desiredNodePoolAutoscaling u;
     desiredLocations := desiredLocations u;
     desiredMainAuthorizedNetworksConfig := desiredMainAuthorizedNetworksConfig u;
     desiredClusterAutoscaling := desiredClusterAutoscaling u;
     desiredPodSecurityPolicyConfig := desiredPodSecurityPolicyConfig u;
     desiredBinaryAuthorization := v |}.

Definition _AddonsConfig
    (disable_ingress disable_hpa disable_dashboard disable_network_policy
      : option bool) : AddonsConfig :=
  {| httpLoadBalancing := disable_ingress;
     horizontalPodAutoscaling := disable_hpa;
     kubernetesDashboard := disable_dashboard;
     networkPolicyConfig := disable_network_policy |}.

(** The methods of [APIAdapter] that subclasses override and
    [UpdateClusterCommon] calls through [self]. *)
Class Adapter (ClusterAutoscaling : Type) : Type := {
  CreateClusterAutoscalingCommon :
    UpdateClusterOptions → result ClusterAutoscaling;
}.

(** [APIAdapter.CreateClusterAutoscalingCommon], inherited by [V1Adapter]
    and [V1Beta1Adapter]. *)
Definition APIAdapter_base : Adapter () :=
  {| CreateClusterAutoscalingCommon := λ _,
       Raise (UtilError NO_AUTOPROVISIONING_MSG) |}.

Section UpdateClusterCommon.
Context {ClusterAutoscaling : Type} `{!Adapter ClusterAutoscaling}.
Local Abbreviation ClusterUpdate := (ClusterUpdate ClusterAutoscaling).

(** The [if]/[elif] chain: the value bound to the local [update], or
    [None] when no branch is taken and [update] stays unbound. [version] is
    [options.version] after the default ["-"] has been stored in it. *)
Definition select_update (options : UpdateClusterOptions)
    (version : string) : result (option ClusterUpdate) :=
  if update_nodes options then
    Ok (Some (with_desiredImageType (image_type options)
                (with_desiredNodePoolId (node_pool options)
                (with_desiredNodeVersion (Some version) ClusterUpdate0))))
  else if update_main options then
    Ok (Some (with_desiredMainVersion (Some version) ClusterUpdate0))
  else if truthy (monitoring_service options) then
    Ok (Some (with_desiredMonitoringService (monitoring_service options) ClusterUpdate0))
  else if truthy (disable_addons options) then
    let d := default ∅ (disable_addons options) in
    let addons := _AddonsConfig (d !! INGRESS) (d !! HPA) (d !! DASHBOARD)
                                (d !! NETWORK_POLICY) in
    Ok (Some (with_desiredAddonsConfig (Some addons) ClusterUpdate0))
  else if enable_autoscaling options is Some enable then
    let autoscaling :=
      {| npa_enabled := Some enable;
         minNodeCount := if enable then min_nodes options else None;
         maxNodeCount := if enable then max_nodes options else None |} in
    Ok (Some (with_desiredNodePoolAutoscaling (Some autoscaling)
                (with_desiredNodePoolId (node_pool options) ClusterUpdate0)))
  else if truthy (locations options) then
    Ok (Some (with_desiredLocations (locations options) ClusterUpdate0))
  else if enable_main_authorized_networks options is Some enable then
    let authorized_networks :=
      {| man_enabled := Some enable;
         cidrBlocks := if truthy (main_authorized_networks options)
                       then default [] (main_authorized_networks options)
                       else [] |} in
    Ok (Some (with_desiredMainAuthorizedNetworksConfig (Some authorized_networks) ClusterUpdate0))
  else if enable_autoprovisioning options is Some _ then
    autoscaling ← CreateClusterAutoscalingCommon options;
    Ok (Some (with_desiredClusterAutoscaling (Some autoscaling) ClusterUpdate0))
  else if enable_pod_security_policy options is Some enable then
    Ok (Some (with_desiredPodSecurityPolicyConfig (Some {| psp_enabled := Some enable |}) ClusterUpdate0))
  else if enable_binauthz options is Some enable then
    Ok (Some (with_desiredBinaryAuthorization (Some {| ba_enabled := Some enable |}) ClusterUpdate0))
  else Ok None.

Definition UpdateClusterCommon (options : UpdateClusterOptions)
  : result ClusterUpdate :=
  let version := or_default (version options) "-" in
  update ← select_update options version;
  if truthy (main_authorized_networks options)
     && negb (truthy (enable_main_authorized_networks options))
  then Raise (UtilError MISMATCH_AUTHORIZED_NETWORKS_ERROR_MSG)
  else match update with
       | Some update => Ok update
       | None => Raise (UnboundLocalError "update")
       end.
End UpdateClusterCommon.

(** The ten kinds of update, in the order [UpdateClusterCommon] tests
    them. *)
Inductive UpdateKind : Type :=
| KNodes | KMain | KMonitoringService | KDisableAddons | KAutoscaling
| KLocations | KMainAuthorizedNetworks | KAutoprovisioning
| KPodSecurityPolicy | KBinauthz.

Global Instance UpdateKind_eq_dec : EqDecision UpdateKind.
Proof. solve_decision. Defined.

Definition all_kinds : list UpdateKind :=
  [KNodes; KMain; KMonitoringService; KDisableAddons; KAutoscaling;
   KLocations; KMainAuthorizedNetworks; KAutoprovisioning;
   KPodSecurityPolicy; KBinauthz].

(** Whether the options populate a kind of update. *)
Definition populated (options : UpdateClusterOptions) (k : UpdateKind) : bool :=
  match k with
  | KNodes => update_nodes options
  | KMain => update_main options
  | KMonitoringService => truthy (monitoring_service options)
  | KDisableAddons => truthy (disable_addons options)
  | KAutoscaling => is_not_None (enable_autoscaling options)
  | KLocations => truthy (locations options)
  | KMainAuthorizedNetworks =>
      is_not_None (enable_main_authorized_networks options)
  | KAutoprovisioning => is_not_None (enable_autoprovisioning options)
  | KPodSecurityPolicy =>
      is_not_None (enable_pod_security_policy options)
  | KBinauthz => is_not_None (enable_binauthz options)
  end.

(** Whether a [ClusterUpdate] carries the payload of a kind of update. *)
Definition carries {CA} (u : ClusterUpdate CA) (k : UpdateKind) : bool :=
  match k with
  | KNodes => is_not_None (desiredNodeVersion u)
  | KMain => is_not_None (desiredMainVersion u)
  | KMonitoringService => is_not_None (desiredMonitoringService u)
  | KDisableAddons => is_not_None (desiredAddonsConfig u)
  | KAutoscaling => is_not_None (desiredNodePoolAutoscaling u)
  | KLocations => is_not_None (desiredLocations u)
  | KMainAuthorizedNetworks =>
      is_not_None (desiredMainAuthorizedNetworksConfig u)
  | KAutoprovisioning => is_not_None (desiredClusterAutoscaling u)
  | KPodSecurityPolicy =>
      is_not_None (desiredPodSecurityPolicyConfig u)
  | KBinauthz => is_not_None (desiredBinaryAuthorization u)
  end.

(** The authorized-networks check at the end of [UpdateClusterCommon]. *)
Definition networks_mismatch (options : UpdateClusterOptions) : bool :=
  truthy (main_authorized_networks options)
  && negb (truthy (enable_main_authorized_networks options)).


(** The first populated kind, in the order of the [if]/[elif] chain. *)
Definition selected (options : UpdateClusterOptions) : option UpdateKind :=
  List.find (populated options) all_kinds.


(** A [ClusterUpdate] that carries the payload of [k] and of no other
    kind. *)
Definition carries_only {CA} (u : ClusterUpdate CA) (k : UpdateKind) : Prop :=
  ∀ k', carries u k' = true ↔ k' = k.


(** The message of a kind of update, field by field, as the words of the
    claim have it: the [ClusterUpdate] with the fields of the kind [k] set
    from the options and every other field unset. The version is ["-"]
    when none is given; [autoscaling] is what the adapter built for the
    autoprovisioning kind. *)
Definition payload {CA} (options : UpdateClusterOptions)
    (autoscaling : option CA) (k : UpdateKind) : ClusterUpdate CA :=
  let unset : ClusterUpdate CA := ClusterUpdate0 in
  match k with
  | KNodes =>
      {| desiredNodeVersion := Some (or_default (version options) "-");
         desiredNodePoolId := node_pool options;
         desiredImageType := image_type options;
         desiredMainVersion := None; desiredMonitoringService := None;
         desiredAddonsConfig := None; desiredNodePoolAutoscaling := None;
         desiredLocations := None;
         desiredMainAuthorizedNetworksConfig := None;
         desiredClusterAutoscaling := None;
         desiredPodSecurityPolicyConfig := None;
         desiredBinaryAuthorization := None |}
  | KMain =>
      with_desiredMainVersion (Some (or_default (version options) "-")) unset
  | KMonitoringService =>
      with_desiredMonitoringService (monitoring_service options) unset
  | KDisableAddons =>
      let d := default ∅ (disable_addons options) in
      with_desiredAddonsConfig
        (Some {| httpLoadBalancing := d !! INGRESS;
                 horizontalPodAutoscaling := d !! HPA;
                 kubernetesDashboard := d !! DASHBOARD;
                 networkPolicyConfig := d !! NETWORK_POLICY |}) unset
  | KAutoscaling =>
      let on := truthy (enable_autoscaling options) in
      {| desiredNodeVersion := None;
         desiredNodePoolId := node_pool options;
         desiredImageType := None;
         desiredMainVersion := None; desiredMonitoringService := None;
         desiredAddonsConfig := None;
         desiredNodePoolAutoscaling :=
           Some {| npa_enabled := enable_autoscaling options;
                   minNodeCount := if on then min_nodes options else None;
                   maxNodeCount := if on then max_nodes options else None |};
         desiredLocations := None;
         desiredMainAuthorizedNetworksConfig := None;
         desiredClusterAutoscaling := None;
         desiredPodSecurityPolicyConfig := None;
         desiredBinaryAuthorization := None |}
  | KLocations => with_desiredLocations (locations options) unset
  | KMainAuthorizedNetworks =>
      with_desiredMainAuthorizedNetworksConfig
        (Some {| man_enabled := enable_main_authorized_networks options;
                 cidrBlocks := default [] (main_authorized_networks options) |})
        unset
  | KAutoprovisioning => with_desiredClusterAutoscaling autoscaling unset
  | KPodSecurityPolicy =>
      with_desiredPodSecurityPolicyConfig
        (Some {| psp_enabled := enable_pod_security_policy options |}) unset
  | KBinauthz =>
      with_desiredBinaryAuthorization
        (Some {| ba_enabled := enable_binauthz options |}) unset
  end.

(** [UpdateClusterOptions(update_nodes=..., main_authorized_networks=...)],
    the other arguments at their defaults. *)
Definition nodes_networks_options (nodes : bool)
    (networks : option (list string)) : UpdateClusterOptions :=
  {| version := None; update_main := false; update_nodes := nodes;
     node_pool := None; monitoring_service := None; disable_addons := None;
     enable_autoscaling := None; min_nodes := None; max_nodes := None;
     image_type := None; locations := None;
     enable_main_authorized_networks := None;
     main_authorized_networks := networks; enable_autoprovisioning := None;
     enable_pod_security_policy := None; enable_binauthz := None |}.

(** [UpdateClusterOptions(enable_autoprovisioning=True,
    main_authorized_networks=...)]. *)
Definition autoprovisioning_networks_options
    (networks : option (list string)) : UpdateClusterOptions :=
  {| version := None; update_main := false; update_nodes := false;
     node_pool := None; monitoring_service := None; disable_addons := None;
     enable_autoscaling := None; min_nodes := None; max_nodes := None;
     image_type := None; locations := None;
     enable_main_authorized_networks := None;
     main_authorized_networks := networks;
     enable_autoprovisioning := Some true;
     enable_pod_security_policy := None; enable_binauthz := None |}.

End Update.


(** *** [UpdateLabelsCommon] *)

(** Order of two dictionary items: by key, as byte strings. *)
Definition item_le (a b : string * string) : Prop := String.leb a.1 b.1 = true.
Global Instance item_le_dec : RelDecision item_le.
Proof. intros a b. unfold item_le. apply _. Defined.

(** [sorted(d.iteritems())]: the items of a dictionary, ordered by key. *)
Definition sorted_items (d : gmap string string) : list (string * string) :=
  merge_sort item_le (map_to_list d).

(** What a call of [self.GetCluster] does: it returns what the method
    returns, or it raises one of the two [apitools] exceptions that the
    callers name in their handlers, or an exception of the SDK
    ([util.Error], [HttpException]), which no handler of theirs catches. *)
Inductive get_result : Type :=
| GetReturned (clus : option Cluster)
| GetHttpNotFoundError
| GetHttpError (status_code : Z)
| GetRaised (e : exn).

Section Labels.
(** [self.GetCluster], overridden by each adapter. *)
Context {ClusterRef : Type} (GetCluster : ClusterRef → get_result).

Definition UpdateLabelsCommon (cluster_ref : ClusterRef)
    (update_labels : gmap string string)
  : result (list (string * string) * option string) :=
  clus ← match GetCluster cluster_ref with
         | GetReturned clus => Ok clus
         | GetHttpNotFoundError => Ok None
         | GetHttpError status_code => Raise (HttpException status_code)
         | GetRaised e => Raise e
         end;
  let props := sorted_items update_labels in
  match clus with
  | Some clus => Ok (props, labelFingerprint clus)
  | None => Raise (AttributeError "labelFingerprint")
  end.
End Labels.


(** *** [WaitForOperation] *)

Module Operations.

Inductive StatusValueValuesEnum : Type :=
| STATUS_UNSPECIFIED | PENDING | RUNNING | DONE | ABORTING.

Global Instance StatusValueValuesEnum_eq_dec : EqDecision StatusValueValuesEnum.
Proof. solve_decision. Defined.

Record Operation : Type := {
  name : string;
  status : option StatusValueValuesEnum;
  statusMessage : option string;
  detail : option string;
}.

(** [httplib.FORBIDDEN]. *)
Definition FORBIDDEN : Z := 403.

Definition IsOperationFinished (operation : Operation) : bool :=
  bool_decide (status operation = Some DONE).

Definition GetOperationError (operation : Operation) : option string :=
  statusMessage operation.

(** What a run has done to the world so far: how often it read
    [time.clock()], how often it called [GetOperation], the seconds passed
    to [time.sleep], and the detail message shown by the progress
    tracker. *)
Record Trace : Type := {
  clock_reads : nat;
  fetches : nat;
  slept : Z;
  detail_message : option string;
}.

Section WaitForOperation.
(** The world the loop runs in: [clock k] is what the [k]-th call of
    [time.clock()] returns, in ticks of the clock; [GetOperation ref k]
    is the outcome of the [k]-th call of [self.GetOperation(ref)]
    (counting from 0); [str_operation] is [str()] of an operation
    message. *)
Context {OperationRef : Type}.
Context (clock : nat → Z).
Context (GetOperation : OperationRef → nat → api_result Operation).
Context (str_operation : Operation → string).

(** The [while] loop. [operation] is the local of that name, [None]
    while it is unbound. The result is the local at the exit of the
    loop, or the exception that left it. One unit of [fuel] is one
    evaluation of the loop condition. *)
Fixpoint poll (fuel : nat) (operation_ref : OperationRef)
    (timeout_s poll_period_s start_time : Z)
    (tr : Trace) (operation : option Operation)
  : option (result (option Operation) * Trace) :=
  match fuel with
  | O => None
  | S fuel =>
      let now := clock (clock_reads tr) in
      let tr := {| clock_reads := S (clock_reads tr); fetches := fetches tr;
                   slept := slept tr;
                   detail_message := detail_message tr |} in
      if timeout_s >? now - start_time then
        let fetched := GetOperation operation_ref (fetches tr) in
        let tr := {| clock_reads := clock_reads tr;
                     fetches := S (fetches tr); slept := slept tr;
                     detail_message := detail_message tr |} in
        match fetched with
        | Returned op =>
            if IsOperationFinished op then
              (* the log line reads the clock once more *)
              Some (Ok (Some op),
                    {| clock_reads := S (clock_reads tr);
                       fetches := fetches tr; slept := slept tr;
                       detail_message := detail_message tr |})
            else
              poll fuel operation_ref timeout_s poll_period_s start_time
                {| clock_reads := clock_reads tr; fetches := fetches tr;
                   slept := slept tr + poll_period_s;
                   detail_message := detail op |}
                (Some op)
        | RaisedHttpError status_code =>
            if status_code =? FORBIDDEN
            then Some (Raise (HttpException status_code), tr)
            else
              poll fuel operation_ref timeout_s poll_period_s start_time
                {| clock_reads := clock_reads tr; fetches := fetches tr;
                   slept := slept tr + poll_period_s;
                   detail_message := detail_message tr |}
                operation
        | RaisedHttpNotFoundError =>
            poll fuel operation_ref timeout_s poll_period_s start_time
              {| clock_reads := clock_reads tr; fetches := fetches tr;
                 slept := slept tr + poll_period_s;
                 detail_message := detail_message tr |}
              operation
        end
      else Some (Ok operation, tr)
  end.

(** The code after the loop. *)
Definition finish (operation : option Operation) : result Operation :=
  match operation with
  | None => Raise (UnboundLocalError "operation")
  | Some operation =>
      if negb (IsOperationFinished operation) then
        Raise (UtilError ("Operation [" +:+ str_operation operation
                          +:+ "] is still running"))
      else if truthy (GetOperationError operation) then
        Raise (UtilError ("Operation [" +:+ str_operation operation
                          +:+ "] finished with error: "
                          +:+ default "" (GetOperationError operation)))
      else Ok operation
  end.

Definition WaitForOperation (fuel : nat) (operation_ref : OperationRef)
    (message : string) (timeout_s poll_period_s : Z)
  : option (result Operation * Trace) :=
  let start_time := clock 0 in
  let tr := {| clock_reads := 1; fetches := 0; slept := 0;
               detail_message := None |} in
  '(exit, tr) ← poll fuel operation_ref timeout_s poll_period_s start_time
                  tr None;
  Some (operation ← exit; finish operation, tr).
End WaitForOperation.

Section Sources.
Context {OperationRef : Type}.
Context (clock : nat → Z).
Context (GetOperation : OperationRef → nat → api_result Operation).

(** The first [n] fetches each return an operation that is not done. *)
Definition not_done_before (operation_ref : OperationRef) (n : nat) : Prop :=
  ∀ i, (i < n)%nat →
    ∃ op, GetOperation operation_ref i = Returned op
          ∧ IsOperationFinished op = false.

(** At the first [n] evaluations of the loop condition the time elapsed
    since the start is below [timeout_s]. *)
Definition within_timeout (timeout_s : Z) (n : nat) : Prop :=
  ∀ i, (i < n)%nat → timeout_s > clock (S i) - clock 0.
End Sources.

(** A clock that advances one tick per reading, and two sources: one done
    at the third fetch, one never done. *)
Definition tick_clock (k : nat) : Z := Z.of_nat k.
Definition running_operation : Operation :=
  {| name := "operation-1"; status := Some RUNNING; statusMessage := None;
     detail := Some "creating" |}.
Definition done_operation (error : option string) : Operation :=
  {| name := "operation-1"; status := Some DONE; statusMessage := error;
     detail := None |}.
Definition done_at_third (error : option string) (_ : ()) (k : nat)
  : api_result Operation :=
  if (k <? 2)%nat then Returned running_operation
  else Returned (done_operation error).
Definition never_done (_ : ()) (k : nat) : api_result Operation :=
  Returned running_operation.


End Operations.


End ApiAdapter.

(** ** kubeconfig.py *)

Module Kubeconfig.

(** The values held by the parsed YAML document and by the entries built
    here. *)
#[warnings="-register-all"]
Inductive value : Type :=
| VNone
| VBool (b : bool)
| VInt (n : Z)
| VStr (s : string)
| VList (l : list value)
| VDict (d : gmap string value).

(** [None] or a string, as a value. *)
Definition of_optional (x : option string) : value :=
  match x with Some s => VStr s | None => VNone end.

(** [v == key] for a string [key]. *)
Definition eq_str (v : option value) (key : string) : bool :=
  match v with
  | Some (VStr s) => String.eqb s key
  | _ => false
  end.

(** *** class [Kubeconfig] *)

Record Kubeconfig : Type := {
  _filename : string;
  _data : gmap string value;
  clusters : gmap string value;
  users : gmap string value;
  contexts : gmap string value;
}.

(** The property [current_context]. *)
Definition current_context (self : Kubeconfig) : result value :=
  match _data self !! "current-context" with
  | Some v => Ok v
  | None => Raise (KeyError "current-context")
  end.

(** [Clear] mutates [self]; the model returns the object after the call. *)
Definition Clear (key : string) (self : Kubeconfig) : Kubeconfig :=
  {| _filename := _filename self;
     _data := if eq_str (_data self !! "current-context") key
              then <["current-context" := VStr ""]> (_data self)
              else _data self;
     clusters := delete key (clusters self);
     users := delete key (users self);
     contexts := delete key (contexts self) |}.

Definition SetCurrentContext (context : string) (self : Kubeconfig) : Kubeconfig :=
  {| _filename := _filename self;
     _data := <["current-context" := VStr context]> (_data self);
     clusters := clusters self;
     users := users self;
     contexts := contexts self |}.

Definition EmptyKubeconfig : gmap string value :=
  <["apiVersion" := VStr "v1"]>
  (<["contexts" := VList []]>
  (<["clusters" := VList []]>
  (<["current-context" := VStr ""]>
  (<["kind" := VStr "Config"]>
  (<["preferences" := VDict ∅]>
  (<["users" := VList []]> ∅)))))).

(** [Context(name, cluster, user)]. *)
Definition Context (name cluster user : string) : value :=
  VDict (<["name" := VStr name]>
        (<["context" := VDict (<["cluster" := VStr cluster]>
                              (<["user" := VStr user]> ∅))]> ∅)).

(** A document with one cluster, one user and one context, all of one
    name, which is also the current context. *)
Definition single_entry_data (key : string) : gmap string value :=
  <["clusters" := VList [VDict (<["name" := VStr key]> ∅)]]>
  (<["users" := VList [VDict (<["name" := VStr key]> ∅)]]>
  (<["contexts" := VList [Context key key key]]>
  (<["current-context" := VStr key]> EmptyKubeconfig))).

(** The object [Kubeconfig(single_entry_data(key), filename)]. *)
Definition single_entry_config (key filename : string) : Kubeconfig :=
  {| _filename := filename;
     _data := single_entry_data key;
     clusters := {[ key := VDict (<["name" := VStr key]> ∅) ]};
     users := {[ key := VDict (<["name" := VStr key]> ∅) ]};
     contexts := {[ key := Context key key key ]} |}.


(** *** [Cluster], [User], [_AuthProvider] *)

Definition SDK_BIN_PATH_NOT_FOUND : string :=
  "Path to sdk installation not found. Please switch to application default
credentials using one of

$ gcloud config set container/use_application_default_credentials true
$ export CLOUDSDK_CONTAINER_USE_APPLICATION_DEFAULT_CREDENTIALS=true".

(** What the entry builders read from the installation: the property
    [container/use_app_default_credentials], the operating system,
    [config.Paths().sdk_bin_path] and [os.path.join]. *)
Record Installation : Type := {
  use_app_default_credentials : option bool;
  IsWindows : bool;
  sdk_bin_path : option string;
  path_join : string → string → string;
}.

Section Entries.
Context (inst : Installation).

Definition _AuthProvider (name : string) : result (gmap string value) :=
  let provider : gmap string value := {[ "name" := VStr name ]} in
  if String.eqb name "gcp" && negb (truthy (use_app_default_credentials inst))
  then
    let bin_name := if IsWindows inst then "gcloud.cmd" else "gcloud" in
    match sdk_bin_path inst with
    | None => Raise (KubeconfigError SDK_BIN_PATH_NOT_FOUND)
    | Some sdk_bin_path =>
        let cfg : gmap string value :=
          <["cmd-path" := VStr (path_join inst sdk_bin_path bin_name)]>
          (<["cmd-args" := VStr "config config-helper --format=json"]>
          (<["token-key" := VStr "{.credential.access_token}"]>
          (<["expiry-key" := VStr "{.credential.token_expiry}"]> ∅))) in
        Ok (<["config" := VDict cfg]> provider)
    end
  else Ok provider.

(** The first statement of [User]: the check that some credential is
    given. *)
Definition no_auth_info
    (token username password auth_provider cert_path cert_data
      : option string) : bool :=
  negb (truthy auth_provider) && negb (truthy token)
  && negb (truthy cert_path) && negb (truthy cert_data)
  && (negb (truthy username) || negb (truthy password)).

Definition User (name : string)
    (token username password auth_provider cert_path cert_data
     key_path key_data : option string) : result (gmap string value) :=
  if no_auth_info token username password auth_provider cert_path cert_data
  then Raise (KubeconfigError
         "either auth_provider, token or username & password must be provided")
  else
    user ← (if truthy auth_provider then
              provider ← _AuthProvider (default "" auth_provider);
              Ok ({[ "auth-provider" := VDict provider ]} : gmap string value)
            else if truthy token then
              Ok {[ "token" := of_optional token ]}
            else
              Ok (<["password" := of_optional password]>
                    {[ "username" := of_optional username ]}));
    user ← (if truthy cert_path && truthy cert_data then
              Raise (KubeconfigError
                       "cannot specify both cert_path and cert_data")
            else if truthy cert_path then
              Ok (<["client-certificate" := of_optional cert_path]> user)
            else if truthy cert_data then
              Ok (<["client-certificate-data" := of_optional cert_data]> user)
            else Ok user);
    user ← (if truthy key_path && truthy key_data then
              Raise (KubeconfigError
                       "cannot specify both key_path and key_data")
            else if truthy key_path then
              Ok (<["client-key" := of_optional key_path]> user)
            else if truthy key_data then
              Ok (<["client-key-data" := of_optional key_data]> user)
            else Ok user);
    Ok (<["user" := VDict user]> {[ "name" := VStr name ]}).

(** [Cluster(name, server, ca_path, ca_data)]. *)
Definition Cluster (name server : string) (ca_path ca_data : option string)
  : result (gmap string value) :=
  let cluster : gmap string value := {[ "server" := VStr server ]} in
  if truthy ca_path && truthy ca_data then
    Raise (KubeconfigError "cannot specify both ca_path and ca_data")
  else
    let cluster :=
      if truthy ca_path
      then <["certificate-authority" := of_optional ca_path]> cluster
      else if truthy ca_data
      then <["certificate-authority-data" := of_optional ca_data]> cluster
      else <["insecure-skip-tls-verify" := VBool true]> cluster in
    Ok (<["cluster" := VDict cluster]> {[ "name" := VStr name ]}).
End Entries.

(** A POSIX installation under [/opt/sdk/bin]. *)
Definition posix_installation : Installation :=
  {| use_app_default_credentials := None; IsWindows := false;
     sdk_bin_path := Some "/opt/sdk/bin";
     path_join := λ a b, a +:+ "/" +:+ b |}.


End Kubeconfig.


(** ** upgrade.py *)

Module Upgrade.

(** The parts of a semantic version that [Compare] uses. *)
Record Version : Type := {
  major : Z;
  minor : Z;
  patch : Z;
}.

(** The members of [VersionVerifier]. *)
Definition UP_TO_DATE : Z := 0.
Definition UPGRADE_AVAILABLE : Z := 1.
Definition SUPPORT_ENDING : Z := 2.
Definition UNSUPPORTED : Z := 3.

Section VersionVerifier.
(** [SemVer(version)] and [SemVer.Distance] of
    [googlecloudsdk.core.util.semver], which [Compare] calls. *)
Context (SemVer : string → result Version).
Context (Distance : Version → Version → Z * Z * Z).

Definition Compare (current_main_version current_cluster_version : string)
  : result Z :=
  if String.eqb current_main_version current_cluster_version
  then Ok UP_TO_DATE
  else
    main_version ← SemVer current_main_version;
    cluster_version ← SemVer current_cluster_version;
    let '(major, minor, _) := Distance main_version cluster_version in
    if negb (major =? 0) || (minor >? 2) then Ok UNSUPPORTED
    else if minor >? 1 then Ok SUPPORT_ENDING
    else Ok UPGRADE_AVAILABLE.
End VersionVerifier.

(** The decimal value of a string of digits. *)
Fixpoint digits_value (s : string) (acc : Z) : option Z :=
  match s with
  | EmptyString => Some acc
  | String c rest =>
      let d := Z.of_nat (Ascii.nat_of_ascii c) - 48 in
      if (0 <=? d) && (d <=? 9) then digits_value rest (10 * acc + d)
      else None
  end.

Definition parse_number (s : string) : option Z :=
  match s with
  | EmptyString => None
  | _ => digits_value s 0
  end.

(** Whether [c] is the one character of [s]. *)
Definition is_char (c : Ascii.ascii) (s : string) : bool :=
  String.eqb (String c EmptyString) s.

(** The text before the first [-] or [+]: the version without its
    pre-release and build parts. *)
Fixpoint version_core (s : string) : string :=
  match s with
  | EmptyString => EmptyString
  | String c rest =>
      if is_char c "-" || is_char c "+" then EmptyString
      else String c (version_core rest)
  end.

(** The fields of a string between dots. *)
Fixpoint dotted_fields (s : string) : list string :=
  match s with
  | EmptyString => [EmptyString]
  | String c rest =>
      if is_char c "."
      then EmptyString :: dotted_fields rest
      else match dotted_fields rest with
           | field :: fields => String c field :: fields
           | [] => [String c EmptyString]
           end
  end.

(** Modelled from the spec: the class [SemVer] of
    [googlecloudsdk.core.util.semver] is not under [src/]. The spec speaks of
    two semantic versions with a major, a minor and a patch part
    ([1.9.0], [1.10.0], [2.0.0]); a string that is not of that form does not
    parse. *)
Definition SemVer_spec (version : string) : result Version :=
  match parse_number <$> dotted_fields (version_core version) with
  | [Some major; Some minor; Some patch] =>
      Ok {| major := major; minor := minor; patch := patch |}
  | _ => Raise (ParseError version)
  end.

(** Modelled from the spec: [SemVer.Distance] is not under [src/]. The spec
    calls it a generic semantic-version distance (major, minor, patch), by
    which the main minor exceeds the node minor by 1, 2 or 3: the
    differences of the parts, first version minus second. *)
Definition Distance_spec (a b : Version) : Z * Z * Z :=
  (major a - major b, minor a - minor b, patch a - patch b).

End Upgrade.


(** ** functions/deploy/util.py *)

Module FunctionsDeploy.

(** A file of a directory tree: its path and its size in bytes. *)
Record File : Type := {
  file_path : string;
  getsize : Z;
}.

(** Modelled from the spec: [file_utils.GetTreeSizeBytes] of
    [googlecloudsdk.core.util.files] is not under [src/]. The spec measures
    the size of a local directory tree after ignore-file filtering: the sizes
    of the files of the tree that the predicate includes, added up. *)
Definition GetTreeSizeBytes_spec (tree : list File) (predicate : string → bool)
  : Z :=
  foldr (λ f result, if predicate (file_path f) then getsize f + result
                     else result) 0 tree.

Section ValidateUnpackedSourceSize.
(** [_GetChooser(path).IsIncluded], from [gcloudignore], and
    [file_utils.GetTreeSizeBytes]. *)
Context (IsIncluded : string → string → bool).
Context (GetTreeSizeBytes : string → (string → bool) → Z).

Definition _ValidateUnpackedSourceSize (path : string) : result () :=
  let predicate := IsIncluded path in
  let size_b := GetTreeSizeBytes path predicate in
  let size_limit_mb := 512 in
  let size_limit_b := size_limit_mb * 2 ^ 20 in
  if size_b >? size_limit_b
  then Raise (OversizedDeployment (str_int size_b +:+ "B")
                                  (str_int size_limit_b +:+ "B"))
  else Ok ().
End ValidateUnpackedSourceSize.

(** A chooser that leaves out [node_modules], and a file system with two
    directories: [exact] measures 512 MiB once [node_modules] is left out,
    [over] one byte more. *)
Definition skip_node_modules (_ : string) (file : string) : bool :=
  negb (String.prefix "node_modules/" file).

Definition synthetic_tree (path : string) : list File :=
  if String.eqb path "exact" then
    [ {| file_path := "index.js"; getsize := 536870000 |};
      {| file_path := "node_modules/dep/index.js"; getsize := 4096 |};
      {| file_path := "package.json"; getsize := 912 |} ]
  else if String.eqb path "over" then
    [ {| file_path := "index.js"; getsize := 536870000 |};
      {| file_path := "node_modules/dep/index.js"; getsize := 4096 |};
      {| file_path := "package.json"; getsize := 913 |} ]
  else [].

End FunctionsDeploy.


(** ** sql/instances.py *)

Module SqlInstances.

Inductive ReleaseTrack : Type := GA | BETA | ALPHA.
Definition DEFAULT_RELEASE_TRACK : ReleaseTrack := GA.

(** The two subclasses of [_BaseInstances]. *)
Inductive Dialect : Type := InstancesV1Beta3 | InstancesV1Beta4.

Definition STORAGE_TYPE_PREFIX : string := "PD_".

(** The command-line arguments read when an instance is created. *)
Record Args : Type := {
  tier : option string;
  memory : option Z;
  cpu : option Z;
  pricing_plan : option string;
  replication : option string;
  activation_policy : option string;
  authorized_gae_apps : option (list string);
  assign_ip : option bool;
  require_ssl : option bool;
  authorized_networks : option (list string);
  follow_gae_app : option string;
  gce_zone : option string;
  storage_size : option Z;
  storage_auto_increase : option bool;
  storage_auto_increase_limit : option Z;
  availability_type : option string;
  on_premises_host_port : option string;
  backup : option bool;
  backup_start_time : option string;
  enable_bin_log : option bool;
  database_flags : option (gmap string string);
  maintenance_release_channel : option string;
  maintenance_window_day : option string;
  maintenance_window_hour : option Z;
  storage_type : option string;
  region : option string;
  database_version : option string;
  main_instance_name : option string;
  replica_type : option string;
  failover_replica_name : option string;
  (* the destinations for which [args.IsSpecified] holds *)
  specified : gset string;
}.

Definition IsSpecified (args : Args) (dest : string) : bool :=
  bool_decide (dest ∈ specified args).

(** An authorized network: the string itself (v1beta3) or an [AclEntry]
    message around it (v1beta4). *)
Inductive Network : Type :=
| RawNetwork (n : string)
| AclEntry (value : string).

Record IpConfiguration : Type := {
  enabled : option bool;           (* v1beta3 *)
  ipv4Enabled : option bool;       (* v1beta4 *)
  authorizedNetworks : list Network;
  requireSsl : option bool;
}.

(** The field [backupConfiguration]: unset, a list (v1beta3) or one
    message (v1beta4). *)
Inductive BackupField (B : Type) : Type :=
| NoBackup
| BackupList (l : list B)
| BackupOne (b : B).
Arguments NoBackup {B}.
Arguments BackupList {B} l.
Arguments BackupOne {B} b.

Record LocationPreference : Type := {
  followGaeApplication : option string;
  zone : option string;
}.

Record ReplicaConfiguration : Type := { failoverTarget : option bool }.

Section Messages.
(** The messages built by [instance_prop_reducers] and [labels_util],
    which are not under [src/]. *)
Context {BackupConfiguration DatabaseFlags MaintenanceWindow UserLabels : Type}.

Record Settings : Type := {
  settings_tier : option string;
  pricingPlan : option string;
  replicationType : option string;
  activationPolicy : option string;
  authorizedGaeApplications : list string;
  ipConfiguration : option IpConfiguration;
  locationPreference : option LocationPreference;
  dataDiskSizeGb : option Z;
  storageAutoResize : option bool;
  storageAutoResizeLimit : option Z;
  availabilityType : option string;
  onPremisesConfiguration : option string;
  backupConfiguration : BackupField BackupConfiguration;
  databaseFlags : option DatabaseFlags;
  maintenanceWindow : option MaintenanceWindow;
  dataDiskType : option string;
  userLabels : option UserLabels;
}.

Record DatabaseInstance : Type := {
  project : option string;
  instance : option string;        (* v1beta3 *)
  name : option string;            (* v1beta4 *)
  instance_region : option string;
  databaseVersion : option string;
  mainInstanceName : option string;
  settings : option Settings;
  replicaConfiguration : option ReplicaConfiguration;
  failoverReplica : option string;
}.

(** [settings.replicationType = replication]. *)
Definition with_replicationType (replication : option string) (s : Settings)
  : Settings :=
  {| settings_tier := settings_tier s; pricingPlan := pricingPlan s;
     replicationType := replication;
     activationPolicy := activationPolicy s;
     authorizedGaeApplications := authorizedGaeApplications s;
     ipConfiguration := ipConfiguration s;
     locationPreference := locationPreference s;
     dataDiskSizeGb := dataDiskSizeGb s;
     storageAutoResize := storageAutoResize s;
     storageAutoResizeLimit := storageAutoResizeLimit s;
     availabilityType := availabilityType s;
     onPremisesConfiguration := onPremisesConfiguration s;
     backupConfiguration := backupConfiguration s;
     databaseFlags := databaseFlags s;
     maintenanceWindow := maintenanceWindow s;
     dataDiskType := dataDiskType s; userLabels := userLabels s |}.
End Messages.
Arguments Settings : clear implicits.
Arguments DatabaseInstance : clear implicits.

(** The functions of [api_lib.sql] and [labels_util] that the settings are
    built with, and the constant [constants.BYTES_TO_GB]; none of them is
    under [src/]. *)
Class Reducers (B F M L : Type) : Type := {
  BYTES_TO_GB : Z;
  MachineType :
    option (DatabaseInstance B F M L) → option string → option Z → option Z →
    result (option string);
  BackupConfiguration_of :
    option (DatabaseInstance B F M L) → option bool → option string →
    option bool → result (option B);
  DatabaseFlags_of :
    option (Settings B F M L) → option (gmap string string) →
    result (option F);
  MaintenanceWindow_of :
    option (DatabaseInstance B F M L) → option string → option string →
    option Z → result (option M);
  ParseCreateArgs : Args → result (option L);
  IsPostgresDatabaseVersion : option string → bool;
}.

(** The integer nearest to [num / den], the even one of two that are
    equally near ([0 <= num], [0 < den]). *)
Definition round_half_even (num den : Z) : Z :=
  let q := num / den in
  let r := num mod den in
  if 2 * r <? den then q
  else if den <? 2 * r then q + 1
  else if Z.even q then q else q + 1.

(** [int(n / d)] for [0 <= n] and [0 < d]. The quotient of two integers is
    the float nearest to it, of 53 significant bits: [m * 2 ^ e] with
    [2 ^ 52 <= m <= 2 ^ 53]; a quotient that has no float raises
    [OverflowError]. A quotient below one half gives a float of at most one
    half. [int] cuts the float to an integer. *)
Definition int_truediv_pos (n d : Z) : result Z :=
  if 2 * n <? d then Ok 0
  else
    let k := Z.log2 n - Z.log2 d in
    let lg :=
      if (if 0 <=? k then d * 2 ^ k <=? n else d <=? n * 2 ^ (- k))
      then k else k - 1 in
    let e := lg - 52 in
    if 0 <=? e then
      let m := round_half_even n (d * 2 ^ e) in
      if 2 ^ 1024 <=? m * 2 ^ e then Raise OverflowError else Ok (m * 2 ^ e)
    else
      let m := round_half_even (n * 2 ^ (- e)) d in
      Ok (m / 2 ^ (- e)).

(** [int(a / b)] under [from __future__ import division]: the float
    quotient, cut towards zero. *)
Definition int_truediv (a b : Z) : result Z :=
  if b =? 0 then Raise ZeroDivisionError
  else (λ q, Z.sgn a * Z.sgn b * q) <$> int_truediv_pos (Z.abs a) (Z.abs b).

Section Construct.
Context {B F M L : Type} `{!Reducers B F M L}.
Local Abbreviation Settings := (Settings B F M L).
Local Abbreviation DatabaseInstance := (DatabaseInstance B F M L).

(** [instance and instance.settings.storageAutoResize]. *)
Definition original_auto_resize (instance : option DatabaseInstance)
  : result bool :=
  match instance with
  | None => Ok false
  | Some i => match settings i with
              | Some s => Ok (truthy (storageAutoResize s))
              | None => Raise (AttributeError "storageAutoResize")
              end
  end.

Definition _ConstructBaseSettingsFromArgs (cls : Dialect) (args : Args)
    (instance : option DatabaseInstance) (release_track : ReleaseTrack)
  : result Settings :=
  tier ← MachineType instance (tier args) (memory args) (cpu args);
  let gae_apps :=
    if truthy (authorized_gae_apps args)
    then default [] (authorized_gae_apps args) else [] in
  let ip_configuration :=
    if is_not_None (assign_ip args) || is_not_None (require_ssl args)
       || truthy (authorized_networks args)
    then Some
      {| enabled := if cls is InstancesV1Beta3 then assign_ip args else None;
         ipv4Enabled := if cls is InstancesV1Beta4 then assign_ip args else None;
         authorizedNetworks :=
           (if cls is InstancesV1Beta3 then RawNetwork else AclEntry)
             <$> (if truthy (authorized_networks args)
                  then default [] (authorized_networks args) else []);
         requireSsl := require_ssl args |}
    else None in
  let location_preference :=
    if truthy (follow_gae_app args) || truthy (gce_zone args)
    then Some {| followGaeApplication := follow_gae_app args;
                 zone := gce_zone args |}
    else None in
  data_disk_size_gb ←
    (if truthy (storage_size args)
     then Some <$> int_truediv (default 0 (storage_size args)) BYTES_TO_GB
     else Ok None);
  (* BETA args. *)
  resize_limit ←
    (if release_track is BETA then
       if IsSpecified args "storage_auto_increase_limit" then
         original_resize ← original_auto_resize instance;
         if original_resize || truthy (storage_auto_increase args)
         then Ok (Some (or_default (storage_auto_increase_limit args) 0))
         else Raise (RequiredArgumentException "--storage-auto-increase"
                "To set the storage capacity limit using [--storage-auto-increase-limit], [--storage-auto-increase] must be enabled.")
       else Ok None
     else Ok None);
  let availability :=
    if release_track is BETA then
      if IsSpecified args "availability_type" then availability_type args
      else None
    else None in
  Ok {| settings_tier := tier;
        pricingPlan := pricing_plan args;
        replicationType := replication args;
        activationPolicy := activation_policy args;
        authorizedGaeApplications := gae_apps;
        ipConfiguration := ip_configuration;
        locationPreference := location_preference;
        dataDiskSizeGb := data_disk_size_gb;
        storageAutoResize := storage_auto_increase args;
        storageAutoResizeLimit := resize_limit;
        availabilityType := availability;
        onPremisesConfiguration := None;
        backupConfiguration := NoBackup;
        databaseFlags := None;
        maintenanceWindow := None;
        dataDiskType := None;
        userLabels := None |}.

Definition _ConstructCreateSettingsFromArgs (cls : Dialect) (args : Args)
    (instance : option DatabaseInstance) (release_track : ReleaseTrack)
  : result Settings :=
  let original_settings := instance ≫= settings in
  base ← _ConstructBaseSettingsFromArgs cls args instance release_track;
  on_premises ←
    (if truthy (on_premises_host_port args) then
       if truthy (require_ssl args)
       then Raise (ToolException
              "Argument --on-premises-host-port not allowed with --require_ssl")
       else Ok (on_premises_host_port args)
     else Ok None);
  backup_configuration ←
    BackupConfiguration_of instance (backup args) (backup_start_time args)
      (enable_bin_log args);
  let backup_field :=
    match backup_configuration with
    | Some b => if cls is InstancesV1Beta3 then BackupList [b] else BackupOne b
    | None => NoBackup
    end in
  flags ← DatabaseFlags_of original_settings (database_flags args);
  window ← MaintenanceWindow_of instance (maintenance_release_channel args)
             (maintenance_window_day args) (maintenance_window_hour args);
  let disk_type :=
    if truthy (storage_type args)
    then Some (STORAGE_TYPE_PREFIX +:+ default "" (storage_type args))
    else None in
  (* BETA args. *)
  labels ←
    (if release_track is BETA then
       labels ← ParseCreateArgs args;
       if IsSpecified args "availability_type"
          && negb (IsPostgresDatabaseVersion (database_version args))
       then Raise (InvalidArgumentException "--availability-type"
              "Cannot set [--availability-type] on a non-Postgres instance.")
       else Ok labels
     else Ok None);
  Ok {| settings_tier := settings_tier base;
        pricingPlan := pricingPlan base;
        replicationType := replicationType base;
        activationPolicy := activationPolicy base;
        authorizedGaeApplications := authorizedGaeApplications base;
        ipConfiguration := ipConfiguration base;
        locationPreference := locationPreference base;
        dataDiskSizeGb := dataDiskSizeGb base;
        storageAutoResize := storageAutoResize base;
        storageAutoResizeLimit := storageAutoResizeLimit base;
        availabilityType := availabilityType base;
        onPremisesConfiguration := on_premises;
        backupConfiguration := backup_field;
        databaseFlags := flags;
        maintenanceWindow := window;
        dataDiskType := disk_type;
        userLabels := labels |}.

(** [instance_ref]: the project and the instance it names. *)
Definition ConstructCreateInstanceFromArgs (cls : Dialect) (args : Args)
    (original : option DatabaseInstance)
    (instance_ref : option (string * string))
    (release_track : ReleaseTrack) : result DatabaseInstance :=
  settings ← _ConstructCreateSettingsFromArgs cls args original release_track;
  let replication :=
    if truthy (main_instance_name args) then "ASYNCHRONOUS" else "SYNCHRONOUS" in
  let replica_configuration :=
    if truthy (main_instance_name args)
       && bool_decide (replica_type args = Some "FAILOVER")
    then Some {| failoverTarget := Some true |}
    else None in
  let settings :=
    if negb (truthy (SqlInstances.replication args))
    then with_replicationType (Some replication) settings
    else settings in
  Ok {| project := fst <$> instance_ref;
        instance := if cls is InstancesV1Beta3 then snd <$> instance_ref
                    else None;
        name := if cls is InstancesV1Beta4 then snd <$> instance_ref else None;
        instance_region := region args;
        databaseVersion := database_version args;
        mainInstanceName := main_instance_name args;
        SqlInstances.settings := Some settings;
        replicaConfiguration := replica_configuration;
        failoverReplica :=
          if truthy (failover_replica_name args)
          then failover_replica_name args else None |}.
End Construct.


(** Reducers that pass the tier through and build no backup configuration,
    flags, maintenance window or labels; and arguments that set only the
    tier, the main instance, the replica type and the replication. *)
Definition plain_reducers : Reducers () () () () :=
  {| BYTES_TO_GB := 2 ^ 30;
     MachineType := λ _ tier _ _, Ok tier;
     BackupConfiguration_of := λ _ _ _ _, Ok None;
     DatabaseFlags_of := λ _ _, Ok None;
     MaintenanceWindow_of := λ _ _ _ _, Ok None;
     ParseCreateArgs := λ _, Ok None;
     IsPostgresDatabaseVersion := λ v,
       if v is Some s then String.prefix "POSTGRES" s else false |}.

Definition replica_args (main replica replication : option string) : Args :=
  {| tier := Some "db-n1-standard-1"; memory := None; cpu := None;
     pricing_plan := None; replication := replication;
     activation_policy := None; authorized_gae_apps := None;
     assign_ip := None; require_ssl := None; authorized_networks := None;
     follow_gae_app := None; gce_zone := None; storage_size := None;
     storage_auto_increase := None; storage_auto_increase_limit := None;
     availability_type := None; on_premises_host_port := None;
     backup := None; backup_start_time := None; enable_bin_log := None;
     database_flags := None; maintenance_release_channel := None;
     maintenance_window_day := None; maintenance_window_hour := None;
     storage_type := None; region := Some "us-central1";
     database_version := Some "MYSQL_5_7"; main_instance_name := main;
     replica_type := replica; failover_replica_name := None;
     specified := ∅ |}.

(** Reducers that build a backup configuration, the start time, when
    [--backup] is given, and otherwise do as [plain_reducers]. *)
Definition backup_reducers : Reducers string () () () :=
  {| BYTES_TO_GB := 2 ^ 30;
     MachineType := λ _ tier _ _, Ok tier;
     BackupConfiguration_of := λ _ backup start_time _,
       Ok (if truthy backup then Some (default "" start_time) else None);
     DatabaseFlags_of := λ _ _, Ok None;
     MaintenanceWindow_of := λ _ _ _ _, Ok None;
     ParseCreateArgs := λ _, Ok None;
     IsPostgresDatabaseVersion := λ v,
       if v is Some s then String.prefix "POSTGRES" s else false |}.

(** Arguments that set an IP configuration, a storage size of 10 GB, a
    zone and a backup. *)
Definition network_args : Args :=
  {| tier := Some "db-n1-standard-1"; memory := None; cpu := None;
     pricing_plan := Some "PER_USE"; replication := None;
     activation_policy := Some "ALWAYS"; authorized_gae_apps := None;
     assign_ip := Some true; require_ssl := Some false;
     authorized_networks := Some ["10.0.0.0/8"; "192.168.0.0/16"];
     follow_gae_app := None; gce_zone := Some "us-central1-a";
     storage_size := Some (10 * 2 ^ 30);
     storage_auto_increase := Some true; storage_auto_increase_limit := None;
     availability_type := None; on_premises_host_port := None;
     backup := Some true; backup_start_time := Some "04:00";
     enable_bin_log := None;
     database_flags := None; maintenance_release_channel := None;
     maintenance_window_day := None; maintenance_window_hour := None;
     storage_type := Some "SSD"; region := Some "us-central1";
     database_version := Some "MYSQL_5_7"; main_instance_name := None;
     replica_type := None; failover_replica_name := None;
     specified := ∅ |}.


End SqlInstances.


(** ** More exception classes *)

Module PyMore.

(** Exceptions raised by the code below that [Py.exn] does not list; [Exn]
    holds the ones it does. *)
Inductive exc : Type :=
| Exn (e : exn)
| NodePoolError (msg : string)          (* command_lib.container.container_command_util *)
| MinimumArgumentException (parameter_names : list string) (msg : string)
| ConflictingArgumentsException (args : list string)
| MissingArgForSharedSubnetError (opt : string) (* api_lib.container.util *)
| MissingEnvVarError (msg : string)     (* kubeconfig *)
| FunctionsError (msg : string)         (* api_lib.functions.exceptions *)
| ValueError (msg : string)
| IOError (msg : string)
| InternalError.

Inductive outcome (A : Type) : Type :=
| Return (a : A)
| Throw (e : exc).
Arguments Return {A} a.
Arguments Throw {A} e.

Global Instance outcome_ret : MRet outcome := λ A a, Return a.
Global Instance outcome_bind : MBind outcome := λ A B k r,
  match r with
  | Return a => k a
  | Throw e => Throw e
  end.

(** A call of a function that raises only the exceptions of [Py.exn]. *)
Definition lift {A} (r : result A) : outcome A :=
  match r with
  | Ok a => Return a
  | Raise e => Throw (Exn e)
  end.

Definition returns {A} (r : outcome A) : bool :=
  match r with Return _ => true | Throw _ => false end.

End PyMore.

Import PyMore.

(** ** api_adapter.py: looking up clusters and node pools *)

Module Lookup.

Definition WRONG_ZONE_ERROR_MSG (error name wrong_zone zone : string) : string :=
  error +:+ "
Could not find [" +:+ name +:+ "] in [" +:+ wrong_zone +:+ "].
Did you mean [" +:+ name +:+ "] in [" +:+ zone +:+ "]?".

Definition NO_SUCH_CLUSTER_ERROR_MSG (error name project : string) : string :=
  error +:+ "
No cluster named '" +:+ name +:+ "' in " +:+ project +:+ ".".

Definition NO_SUCH_NODE_POOL_ERROR_MSG (name cluster : string) : string :=
  "No node pool named '" +:+ name +:+ "' in " +:+ cluster +:+ ".".

Definition NO_NODE_POOL_SELECTED_ERROR_MSG : string :=
  "Please specify one of the following node pools:
".

(** A cluster resource: [clusterId], [zone] and [projectId]. *)
Record ClusterRef : Type := {
  clusterId : string;
  ref_zone : string;
  projectId : string;
}.

Section Lookup.
Context {NodeConfig : Type}.
Local Abbreviation NodePool := (ApiAdapter.NodePool NodeConfig).

(** The fields of the [Cluster] message read by the lookups. *)
Record Cluster : Type := {
  name : string;
  zone : string;
  nodePools : list NodePool;
}.

(** [os.linesep]. *)
Context (linesep : string).

Definition FindNodePool (cluster : Cluster) (pool_name : option string)
  : result NodePool :=
  let listing :=
    NO_NODE_POOL_SELECTED_ERROR_MSG
    +:+ String.concat linesep (ApiAdapter.name <$> nodePools cluster) in
  if truthy pool_name then
    let pool_name := default "" pool_name in
    match List.find (λ np, String.eqb (ApiAdapter.name np) pool_name)
            (nodePools cluster) with
    | Some np => Ok np
    | None =>
        Raise (UtilError (NO_SUCH_NODE_POOL_ERROR_MSG pool_name (name cluster)
                          +:+ linesep +:+ listing))
    end
  else
    match nodePools cluster with
    | [np] => Ok np
    | _ => Raise (UtilError ("" +:+ listing))
    end.

(** [container_command_util._NodePoolFromCluster]. *)
Definition _NodePoolFromCluster (cluster : Cluster) (node_pool_name : string)
  : outcome NodePool :=
  match List.find (λ node_pool, String.eqb (ApiAdapter.name node_pool)
                                  node_pool_name)
          (nodePools cluster) with
  | Some node_pool => Return node_pool
  | None => Throw (NodePoolError ("No node pool found matching the name ["
                                  +:+ node_pool_name +:+ "]."))
  end.

(** The loop of [TryToGetCluster] over the clusters listed. *)
Fixpoint find_wrong_zone (cluster_ref : ClusterRef) (api_error : string)
    (clusters : list Cluster) : result () :=
  match clusters with
  | [] => Ok ()
  | cluster :: rest =>
      if String.eqb (name cluster) (clusterId cluster_ref)
      then Raise (UtilError (WRONG_ZONE_ERROR_MSG api_error
                    (clusterId cluster_ref) (ref_zone cluster_ref)
                    (zone cluster)))
      else find_wrong_zone cluster_ref api_error rest
  end.

(** [self.ListClusters(project).clusters] and
    [self.client.projects_zones_clusters.Get] are calls to the service. *)
Context (ListClusters : string → api_result (list Cluster)).
Context (Get : ClusterRef → api_result Cluster).
(** [str(exceptions.HttpException(error, util.HTTP_ERROR_FORMAT))] for
    the not-found error of a cluster. *)
Context (api_error_of : ClusterRef → string).

(** The status of the error caught as [apitools_exceptions.HttpError]. *)
Definition status_of {A} (r : api_result A) : Z :=
  match r with
  | RaisedHttpError status_code => status_code
  | _ => 404
  end.

Definition TryToGetCluster (cluster_ref : ClusterRef) (api_error : string)
  : result () :=
  match ListClusters (projectId cluster_ref) with
  | Returned clusters =>
      _ ← find_wrong_zone cluster_ref api_error clusters;
      Raise (UtilError (NO_SUCH_CLUSTER_ERROR_MSG api_error
                          (clusterId cluster_ref) (projectId cluster_ref)))
  | failed => Raise (HttpException (status_of failed))
  end.

(** [V1Adapter.GetCluster]: [None] is what the call evaluates to when the
    handler of the not-found error runs to its end. *)
Definition GetCluster (cluster_ref : ClusterRef) : result (option Cluster) :=
  match Get cluster_ref with
  | Returned cluster => Ok (Some cluster)
  | RaisedHttpNotFoundError =>
      _ ← TryToGetCluster cluster_ref (api_error_of cluster_ref);
      Ok None
  | RaisedHttpError status_code => Raise (HttpException status_code)
  end.
End Lookup.
Arguments Cluster : clear implicits.

(** A cluster with two pools, in zone [us-east1-b]. *)
Definition two_pool_cluster : Cluster () :=
  {| name := "prod"; zone := "us-east1-b";
     nodePools :=
       [ApiAdapter.make_pool (ApiAdapter.sharding_options 3 1000) () "default-pool" 3;
        ApiAdapter.make_pool (ApiAdapter.sharding_options 3 1000) () "gpu-pool" 1] |}.


End Lookup.


(** ** api_adapter.py: the cluster lookup of the label update *)

Module LabelsLookup.
Import Lookup.

Section GetCluster.
Context {NodeConfig : Type}.
(** [self.ListClusters(project).clusters], the [Get] request of the
    client, answering with the message whose fingerprint is read, and the
    text of the not-found error. *)
Context (ListClusters : string → api_result (list (Cluster NodeConfig))).
Context (Get : ClusterRef → api_result ApiAdapter.Cluster).
Context (api_error_of : ClusterRef → string).

(** [GetCluster] of [V1Adapter] and of [V1Beta1Adapter], as the label
    update calls it: it catches both [apitools] exceptions itself, so what
    it raises is an exception of the SDK. *)
Definition GetCluster (cluster_ref : ClusterRef) : ApiAdapter.get_result :=
  match Get cluster_ref with
  | Returned cluster => ApiAdapter.GetReturned (Some cluster)
  | RaisedHttpNotFoundError =>
      match TryToGetCluster ListClusters cluster_ref
              (api_error_of cluster_ref) with
      | Ok _ => ApiAdapter.GetReturned None
      | Raise e => ApiAdapter.GetRaised e
      end
  | RaisedHttpError status_code =>
      ApiAdapter.GetRaised (HttpException status_code)
  end.
End GetCluster.

(** A project in which the listing answers with no cluster, and a cluster
    reference into it. *)
Definition no_clusters : string → api_result (list (Cluster ())) :=
  λ _, Returned [].

Definition prod_ref : ClusterRef :=
  {| clusterId := "prod"; ref_zone := "us-east1-b"; projectId := "p1" |}.

End LabelsLookup.

(** ** api_adapter.py: removing labels *)

Module ClusterLabels.

Definition NO_SUCH_LABEL_ERROR_MSG (name cluster : string) : string :=
  "No label named '" +:+ name +:+ "' found on cluster '" +:+ cluster +:+ "'.".

Definition NO_LABELS_ON_CLUSTER_ERROR_MSG (cluster : string) : string :=
  "Cluster '" +:+ cluster +:+ "' has no labels to remove.".

(** The fields of the [Cluster] message read by [RemoveLabelsCommon];
    [resourceLabels] holds the [additionalProperties] of the labels
    message. *)
Record Cluster : Type := {
  name : string;
  resourceLabels : option (list (string * string));
  labelFingerprint : option string;
}.

(** [for item in ...: clus_labels[item.key] = str(item.value)]. *)
Definition labels_dict (items : list (string * string)) : gmap string string :=
  foldl (λ clus_labels item, <[item.1 := item.2]> clus_labels) ∅ items.

(** [for k in remove_labels: clus_labels.pop(k)], a missing key being an
    error. *)
Fixpoint pop_all (cluster : string) (remove_labels : list string)
    (clus_labels : gmap string string) : result (gmap string string) :=
  match remove_labels with
  | [] => Ok clus_labels
  | k :: rest =>
      match clus_labels !! k with
      | Some _ => pop_all cluster rest (delete k clus_labels)
      | None => Raise (UtilError (NO_SUCH_LABEL_ERROR_MSG k cluster))
      end
  end.

Section RemoveLabels.
Context {ClusterRef : Type} (GetCluster : ClusterRef → api_result Cluster).

Definition RemoveLabelsCommon (cluster_ref : ClusterRef)
    (remove_labels : list string)
  : result (list (string * string) * option string) :=
  clus ← match GetCluster cluster_ref with
         | Returned c => Ok (Some c)
         | RaisedHttpNotFoundError => Ok None
         | RaisedHttpError status_code => Raise (HttpException status_code)
         end;
  match clus with
  | None => Raise (AttributeError "resourceLabels")
  | Some clus =>
      let clus_labels :=
        match resourceLabels clus with
        | Some items => labels_dict items
        | None => ∅
        end in
      if negb (truthy clus_labels)
      then Raise (UtilError (NO_LABELS_ON_CLUSTER_ERROR_MSG (name clus)))
      else
        clus_labels ← pop_all (name clus) remove_labels clus_labels;
        Ok (ApiAdapter.sorted_items clus_labels, labelFingerprint clus)
  end.
End RemoveLabels.

Definition labelled_cluster : Cluster :=
  {| name := "prod";
     resourceLabels := Some [("env", "prod"); ("team", "infra"); ("app", "web")];
     labelFingerprint := Some "f1" |}.

End ClusterLabels.

(** ** api_adapter.py: node taints *)

Module NodeTaints.

Definition NODE_TAINT_INCORRECT_FORMAT_ERROR_MSG (key value : string) : string :=
  "Invalid value [" +:+ key +:+ "=" +:+ value
  +:+ "] for argument --node-taints. Node taint is of format key=value:effect
".

Definition NODE_TAINT_INCORRECT_EFFECT_ERROR_MSG (effect : string) : string :=
  "Invalid taint effect [" +:+ effect
  +:+ "] for argument --node-taints. Valid effect values are NoSchedule, PreferNoSchedule, NoExecute'
".

Inductive EffectValueValuesEnum : Type :=
| NO_SCHEDULE | PREFER_NO_SCHEDULE | NO_EXECUTE.

Record NodeTaint : Type := {
  key : string;
  value : string;
  effect : EffectValueValuesEnum;
}.

(** [s.split(sep)] for a separator of one character. *)
Fixpoint split (sep : Ascii.ascii) (s : string) : list string :=
  match s with
  | EmptyString => [EmptyString]
  | String c rest =>
      if Ascii.eqb c sep then EmptyString :: split sep rest
      else match split sep rest with
           | field :: fields => String c field :: fields
           | [] => [String c EmptyString]
           end
  end.

(** The character [:]. *)
Definition colon : Ascii.ascii := Ascii.ascii_of_nat 58.

(** The body of the loop, for one item of the dictionary. *)
Definition parse_taint (item : string * string) : result NodeTaint :=
  let '(key, value) := item in
  match split colon value with
  | [value'; taint_effect] =>
      effect ←
        (if String.eqb taint_effect "NoSchedule" then Ok NO_SCHEDULE
         else if String.eqb taint_effect "PreferNoSchedule"
         then Ok PREFER_NO_SCHEDULE
         else if String.eqb taint_effect "NoExecute" then Ok NO_EXECUTE
         else Raise (UtilError
                (NODE_TAINT_INCORRECT_EFFECT_ERROR_MSG taint_effect)));
      Ok {| key := key; value := value'; effect := effect |}
  | _ => Raise (UtilError (NODE_TAINT_INCORRECT_FORMAT_ERROR_MSG key value))
  end.

Fixpoint parse_taints (items : list (string * string))
  : result (list NodeTaint) :=
  match items with
  | [] => Ok []
  | item :: rest =>
      taint ← parse_taint item;
      taints ← parse_taints rest;
      Ok (taint :: taints)
  end.

(** [_AddNodeTaintsToNodeConfig]: the value of [node_config.taints] after the
    call, [None] when the field is left as it was. *)
Definition _AddNodeTaintsToNodeConfig (node_taints : option (gmap string string))
  : result (option (list NodeTaint)) :=
  match node_taints with
  | None => Ok None
  | Some node_taints =>
      Some <$> parse_taints (ApiAdapter.sorted_items node_taints)
  end.

(** The name of an effect on the command line. *)
Definition effect_name (e : EffectValueValuesEnum) : string :=
  match e with
  | NO_SCHEDULE => "NoSchedule"
  | PREFER_NO_SCHEDULE => "PreferNoSchedule"
  | NO_EXECUTE => "NoExecute"
  end.

(** Whether the character [c] occurs in [s]. *)
Fixpoint has_char (c : Ascii.ascii) (s : string) : bool :=
  match s with
  | EmptyString => false
  | String c' rest => Ascii.eqb c' c || has_char c rest
  end.

(** The taint [value:effect] as it is written on the command line. *)
Definition taint_text (value : string) (e : EffectValueValuesEnum) : string :=
  value +:+ String colon (effect_name e).


End NodeTaints.


(** ** api_adapter.py: node identity *)

Module NodeIdentity.

Definition _SERVICE_ACCOUNT_SCOPES : list string :=
  ["https://www.googleapis.com/auth/cloud-platform"].

Definition _OLD_REQUIRED_SCOPES : list string :=
  ["https://www.googleapis.com/auth/compute";
   "https://www.googleapis.com/auth/devstorage.read_only"].

Definition _ENDPOINTS_SCOPES : list string :=
  ["https://www.googleapis.com/auth/servicecontrol";
   "https://www.googleapis.com/auth/service.management.readonly"].

(** The attributes of the options read by
    [NodeIdentityOptionsToNodeConfig]. *)
Record Options : Type := {
  service_account : option string;
  new_scopes_behavior : option bool;
  scopes : option (list string);
  enable_cloud_endpoints : option bool;
}.

(** [for scope in required: if scope not in scopes: scopes += required;
    break], [todo] being what is left of [required]. *)
Fixpoint add_if_missing (required todo scopes : list string) : list string :=
  match todo with
  | [] => scopes
  | scope :: rest =>
      if bool_decide (scope ∈ scopes)
      then add_if_missing required rest scopes
      else scopes ++ required
  end.

(** [sorted(set(scopes))]. *)
Definition sorted_set (scopes : list string) : list string :=
  merge_sort String.le (remove_dups scopes).

Section NodeIdentity.
(** The table [constants.SCOPES] of [api_lib.compute.constants] and the
    property [container/new_scopes_behavior]. *)
Context (SCOPES : gmap string (list string)).
Context (new_scopes_behavior_property : option bool).

Definition ExpandScopeURIs (scopes : option (list string))
  : result (list string) :=
  match scopes with
  | None => Raise TypeError
  | Some scopes => Ok (scopes ≫= λ scope, default [scope] (SCOPES !! scope))
  end.

(** The model returns [node_config.serviceAccount] and
    [node_config.oauthScopes] as they are after the call. *)
Definition NodeIdentityOptionsToNodeConfig (options : Options)
  : result (option string * list string) :=
  let new_scopes_behavior :=
    if truthy new_scopes_behavior_property then Some true
    else new_scopes_behavior options in
  scopes ←
    (if truthy (service_account options) then Ok _SERVICE_ACCOUNT_SCOPES
     else if truthy new_scopes_behavior then ExpandScopeURIs (scopes options)
     else
       let scopes := if truthy (scopes options) then scopes options
                     else Some [] in
       scopes ← ExpandScopeURIs scopes;
       let scopes :=
         if truthy (enable_cloud_endpoints options)
         then add_if_missing _ENDPOINTS_SCOPES _ENDPOINTS_SCOPES scopes
         else filter (λ x, x ∉ _ENDPOINTS_SCOPES) scopes in
       Ok (add_if_missing _OLD_REQUIRED_SCOPES _OLD_REQUIRED_SCOPES scopes));
  Ok (if truthy (service_account options) then service_account options
      else None,
      sorted_set scopes).
End NodeIdentity.

(** A scope table with one alias, and options of the deprecated kind. *)
Definition alias_table : gmap string (list string) :=
  {[ "storage-rw" := ["https://www.googleapis.com/auth/devstorage.read_write"] ]}.

Definition legacy_options (scopes : option (list string))
    (endpoints : option bool) : Options :=
  {| service_account := None; new_scopes_behavior := None; scopes := scopes;
     enable_cloud_endpoints := endpoints |}.

End NodeIdentity.


(** ** api_adapter.py: the network stages of [CreateClusterCommon] *)

Module ClusterNetwork.

Definition CREATE_SUBNETWORK_INVALID_KEY_ERROR_MSG (key : string) : string :=
  "Invalid key '" +:+ key
  +:+ "' for --create-subnetwork (must be one of 'name', 'range').
".

Definition CREATE_SUBNETWORK_WITH_SUBNETWORK_ERROR_MSG : string :=
  "Cannot specify both --subnetwork and --create-subnetwork at the same time.
".

Definition CREATE_SUBNETWORK_WITH_EXPLICIT_SECONDARY_RANGES_ERROR_MSG : string :=
  "Cannot use --create-subnetwork with explicit secondary range options
(--cluster-secondary-range-name, --services-secondary-range-name).
".

Definition MISSING_EXPLICIT_SECONDARY_RANGE_ERROR_MSG : string :=
  "Must specify both --cluster-secondary-range-name and --services-secondary-range-name.
".

Definition ALLOW_ROUTE_OVERLAP_WITHOUT_CLUSTER_CIDR_ERROR_MSG : string :=
  "Flag --cluster-ipv4-cidr must be fully specified (e.g. `10.96.0.0/14`, but not `/14`) with --allow-route-overlap.
".

Definition ALLOW_ROUTE_OVERLAP_WITHOUT_SERVICES_CIDR_ERROR_MSG : string :=
  "Flag --services-ipv4-cidr must be fully specified (e.g. `10.96.0.0/14`, but not `/14`) with --allow-route-overlap and --enable-ip-alias.
".

(** The attributes of [CreateClusterOptions] read by the five parse stages
    at the end of [CreateClusterCommon]. *)
Record Options : Type := {
  enable_shared_network : option bool;
  enable_kubernetes_alpha : option bool;
  enable_ip_alias : option bool;
  subnetwork : option string;
  cluster_secondary_range_name : option string;
  services_secondary_range_name : option string;
  services_ipv4_cidr : option string;
  create_subnetwork : option (gmap string string);
  cluster_ipv4_cidr : option string;
  tpu_ipv4_cidr : option string;
  enable_tpu : option bool;
  allow_route_overlap : option bool;
  private_cluster : option bool;
  main_ipv4_cidr : option string;
}.

Record IPAllocationPolicy : Type := {
  useIpAliases : option bool;
  createSubnetwork : option bool;
  subnetworkName : option string;
  clusterIpv4CidrBlock : option string;
  nodeIpv4CidrBlock : option string;
  servicesIpv4CidrBlock : option string;
  clusterSecondaryRangeName : option string;
  servicesSecondaryRangeName : option string;
  tpuIpv4CidrBlock : option string;
  allowRouteOverlap : option bool;
}.

Record NetworkConfig : Type := { enableSharedNetwork : option bool }.

(** The [Cluster] message: the fields the TPU and private-cluster stages
    write ([base]) and the fields of the network stages. *)
Record Cluster : Type := {
  base : ApiAdapter.Cluster;
  clusterIpv4Cidr : option string;
  networkConfig : option NetworkConfig;
  ipAllocationPolicy : option IPAllocationPolicy;
}.

(** [for name, opt in options: if not opt: raise ...(name)], the options
    given by their truth values: the name of the first that is not set. *)
Definition first_unset (options : list (string * bool)) : option string :=
  fst <$> List.find (λ o, negb o.2) options.

(** The name of the first option that is set. *)
Definition first_set (options : list (string * bool)) : option string :=
  fst <$> List.find snd options.

(** The options that shared networking requires, with their truth values,
    in the order in which they are tested. *)
Definition req_related_options (options : Options) : list (string * bool) :=
  [("enable-kubernetes-alpha", truthy (enable_kubernetes_alpha options));
   ("enable-ip-alias", truthy (enable_ip_alias options));
   ("subnetwork", truthy (subnetwork options));
   ("cluster-secondary-range-name",
    truthy (cluster_secondary_range_name options));
   ("services-secondary-range-name",
    truthy (services_secondary_range_name options))].

Definition ParseNetworkConfigOptions (options : Options) (cluster : Cluster)
  : outcome Cluster :=
  if negb (truthy (enable_shared_network options)) then Return cluster
  else
    match first_unset (req_related_options options) with
    | Some name => Throw (MissingArgForSharedSubnetError name)
    | None =>
        Return {| base := base cluster;
                  clusterIpv4Cidr := clusterIpv4Cidr cluster;
                  networkConfig :=
                    Some {| enableSharedNetwork :=
                              enable_shared_network options |};
                  ipAllocationPolicy := ipAllocationPolicy cluster |}
    end.

Definition ParseIPAliasOptions (options : Options) (cluster : Cluster)
  : result Cluster :=
  let ip_alias_only_options :=
    [("services-ipv4-cidr", truthy (services_ipv4_cidr options));
     ("create-subnetwork", truthy (create_subnetwork options));
     ("cluster-secondary-range-name",
      truthy (cluster_secondary_range_name options));
     ("services-secondary-range-name",
      truthy (services_secondary_range_name options))] in
  match (if negb (truthy (enable_ip_alias options))
         then first_set ip_alias_only_options else None) with
  | Some name =>
      Raise (UtilError (ApiAdapter.PREREQUISITE_OPTION_ERROR_MSG
                          "enable-ip-alias" name))
  | None =>
      if truthy (subnetwork options) && is_not_None (create_subnetwork options)
      then Raise (UtilError CREATE_SUBNETWORK_WITH_SUBNETWORK_ERROR_MSG)
      else if is_not_None (create_subnetwork options)
              && (truthy (cluster_secondary_range_name options)
                  || truthy (services_secondary_range_name options))
      then Raise (UtilError
             CREATE_SUBNETWORK_WITH_EXPLICIT_SECONDARY_RANGES_ERROR_MSG)
      else if (truthy (cluster_secondary_range_name options)
               && negb (truthy (services_secondary_range_name options)))
              || (negb (truthy (cluster_secondary_range_name options))
                  && truthy (services_secondary_range_name options))
      then Raise (UtilError MISSING_EXPLICIT_SECONDARY_RANGE_ERROR_MSG)
      else if truthy (enable_ip_alias options) then
        names ←
          match create_subnetwork options with
          | None => Ok (None, None)
          | Some d =>
              match List.find (λ key, negb (bool_decide (key ∈ ["name"; "range"])))
                      (map_to_list d).*1 with
              | Some key =>
                  Raise (UtilError (CREATE_SUBNETWORK_INVALID_KEY_ERROR_MSG key))
              | None => Ok (d !! "name", d !! "range")
              end
          end;
        let policy :=
          {| useIpAliases := enable_ip_alias options;
             createSubnetwork := Some (is_not_None (create_subnetwork options));
             subnetworkName := names.1;
             clusterIpv4CidrBlock := cluster_ipv4_cidr options;
             nodeIpv4CidrBlock := names.2;
             servicesIpv4CidrBlock := services_ipv4_cidr options;
             clusterSecondaryRangeName := cluster_secondary_range_name options;
             servicesSecondaryRangeName := services_secondary_range_name options;
             tpuIpv4CidrBlock :=
               if truthy (tpu_ipv4_cidr options) then tpu_ipv4_cidr options
               else None;
             allowRouteOverlap := None |} in
        Ok {| base := base cluster;
              clusterIpv4Cidr := None;
              networkConfig := networkConfig cluster;
              ipAllocationPolicy := Some policy |}
      else Ok cluster
  end.

Definition ParseAllowRouteOverlapOptions (options : Options) (cluster : Cluster)
  : result Cluster :=
  if negb (truthy (allow_route_overlap options)) then Ok cluster
  else if negb (is_not_None (cluster_ipv4_cidr options))
  then Raise (UtilError ALLOW_ROUTE_OVERLAP_WITHOUT_CLUSTER_CIDR_ERROR_MSG)
  else if truthy (enable_ip_alias options)
          && negb (is_not_None (services_ipv4_cidr options))
  then Raise (UtilError ALLOW_ROUTE_OVERLAP_WITHOUT_SERVICES_CIDR_ERROR_MSG)
  else
    let policy :=
      match ipAllocationPolicy cluster with
      | None =>
          {| useIpAliases := None; createSubnetwork := None;
             subnetworkName := None; clusterIpv4CidrBlock := None;
             nodeIpv4CidrBlock := None; servicesIpv4CidrBlock := None;
             clusterSecondaryRangeName := None;
             servicesSecondaryRangeName := None; tpuIpv4CidrBlock := None;
             allowRouteOverlap := Some true |}
      | Some p =>
          {| useIpAliases := useIpAliases p;
             createSubnetwork := createSubnetwork p;
             subnetworkName := subnetworkName p;
             clusterIpv4CidrBlock := clusterIpv4CidrBlock p;
             nodeIpv4CidrBlock := nodeIpv4CidrBlock p;
             servicesIpv4CidrBlock := servicesIpv4CidrBlock p;
             clusterSecondaryRangeName := clusterSecondaryRangeName p;
             servicesSecondaryRangeName := servicesSecondaryRangeName p;
             tpuIpv4CidrBlock := tpuIpv4CidrBlock p;
             allowRouteOverlap := Some true |}
      end in
    Ok {| base := base cluster;
          clusterIpv4Cidr := clusterIpv4Cidr cluster;
          networkConfig := networkConfig cluster;
          ipAllocationPolicy := Some policy |}.

Definition with_base (b : ApiAdapter.Cluster) (cluster : Cluster) : Cluster :=
  {| base := b; clusterIpv4Cidr := clusterIpv4Cidr cluster;
     networkConfig := networkConfig cluster;
     ipAllocationPolicy := ipAllocationPolicy cluster |}.

Definition ParsePrivateClusterOptions (options : Options) (cluster : Cluster)
  : Cluster :=
  if truthy (private_cluster options)
  then with_base
         {| ApiAdapter.enableKubernetesAlpha :=
              ApiAdapter.enableKubernetesAlpha (base cluster);
            ApiAdapter.mainIpv4CidrBlock := main_ipv4_cidr options;
            ApiAdapter.privateCluster := private_cluster options;
            ApiAdapter.enableTpu := ApiAdapter.enableTpu (base cluster);
            ApiAdapter.labelFingerprint :=
              ApiAdapter.labelFingerprint (base cluster) |}
         cluster
  else cluster.

(** The options as [ParseTpuOptions] reads them. *)
Definition tpu_view (options : Options) : ApiAdapter.CreateClusterOptions :=
  ApiAdapter.tpu_options (enable_tpu options) (enable_kubernetes_alpha options)
    (enable_ip_alias options) (tpu_ipv4_cidr options).

(** The five calls at the end of [CreateClusterCommon], in their order. *)
Definition parse_stages (options : Options) (cluster : Cluster)
  : outcome Cluster :=
  cluster ← ParseNetworkConfigOptions options cluster;
  cluster ← lift (ParseIPAliasOptions options cluster);
  cluster ← lift (ParseAllowRouteOverlapOptions options cluster);
  let cluster := ParsePrivateClusterOptions options cluster in
  b ← lift (ApiAdapter.ParseTpuOptions (tpu_view options) (base cluster));
  Return (with_base b cluster).

(** A cluster message with no field set. *)
Definition new_cluster : Cluster :=
  {| base := ApiAdapter.empty_cluster; clusterIpv4Cidr := None;
     networkConfig := None; ipAllocationPolicy := None |}.

(** An alpha cluster on a shared network with TPUs, private nodes and
    route overlap. *)
Definition shared_tpu_options : Options :=
  {| enable_shared_network := Some true;
     enable_kubernetes_alpha := Some true;
     enable_ip_alias := Some true;
     subnetwork := Some "shared-subnet";
     cluster_secondary_range_name := Some "pods";
     services_secondary_range_name := Some "services";
     services_ipv4_cidr := Some "10.4.0.0/19";
     create_subnetwork := None;
     cluster_ipv4_cidr := Some "10.0.0.0/14";
     tpu_ipv4_cidr := Some "10.8.0.0/19";
     enable_tpu := Some true;
     allow_route_overlap := Some true;
     private_cluster := Some true;
     main_ipv4_cidr := Some "172.16.0.0/28" |}.


End ClusterNetwork.


(** ** kubeconfig.py: loading and saving *)

Module KubeconfigFile.
Import Kubeconfig.

(** [not data] on a loaded document is [negb (truthy_value data)]. *)
Definition truthy_value (v : value) : bool :=
  match v with
  | VNone => false
  | VBool b => b
  | VInt n => truthy n
  | VStr s => truthy s
  | VList l => truthy l
  | VDict d => truthy d
  end.

(** The keys of a dictionary: the values that can be hashed. [True] and
    [False] are the keys [1] and [0]. *)
Inductive name : Type :=
| NNone
| NNum (n : Z)
| NStr (s : string).

Global Instance name_eq_dec : EqDecision name.
Proof. solve_decision. Defined.

Global Instance name_countable : Countable name.
Proof.
  refine (inj_countable'
            (λ k, match k with
                  | NNone => inl ()
                  | NNum n => inr (inl n)
                  | NStr s => inr (inr s)
                  end)
            (λ x, match x with
                  | inl _ => NNone
                  | inr (inl n) => NNum n
                  | inr (inr s) => NStr s
                  end) _).
  by intros [].
Defined.

(** The key that a value is stored under, when it can be hashed; lists and
    dictionaries cannot. *)
Definition key_of (v : value) : option name :=
  match v with
  | VNone => Some NNone
  | VBool b => Some (NNum (if b then 1 else 0))
  | VInt n => Some (NNum n)
  | VStr s => Some (NStr s)
  | VList _ | VDict _ => None
  end.

(** [for x in v]: the elements of a list, the characters of a string, the
    keys of a dictionary; other values cannot be iterated. The keys of a
    document are strings, in some order; the loops of the constructor stop
    at the first of them, with the same [TypeError] whichever it is. *)
Definition iterate (v : value) : result (list value) :=
  match v with
  | VList l => Ok l
  | VStr s =>
      Ok ((λ c, VStr (String c EmptyString))
            <$> String.list_ascii_of_string s)
  | VDict d => Ok (VStr <$> (map_to_list d).*1)
  | VNone | VBool _ | VInt _ => Raise TypeError
  end.

(** [entry['name']], as a key: indexing what is not a dictionary raises a
    [TypeError], a dictionary without the key a [KeyError], and a name
    that cannot be hashed a [TypeError] when the entry is stored. *)
Definition name_of (entry : value) : result name :=
  match entry with
  | VDict e =>
      match e !! "name" with
      | Some v => if key_of v is Some k then Ok k else Raise TypeError
      | None => Raise (KeyError "name")
      end
  | _ => Raise TypeError
  end.

(** [for entry in entries: d[entry['name']] = entry], entries in order. *)
Fixpoint index_by_name (entries : list value) (d : gmap name value)
  : result (gmap name value) :=
  match entries with
  | [] => Ok d
  | entry :: rest =>
      k ← name_of entry;
      index_by_name rest (<[k := entry]> d)
  end.

(** [self._data[key]], iterated. *)
Definition entries_of (data : gmap string value) (key : string)
  : result (list value) :=
  match data !! key with
  | Some v => iterate v
  | None => Raise (KeyError key)
  end.

(** The object that the constructor builds: its collections are keyed by
    whatever names the entries have. [Kubeconfig.Kubeconfig] is the object
    when all names are strings. *)
Record Kubeconfig : Type := {
  _filename : string;
  _data : gmap string value;
  clusters : gmap name value;
  users : gmap name value;
  contexts : gmap name value;
}.

(** [Kubeconfig.__init__]. *)
Definition __init__ (raw_data : gmap string value) (filename : string)
  : result Kubeconfig :=
  cs ← entries_of raw_data "clusters";
  clusters ← index_by_name cs ∅;
  us ← entries_of raw_data "users";
  users ← index_by_name us ∅;
  xs ← entries_of raw_data "contexts";
  contexts ← index_by_name xs ∅;
  Ok {| _filename := filename; _data := raw_data; clusters := clusters;
        users := users; contexts := contexts |}.

(** The object, with the names as strings. *)
Definition of_strings (self : Kubeconfig.Kubeconfig) : Kubeconfig :=
  {| _filename := Kubeconfig._filename self;
     _data := Kubeconfig._data self;
     clusters := kmap NStr (Kubeconfig.clusters self);
     users := kmap NStr (Kubeconfig.users self);
     contexts := kmap NStr (Kubeconfig.contexts self) |}.

(** The order in which a dictionary lists what it holds: some order, which
    the language leaves open. [which] is the attribute that holds the
    dictionary, so that two dictionaries of one content may differ in
    order. *)
Record dict_order : Type := {
  items : string → gmap name value → list (name * value);
  items_perm : ∀ which d, items which d ≡ₚ map_to_list d;
}.

(** [d.values()]. *)
Definition values (order : dict_order) (which : string) (d : gmap name value)
  : list value := (items order which d).*2.

(** The document after the three assignments that open [SaveToFile]. *)
Definition saved_data (order : dict_order) (self : Kubeconfig)
  : gmap string value :=
  <["contexts" := VList (values order "contexts" (contexts self))]>
  (<["users" := VList (values order "users" (users self))]>
  (<["clusters" := VList (values order "clusters" (clusters self))]>
     (_data self))).

(** What [yaml.load_path] does: it returns the document, raises a
    [yaml.Error] with an inner error, or lets an [IOError] through. *)
Inductive load_result : Type :=
| Loaded (data : value)
| RaisedYamlError (inner_error : string)
| RaisedIOError (msg : string).

(** [except (Error, IOError)] of [LoadOrCreate]. *)
Definition caught (e : exc) : bool :=
  match e with
  | Exn (KubeconfigError _) | MissingEnvVarError _ | IOError _ => true
  | _ => false
  end.

Section Files.
(** The order of the dictionaries; [os.open(filename, flags, 0o600)]: a
    descriptor, or the text of the [OSError]; [yaml.load_path];
    [file_utils.MakeDir] and [os.path.dirname]; [str] and [type] of a
    value as [format] prints them. *)
Context (order : dict_order).
Context (os_open : string → option string).
Context (load_path : string → load_result).
Context (MakeDir : string → outcome ()) (dirname : string → string).
Context (str_value type_name : value → string).

(** [SaveToFile]: the object after the call, and the document dumped to the
    file or the exception. The collections are written into the document
    before the file is opened. *)
Definition SaveToFile (self : Kubeconfig)
  : Kubeconfig * result (gmap string value) :=
  let self := {| _filename := _filename self; _data := saved_data order self;
                 clusters := clusters self; users := users self;
                 contexts := contexts self |} in
  match os_open (_filename self) with
  | Some error =>
      (self, Raise (KubeconfigError
                      ("don't have the permission to open kubeconfig file "
                       +:+ _filename self +:+ ": " +:+ error)))
  | None => (self, Ok (_data self))
  end.

(** The loop of [_Validate] over the three keys; a [KeyError] becomes an
    [Error]. *)
Fixpoint check_keys (data : gmap string value) (keys : list string)
  : result () :=
  match keys with
  | [] => Ok ()
  | key :: rest =>
      match data !! key with
      | None =>
          Raise (KubeconfigError ("expected key '" +:+ key +:+ "' not found"))
      | Some (VList _) => check_keys data rest
      | Some v =>
          Raise (KubeconfigError ("invalid type for " +:+ str_value v +:+ ": "
                                  +:+ type_name v))
      end
  end.

(** [_Validate]: indexing a document that is not a dictionary raises a
    [TypeError], which the [except KeyError] does not catch. *)
Definition _Validate (data : value) : result () :=
  if negb (truthy_value data) then Raise (KubeconfigError "empty file")
  else
    match data with
    | VDict d => check_keys d ["clusters"; "users"; "contexts"]
    | _ => Raise TypeError
    end.

Definition LoadFromFile (filename : string) : outcome Kubeconfig :=
  match load_path filename with
  | RaisedYamlError inner_error =>
      Throw (Exn (KubeconfigError ("unable to load kubeconfig for " +:+ filename
                                   +:+ ": " +:+ inner_error)))
  | RaisedIOError msg => Throw (IOError msg)
  | Loaded data =>
      _ ← lift (_Validate data);
      match data with
      | VDict d => lift (__init__ d filename)
      | _ => Throw (Exn TypeError)
      end
  end.

Definition LoadOrCreate (filename : string) : outcome Kubeconfig :=
  match LoadFromFile filename with
  | Return kubeconfig => Return kubeconfig
  | Throw error =>
      if caught error then
        _ ← MakeDir (dirname filename);
        kubeconfig ← lift (__init__ EmptyKubeconfig filename);
        let '(kubeconfig, written) := SaveToFile kubeconfig in
        _ ← lift written;
        Return kubeconfig
      else Throw error
  end.
End Files.

(** *** [DefaultPath] *)

(** [os.environ], the operating system, [os.path.abspath] and
    [os.path.join]. *)
Record Environment : Type := {
  environ : gmap string string;
  IsWindows : bool;
  abspath : string → string;
  join : list string → string;
}.

Definition DefaultPath (env : Environment) : outcome string :=
  if truthy (environ env !! "KUBECONFIG")
  then Return (abspath env (default "" (environ env !! "KUBECONFIG")))
  else
    let home_dir := environ env !! "HOME" in
    let home_dir :=
      if negb (truthy home_dir) && IsWindows env then
        let home_drive := environ env !! "HOMEDRIVE" in
        let home_path := environ env !! "HOMEPATH" in
        let home_dir :=
          if truthy home_drive && truthy home_path
          then Some (join env [default "" home_drive; default "" home_path])
          else home_dir in
        if negb (truthy home_dir) then environ env !! "USERPROFILE"
        else home_dir
      else home_dir in
    if negb (truthy home_dir) then
      Throw (MissingEnvVarError
               ("environment variable "
                +:+ (if IsWindows env
                     then "HOMEDRIVE/HOMEPATH, USERPROFILE, HOME,"
                     else "HOME")
                +:+ " or KUBECONFIG must be set to store credentials for kubectl"))
    else Return (join env [default "" home_dir; ".kube"; "config"]).

(** A POSIX environment. *)
Definition posix_environment (vars : gmap string string) : Environment :=
  {| environ := vars; IsWindows := false; abspath := λ p, p;
     join := λ parts, foldr (λ a b, if b is EmptyString then a
                                    else a +:+ "/" +:+ b) "" parts |}.

(** The order in which the latest entry comes first. *)
Definition reverse_order : dict_order :=
  {| items := λ _ d, reverse (map_to_list d);
     items_perm := λ _ d, reverse_Permutation (map_to_list d) |}.

(** An entry with a name and a server. *)
Definition server_entry (name server : value) : value :=
  VDict (<["name" := name]> (<["server" := server]> ∅)).

(** A document whose clusters have the name [a] twice and the names [True]
    and [1], whose users are the empty string and whose contexts are the
    empty dictionary. *)
Definition mixed_names_data : gmap string value :=
  <["clusters" := VList [server_entry (VStr "a") (VStr "s1");
                         server_entry (VBool true) (VStr "s2");
                         server_entry (VStr "a") (VStr "s3");
                         server_entry (VInt 1) (VStr "s4")]]>
  (<["users" := VStr ""]>
  (<["contexts" := VDict ∅]> EmptyKubeconfig)).

(** A document that [_Validate] accepts and that holds a cluster without a
    name. *)
Definition nameless_data : gmap string value :=
  <["clusters" := VList [VDict ∅]]> EmptyKubeconfig.

(** A document with two clusters, two contexts and a user. *)
Definition two_cluster_data : gmap string value :=
  <["clusters" := VList [server_entry (VStr "a") (VStr "s1");
                         server_entry (VStr "b") (VStr "s2")]]>
  (<["users" := VList [server_entry (VStr "u") (VStr "-")]]>
  (<["contexts" := VList [Context "a" "a" "u"; Context "b" "b" "u"]]>
     EmptyKubeconfig)).


(** A file that does not load, in a directory that can be written. *)
Definition unreadable (filename : string) : load_result :=
  RaisedYamlError "No such file or directory".

End KubeconfigFile.


(** ** functions/deploy/util.py: the source of a function *)

Module FunctionsSource.
Import FunctionsDeploy.

(** [s.startswith(p)], and the rest of [s] after the prefix [p]. *)
Fixpoint strip_prefix (p s : string) : option string :=
  match p, s with
  | EmptyString, _ => Some s
  | String a p, String b s => if Ascii.eqb a b then strip_prefix p s else None
  | String _ _, EmptyString => None
  end.

Definition startswith (s p : string) : bool :=
  if strip_prefix p s is Some _ then true else false.

Definition slash : Ascii.ascii := Ascii.ascii_of_nat 47.

(** The longest prefix of [s] without a slash, and what follows it. *)
Fixpoint segment (s : string) : string * string :=
  match s with
  | EmptyString => (EmptyString, EmptyString)
  | String c rest =>
      if Ascii.eqb c slash then (EmptyString, s)
      else let '(seg, tail) := segment rest in (String c seg, tail)
  end.

(** [re.match] of
    [^https://source\.developers\.google\.com/projects/[^/]+/repos/[^/]+$]:
    a project and a repository that are not empty and hold no slash. *)
Definition cloud_repo_match (source_archive_url : string) : bool :=
  match strip_prefix "https://source.developers.google.com/projects/"
          source_archive_url with
  | None => false
  | Some rest =>
      let '(project, rest) := segment rest in
      truthy project
      && match strip_prefix "/repos/" rest with
         | None => false
         | Some rest =>
             let '(repo, rest) := segment rest in
             truthy repo && negb (truthy rest)
         end
  end.

Definition _AddDefaultBranch (source_archive_url : string) : string :=
  if cloud_repo_match source_archive_url
  then source_archive_url +:+ "/moveable-aliases/main"
  else source_archive_url.

(** [status_code / 100 == 2], on integers. *)
Definition _CheckUploadStatus (status_code : Z) : bool :=
  status_code / 100 =? 2.

(** The fields of the function message that hold its source. *)
Record SourceRepository : Type := { url : string }.

Record Function : Type := {
  sourceArchiveUrl : option string;
  sourceRepository : option SourceRepository;
  sourceUploadUrl : option string;
}.

Definition _CleanOldSourceInfo (function : Function) : Function :=
  {| sourceArchiveUrl := None; sourceRepository := None;
     sourceUploadUrl := None |}.

(** The calls that leave the process. *)
Inductive call : Type :=
| MakeZipFromDir_call (zip_file_name source_path : string)
| RunGsutilCommand_call (command args : string)
| GenerateUploadUrl_call
| MakeRequest_call (url : string).

Section Source.
(** What the code calls and is not in this file:
    [util.ValidateDirectoryExistsOrRaiseFunctionError]; the chooser and
    [GetTreeSizeBytes]; [archive.MakeZipFromDir], which returns or raises a
    [ValueError] with a text; [os.path.join] and the temporary directory;
    the random name of the remote file; the URL of an object of a bucket;
    [RunGsutilCommand] with its exit status; the URL that the service
    generates; and [MakeRequest] with the status and content of the
    response. *)
Context (ValidateDirectoryExistsOrRaiseFunctionError : string → outcome ()).
Context (IsIncluded : string → string → bool).
Context (GetTreeSizeBytes : string → (string → bool) → Z).
Context (MakeZipFromDir : string → string → option string).
Context (path_join : string → string → string) (tmp_dir : string).
Context (_GenerateRemoteZipFileName : string).
Context (ToUrl : string → string → string).
Context (RunGsutilCommand : string → string → Z).
Context (_GetUploadUrl : string).
Context (MakeRequest : string → Z * string).

(** Each function returns the calls it has made with its outcome. *)
Definition _CreateSourcesZipFile (zip_dir source_path : string)
  : list call * outcome string :=
  match ValidateDirectoryExistsOrRaiseFunctionError source_path with
  | Throw e => ([], Throw e)
  | Return _ =>
      match _ValidateUnpackedSourceSize IsIncluded GetTreeSizeBytes
              source_path with
      | Raise e => ([], Throw (Exn e))
      | Ok _ =>
          let zip_file_name := path_join zip_dir "fun.zip" in
          ([MakeZipFromDir_call zip_file_name source_path],
           match MakeZipFromDir zip_file_name source_path with
           | Some e =>
               Throw (FunctionsError
                        ("Error creating a ZIP archive with the source code for directory "
                         +:+ source_path +:+ ": " +:+ e))
           | None => Return zip_file_name
           end)
      end
  end.

Definition _UploadFileToGcs (source stage_bucket : string)
  : list call * outcome string :=
  let zip_file := _GenerateRemoteZipFileName in
  let gcs_url := ToUrl stage_bucket zip_file in
  let args := source +:+ " " +:+ gcs_url in
  let upload_result := RunGsutilCommand "cp" args in
  ([RunGsutilCommand_call "cp" args],
   if negb (upload_result =? 0) then
     Throw (FunctionsError
              ("Failed to upload the function source code to the bucket "
               +:+ stage_bucket))
   else Return gcs_url).

Definition _UploadFileToGeneratedUrl (source : string)
  : list call * outcome string :=
  let url := _GetUploadUrl in
  let response := MakeRequest url in
  ([GenerateUploadUrl_call; MakeRequest_call url],
   if negb (_CheckUploadStatus response.1) then
     Throw (FunctionsError
              ("Failed to upload the function source code to signed url: "
               +:+ url +:+ ". Status: [" +:+ str_int response.1 +:+ ":"
               +:+ response.2 +:+ "]"))
   else Return url).

Definition UploadFile (source : string) (stage_bucket : option string)
  : list call * outcome string :=
  if truthy stage_bucket
  then _UploadFileToGcs source (default "" stage_bucket)
  else _UploadFileToGeneratedUrl source.

(** [AddSourceToFunction] changes the function and the update mask in
    place: the model returns both as they are when the call ends, by
    [return] or by an exception, with the calls made. *)
Definition AddSourceToFunction (function : Function)
    (update_mask : list string) (source_arg stage_bucket : option string)
  : Function * list string * list call * outcome () :=
  let function := _CleanOldSourceInfo function in
  let source_arg := default "." source_arg in
  let source_arg := if truthy source_arg then source_arg else "." in
  if startswith source_arg "gs://" then
    ({| sourceArchiveUrl := Some source_arg;
        sourceRepository := sourceRepository function;
        sourceUploadUrl := sourceUploadUrl function |},
     update_mask ++ ["sourceArchiveUrl"], [], Return ())
  else if startswith source_arg "https://" then
    ({| sourceArchiveUrl := sourceArchiveUrl function;
        sourceRepository := Some {| url := _AddDefaultBranch source_arg |};
        sourceUploadUrl := sourceUploadUrl function |},
     update_mask ++ ["sourceRepository"], [], Return ())
  else
    match _CreateSourcesZipFile tmp_dir source_arg with
    | (calls, Throw e) => (function, update_mask, calls, Throw e)
    | (calls, Return zip_file) =>
        match UploadFile zip_file stage_bucket with
        | (calls', Throw e) => (function, update_mask, calls ++ calls', Throw e)
        | (calls', Return upload_url) =>
            if startswith upload_url "gs://" then
              ({| sourceArchiveUrl := Some upload_url;
                  sourceRepository := sourceRepository function;
                  sourceUploadUrl := sourceUploadUrl function |},
               update_mask ++ ["sourceArchiveUrl"], calls ++ calls', Return ())
            else
              ({| sourceArchiveUrl := sourceArchiveUrl function;
                  sourceRepository := sourceRepository function;
                  sourceUploadUrl := Some upload_url |},
               update_mask ++ ["sourceUploadUrl"], calls ++ calls', Return ())
        end
    end.
End Source.

(** *** Triggers *)

(** [s[5:-1]]. *)
Definition slice_5_minus_1 (s : string) : string :=
  String.substring 5 (String.length s - 1 - 5) s.

Record Trigger : Type := {
  trigger_provider : string;
  trigger_event : string;
  trigger_resource : string;
}.

(** [use_new_object_trigger.GetBool()] is the argument [new_behavior]. *)
Definition _BucketTrigger (new_behavior : option bool) (trigger_bucket : string)
  : Trigger :=
  let bucket_name := slice_5_minus_1 trigger_bucket in
  {| trigger_provider := "cloud.storage";
     trigger_event :=
       if truthy new_behavior then "google.storage.object.finalize"
       else "providers/cloud.storage/eventTypes/object.change";
     trigger_resource := bucket_name |}.

(** A deployment from a directory of the synthetic file system, uploaded
    through a generated URL that answers with the given status. *)
Definition local_deploy (status_code : Z) (source_arg : option string)
  : Function * list string * list call * outcome () :=
  AddSourceToFunction (λ _, Return ()) skip_node_modules
    (λ path, GetTreeSizeBytes_spec (synthetic_tree path))
    (λ _ _, None) (λ a b, a +:+ "/" +:+ b) "/tmp/x" "us-central1-f-abc.zip"
    (λ bucket file, "gs://" +:+ bucket +:+ "/" +:+ file) (λ _ _, 0)
    "https://storage.googleapis.com/upload" (λ _, (status_code, ""))
    {| sourceArchiveUrl := Some "gs://old/fun.zip"; sourceRepository := None;
       sourceUploadUrl := None |}
    [] source_arg None.

End FunctionsSource.


(** ** container_command_util.py and clusters/upgrade.py *)

Module ContainerCommandUtil.

(** [a or b]. *)
Definition py_or (a b : option string) : option string :=
  if truthy a then a else b.

(** [getattr(args, 'zone', None)] and [getattr(args, 'region', None)]. *)
Record LocationArgs : Type := {
  zone : option string;
  region : option string;
}.

Section Location.
(** [properties.VALUES.compute.zone.Get()]. *)
Context (compute_zone : option string).

Definition GetZone (args : LocationArgs) (ignore_property required : bool)
  : outcome (option string) :=
  let zone := zone args in
  let zone_property := if ignore_property then None else compute_zone in
  if required && negb (truthy zone) && negb (truthy zone_property)
  then Throw (MinimumArgumentException ["--zone"] "Please specify zone")
  else Return (py_or zone zone_property).

Definition GetZoneOrRegion (args : LocationArgs)
    (ignore_property required : bool) : outcome (option string) :=
  let zone := zone args in
  let region := region args in
  let zone_property := if ignore_property then None else compute_zone in
  if truthy zone && truthy region
  then Throw (ConflictingArgumentsException ["--zone"; "--region"])
  else
    let location := py_or (py_or region zone) zone_property in
    if required && negb (truthy location)
    then Throw (MinimumArgumentException ["--zone"; "--region"]
                  "Please specify location.")
    else Return location.
End Location.

(** The fields of the cluster that [ClusterUpgradeMessage] prints, beside
    its name and node pools. *)
Record Versions : Type := {
  currentMainVersion : option string;
  currentNodeVersion : option string;
  currentNodeCount : option Z;
}.

(** ['{}'.format(x)] for a string or [None], and for an integer or
    [None]. *)
Definition format_str (x : option string) : string := default "None" x.
Definition format_int (x : option Z) : string :=
  match x with Some n => str_int n | None => "None" end.

Section UpgradeMessage.
Context {NodeConfig : Type}.
(** [text.Pluralize]. *)
Context (Pluralize : option Z → string → string).

Definition ClusterUpgradeMessage (cluster : Lookup.Cluster NodeConfig)
    (versions : Versions) (main : bool) (node_pool new_version : option string)
  : outcome string :=
  let new_version_message :=
    if truthy new_version
    then "version [" +:+ format_str new_version +:+ "]"
    else "main version" in
  '(node_message, current_version) ←
    (if main then Return ("Main", currentMainVersion versions)
     else if truthy node_pool then
       let node_message :=
         "All nodes in node pool [" +:+ format_str node_pool +:+ "]" in
       node_pool ← Lookup._NodePoolFromCluster cluster (default "" node_pool);
       Return (node_message, ApiAdapter.version node_pool)
     else
       Return ("All nodes (" +:+ format_int (currentNodeCount versions) +:+ " "
               +:+ Pluralize (currentNodeCount versions) "node" +:+ ")",
               currentNodeVersion versions));
  Return (node_message +:+ " of cluster [" +:+ Lookup.name cluster
          +:+ "] will be upgraded from version [" +:+ format_str current_version
          +:+ "] to " +:+ new_version_message
          +:+ ". This operation is long-running and will block other operations on the cluster (including delete) until it has run to completion.").
End UpgradeMessage.

End ContainerCommandUtil.

Module UpgradeCommand.
Import ApiAdapter.Update ContainerCommandUtil.

(** The arguments of [gcloud container clusters upgrade]; [--main] is a
    [store_true] flag. *)
Record Args : Type := {
  name : string;
  cluster_version : option string;
  node_pool : option string;
  main : bool;
  image_type : option string;
}.

(** The [UpdateClusterOptions] that [Run] builds; the constructor stores
    [bool(update_main)] and [bool(update_nodes)] and leaves the other
    arguments at [None]. *)
Definition Run_options (args : Args) : UpdateClusterOptions :=
  {| version := cluster_version args;
     update_main := main args;
     update_nodes := negb (main args);
     ApiAdapter.Update.node_pool := node_pool args;
     monitoring_service := None; disable_addons := None;
     enable_autoscaling := None; min_nodes := None; max_nodes := None;
     ApiAdapter.Update.image_type := image_type args;
     locations := None;
     enable_main_authorized_networks := None;
     main_authorized_networks := None; enable_autoprovisioning := None;
     enable_pod_security_policy := None; enable_binauthz := None |}.

Section Run.
Context {NodeConfig ClusterAutoscaling : Type} `{!Adapter ClusterAutoscaling}.
Context (Pluralize : option Z → string → string).

(** [Run] from the cluster it has got to the update it sends: the message
    of the prompt, then the [ClusterUpdate] that [UpdateCluster] builds
    from the options. *)
Definition Run_update (args : Args)
    (cluster : Lookup.Cluster NodeConfig) (versions : Versions)
  : outcome (string * ClusterUpdate ClusterAutoscaling) :=
  let options := Run_options args in
  upgrade_message ←
    ClusterUpgradeMessage Pluralize cluster versions (main args)
      (node_pool args) (version options);
  update ← lift (UpdateClusterCommon options);
  Return (upgrade_message, update).
End Run.

End UpgradeCommand.

(** ** api_adapter.py: updating a node pool; cluster autoscaling *)

Module NodePoolUpdate.

Record UpdateNodePoolOptions : Type := {
  enable_autorepair : option bool;
  enable_autoupgrade : option bool;
  enable_autoscaling : option bool;
  max_nodes : option Z;
  min_nodes : option Z;
  enable_autoprovisioning : option bool;
}.

Definition IsAutoscalingUpdate (self : UpdateNodePoolOptions) : bool :=
  is_not_None (enable_autoscaling self) || is_not_None (max_nodes self)
  || is_not_None (min_nodes self) || is_not_None (enable_autoprovisioning self).

Record NodePoolAutoscaling : Type := {
  enabled : option bool;
  minNodeCount : option Z;
  maxNodeCount : option Z;
  autoprovisioned : option bool;
}.

(** The fields of the pool that [GetNodePool] returns which the two
    updates read. *)
Record NodePool : Type := {
  management : option ApiAdapter.NodeManagement;
  autoscaling : option NodePoolAutoscaling;
}.

Definition UpdateNodePoolNodeManagement (pool : NodePool)
    (options : UpdateNodePoolOptions) : ApiAdapter.NodeManagement :=
  let node_management :=
    default {| ApiAdapter.autoRepair := None; ApiAdapter.autoUpgrade := None |}
      (management pool) in
  {| ApiAdapter.autoRepair :=
       if is_not_None (enable_autorepair options)
       then enable_autorepair options
       else ApiAdapter.autoRepair node_management;
     ApiAdapter.autoUpgrade :=
       if is_not_None (enable_autoupgrade options)
       then enable_autoupgrade options
       else ApiAdapter.autoUpgrade node_management |}.

Definition UpdateNodePoolAutoscaling (pool : NodePool)
    (options : UpdateNodePoolOptions) : NodePoolAutoscaling :=
  let autoscaling :=
    default {| enabled := None; minNodeCount := None; maxNodeCount := None;
               autoprovisioned := None |} (autoscaling pool) in
  let enabled' :=
    if is_not_None (enable_autoscaling options)
    then enable_autoscaling options else enabled autoscaling in
  {| enabled := enabled';
     maxNodeCount :=
       if is_not_None (max_nodes options) then max_nodes options
       else maxNodeCount autoscaling;
     minNodeCount :=
       if is_not_None (min_nodes options) then min_nodes options
       else if is_not_None (enable_autoprovisioning options) then Some 0
       else minNodeCount autoscaling;
     autoprovisioned :=
       if is_not_None (enable_autoprovisioning options)
       then enable_autoprovisioning options
       else if negb (truthy enabled') then Some false
       else autoprovisioned autoscaling |}.

Definition ProjectLocation (project location : string) : string :=
  "projects/" +:+ project +:+ "/locations/" +:+ location.

Definition ProjectLocationCluster (project location cluster : string) : string :=
  ProjectLocation project location +:+ "/clusters/" +:+ cluster.

Definition ProjectLocationClusterNodePool
    (project location cluster nodepool : string) : string :=
  ProjectLocationCluster project location cluster +:+ "/nodePools/" +:+ nodepool.

Record NodePoolRef : Type := {
  projectId : string;
  zone : string;
  clusterId : string;
  nodePoolId : string;
}.

(** The request that [V1Alpha1Adapter.UpdateNodePool] sends. *)
Inductive request : Type :=
| UpdateClusterRequest (name desiredNodePoolId : string)
    (desiredNodePoolAutoscaling : NodePoolAutoscaling)
| SetNodePoolManagementRequest (name : string)
    (management : ApiAdapter.NodeManagement).

(** [V1Alpha1Adapter.UpdateNodePool], up to the request; [pool] is what
    [GetNodePool] returns. *)
Definition UpdateNodePool (node_pool_ref : NodePoolRef) (pool : NodePool)
    (options : UpdateNodePoolOptions) : request :=
  if IsAutoscalingUpdate options then
    UpdateClusterRequest
      (ProjectLocationCluster (projectId node_pool_ref) (zone node_pool_ref)
         (clusterId node_pool_ref))
      (nodePoolId node_pool_ref)
      (UpdateNodePoolAutoscaling pool options)
  else
    SetNodePoolManagementRequest
      (ProjectLocationClusterNodePool (projectId node_pool_ref)
         (zone node_pool_ref) (clusterId node_pool_ref)
         (nodePoolId node_pool_ref))
      (UpdateNodePoolNodeManagement pool options).

(** *** [V1Alpha1Adapter.CreateClusterAutoscalingCommon] *)

Definition NO_AUTOPROVISIONING_LIMITS_ERROR_MSG : string :=
  "Must specify both --max-cpu and --max-memory to enable autoprovisioning.
".

Definition MISMATCH_ACCELERATOR_TYPE_LIMITS_ERROR_MSG : string :=
  "Maximum and minimum accelerator limits must be set on the same accelerator type.
".

(** An accelerator limit: a dictionary that may hold [type] and
    [count]. *)
Record Accelerator : Type := {
  acc_type : option string;
  acc_count : option Z;
}.

(** The attributes of the options that the function reads. *)
Record AutoprovisioningOptions : Type := {
  ap_enable_autoprovisioning : option bool;
  min_cpu : option Z;
  max_cpu : option Z;
  min_memory : option Z;
  max_memory : option Z;
  min_accelerator : option Accelerator;
  max_accelerator : option Accelerator;
}.

Record ResourceLimit : Type := {
  limit_name : option string;
  minimum : option Z;
  maximum : option Z;
}.

Record ClusterAutoscaling : Type := {
  enableNodeAutoprovisioning : option bool;
  resourceLimits : list ResourceLimit;
}.

Definition CreateClusterAutoscalingCommon (options : AutoprovisioningOptions)
  : result ClusterAutoscaling :=
  if truthy (ap_enable_autoprovisioning options)
     && (negb (is_not_None (max_cpu options))
         || negb (is_not_None (max_memory options)))
  then Raise (UtilError NO_AUTOPROVISIONING_LIMITS_ERROR_MSG)
  else
    let cpu :=
      if is_not_None (min_cpu options) || is_not_None (max_cpu options)
      then [{| limit_name := Some "cpu"; minimum := min_cpu options;
               maximum := max_cpu options |}]
      else [] in
    let memory :=
      if is_not_None (min_memory options) || is_not_None (max_memory options)
      then [{| limit_name := Some "memory"; minimum := min_memory options;
               maximum := max_memory options |}]
      else [] in
    accelerator ←
      match max_accelerator options with
      | None => Ok []
      | Some max_accelerator =>
          let accelerator_type := acc_type max_accelerator in
          min_count ←
            match min_accelerator options with
            | None => Ok 0
            | Some min_accelerator =>
                if negb (bool_decide (acc_type min_accelerator
                                      = accelerator_type))
                then Raise (UtilError MISMATCH_ACCELERATOR_TYPE_LIMITS_ERROR_MSG)
                else Ok (default 0 (acc_count min_accelerator))
            end;
          Ok [{| limit_name := acc_type max_accelerator;
                 minimum := Some min_count;
                 maximum := Some (default 0 (acc_count max_accelerator)) |}]
      end;
    Ok {| enableNodeAutoprovisioning := ap_enable_autoprovisioning options;
          resourceLimits := cpu ++ memory ++ accelerator |}.

(** A pool with autoscaling and autoprovisioning on, and options that turn
    autoscaling off. *)
Definition autoprovisioned_pool : NodePool :=
  {| management := None;
     autoscaling := Some {| enabled := Some true; minNodeCount := Some 1;
                            maxNodeCount := Some 5;
                            autoprovisioned := Some true |} |}.

Definition disable_autoscaling : UpdateNodePoolOptions :=
  {| enable_autorepair := Some true; enable_autoupgrade := None;
     enable_autoscaling := Some false; max_nodes := None; min_nodes := None;
     enable_autoprovisioning := None |}.

Definition cpu_memory_limits : AutoprovisioningOptions :=
  {| ap_enable_autoprovisioning := Some true; min_cpu := None;
     max_cpu := Some 64; min_memory := Some 8; max_memory := Some 256;
     min_accelerator := None;
     max_accelerator := Some {| acc_type := Some "nvidia-tesla-k80";
                                acc_count := Some 4 |} |}.

End NodePoolUpdate.


(** * Properties *)

(** ** Node-pool sharding *)

Section NodePoolSharding.
Import ApiAdapter.
Context {NodeConfig : Type}.
Implicit Types (options : CreateClusterOptions) (node_config : NodeConfig).
Implicit Types (ps : list (NodePool NodeConfig)).

Lemma range0_length k : 0 ≤ k → len (range0 k) = k.
Proof. intros. unfold len, range0. rewrite length_fmap, length_seq. lia. Qed.

Lemma pool_names_of_length k : 1 ≤ k → len (pool_names_of k) = k.
Proof.
  intros Hk. unfold pool_names_of.
  destruct (Z.eqb_spec k 1) as [->|_]; [done|].
  unfold len. rewrite length_fmap. apply range0_length. lia.
Qed.

Lemma fill_pools_names options node_config p names t :
  name <$> fill_pools options node_config p names t = names.
Proof.
  revert t. induction names as [|nm names IH]; intros t; simpl; [done|].
  by rewrite IH.
Qed.

Lemma fill_pools_length options node_config p names t :
  length (fill_pools options node_config p names t) = length names.
Proof.
  rewrite <- (fill_pools_names options node_config p names t) at 2.
  by rewrite length_fmap.
Qed.

Lemma fill_pools_total options node_config p names t :
  0 ≤ t → 0 ≤ p →
  total_nodes (fill_pools options node_config p names t)
  = Z.min t (len names * p).
Proof.
  revert t. induction names as [|nm names IH]; intros t Ht Hp.
  - simpl. unfold len. simpl. lia.
  - cbn [fill_pools total_nodes foldr make_pool initialNodeCount].
    fold (total_nodes (fill_pools options node_config p names
              (t - (if t >? p then p else t)))).
    destruct (Z.gtb_spec t p); rewrite IH by lia;
      unfold len; cbn [length]; nia.
Qed.

(** The count of the [i]-th pool: [per_pool], cut to what is left. *)
Lemma fill_pools_count options node_config p names t (i : nat) :
  0 ≤ t → 0 ≤ p → (i < length names)%nat →
  initialNodeCount <$> (fill_pools options node_config p names t !! i)
  = Some (Z.min p (Z.max 0 (t - Z.of_nat i * p))).
Proof.
  revert t i. induction names as [|nm names IH]; intros t i Ht Hp Hi.
  - simpl in Hi. lia.
  - destruct i as [|i].
    + cbn. destruct (Z.gtb_spec t p); f_equal; lia.
    + cbn [fill_pools lookup list_lookup]. simpl in Hi.
      change ((?x :: ?l) !! S i) with (l !! i).
      rewrite IH by (try destruct (Z.gtb_spec t p); lia).
      f_equal. destruct (Z.gtb_spec t p); nia.
Qed.

Lemma floordiv_ok a b : b ≠ 0 → floordiv a b = Ok (a / b).
Proof. intros. unfold floordiv. by destruct (Z.eqb_spec b 0). Qed.

(** Ceiling division as the code writes it is the ceiling. *)
Lemma ceil_div_spec n m :
  1 ≤ m → let k := (n + m - 1) / m in (k - 1) * m < n ≤ k * m.
Proof.
  intros Hm k.
  pose proof (Z.div_mod (n + m - 1) m ltac:(lia)) as Hdm.
  pose proof (Z.mod_pos_bound (n + m - 1) m ltac:(lia)) as Hb.
  fold k in Hdm. nia.
Qed.

(** C1 (amended): for [num_nodes >= 1] and [max_nodes_per_pool >= 1] the
    sharding of [CreateClusterCommon] returns pools whose
    [initialNodeCount]s sum to [num_nodes]; their number is
    [ceil(num_nodes / max_nodes_per_pool)]; one pool is named
    [default-pool], several are named [default-pool-0], [default-pool-1],
    ... in order; and with [per_pool = ceil(num_nodes / pools)] the
    [i]-th pool gets [min(per_pool, num_nodes - i * per_pool)] nodes, which
    is at least 1 and at most [max_nodes_per_pool]. *)
Theorem CreateClusterCommon_pools_partition options node_config (n m : Z) :
  num_nodes options = Some n →
  max_nodes_per_pool options = Some m →
  1 ≤ n → 1 ≤ m →
  ∃ ps,
    CreateClusterCommon_pools options node_config = Ok ps
    ∧ total_nodes ps = n
    ∧ (len ps - 1) * m < n ≤ len ps * m
    ∧ (len ps = 1 → name <$> ps = ["default-pool"])
    ∧ (len ps ≠ 1 → ∀ i : nat, (i < length ps)%nat →
         name <$> ps !! i = Some ("default-pool-" +:+ str_int (Z.of_nat i)))
    ∧ (let per_pool := (n + len ps - 1) / len ps in
       (len ps - 1) * per_pool < n ≤ len ps * per_pool
       ∧ ∀ i : nat, (i < length ps)%nat →
           initialNodeCount <$> ps !! i
           = Some (Z.min per_pool (n - Z.of_nat i * per_pool))
           ∧ 1 ≤ Z.min per_pool (n - Z.of_nat i * per_pool) ≤ m).
Proof.
  intros Hn Hm Hn1 Hm1.
  unfold CreateClusterCommon_pools. rewrite Hn, Hm.
  assert (or_default (Some m) MAX_NODES_PER_POOL = m) as ->.
  { unfold or_default, truthy, truthy_Z.
    destruct (Z.eqb_spec m 0); [lia|done]. }
  rewrite floordiv_ok by lia. cbn [mbind result_bind]. cbv zeta.
  set (k := (n + m - 1) / m).
  destruct (ceil_div_spec n m Hm1) as [Hk1 Hk2]. fold k in Hk1, Hk2.
  assert (1 ≤ k) as Hk by nia.
  pose proof (pool_names_of_length k Hk) as Hlen. rewrite Hlen.
  rewrite floordiv_ok by lia. cbn [mbind result_bind].
  set (p := (n + k - 1) / k).
  destruct (ceil_div_spec n k Hk) as [Hp1 Hp2]. fold p in Hp1, Hp2.
  assert (1 ≤ p ≤ m) as Hp by nia.
  eexists. split; [reflexivity|].
  assert (length (fill_pools options node_config p (pool_names_of k) n)
          = length (pool_names_of k)) as Hl' by apply fill_pools_length.
  assert (len (fill_pools options node_config p (pool_names_of k) n) = k) as Hl.
  { unfold len. rewrite Hl'. exact Hlen. }
  rewrite Hl. fold p. unfold len in Hlen. clearbody p k.
  split; [rewrite fill_pools_total by lia; unfold len; lia|].
  split; [by split|]. rewrite fill_pools_names.
  split; [intros ->; done|].
  split; [|split; [nia|]].
  - intros Hne i Hi. rewrite Hl' in Hi.
    rewrite <- list_lookup_fmap, fill_pools_names.
    unfold pool_names_of in *.
    destruct (Z.eqb_spec k 1); [done|]. rewrite length_fmap in Hi.
    unfold range0 in Hi. rewrite length_fmap, length_seq in Hi.
    rewrite list_lookup_fmap. unfold range0. rewrite list_lookup_fmap.
    rewrite lookup_seq_lt; [done|]. lia.
  - intros i Hi. rewrite Hl' in Hi.
    assert (Z.of_nat i * p < n) as Hip by nia.
    split; [|lia].
    rewrite fill_pools_count by lia. f_equal. lia.
Qed.

End NodePoolSharding.

Lemma CreateClusterCommon_pools_partition_witness :
  ∃ ps,
    ApiAdapter.CreateClusterCommon_pools (ApiAdapter.sharding_options 2500 1000) ()
      = Ok ps
    ∧ ApiAdapter.total_nodes ps = 2500.
Proof.
  destruct (CreateClusterCommon_pools_partition
              (ApiAdapter.sharding_options 2500 1000) () 2500 1000)
    as (ps & Hps & Htot & _).
  - reflexivity.
  - reflexivity.
  - lia.
  - lia.
  - exists ps. split; assumption.
Defined.

(** The sharding of 2500 nodes with at most 1000 per pool. *)
Lemma CreateClusterCommon_pools_2500_1000 :
  fmap (M:=list) (λ p, (ApiAdapter.name p, ApiAdapter.initialNodeCount p))
    <$> ApiAdapter.CreateClusterCommon_pools (ApiAdapter.sharding_options 2500 1000) ()
  = Ok [("default-pool-0", 834); ("default-pool-1", 834); ("default-pool-2", 832)].
Proof. vm_compute. reflexivity. Qed.

(** C1 as stated fails: 2500 nodes with at most 1000 per pool do not give
    the counts 834, 833, 833. *)
Lemma CreateClusterCommon_pools_not_834_833_833 :
  ¬ ∃ ps,
      ApiAdapter.CreateClusterCommon_pools (ApiAdapter.sharding_options 2500 1000) ()
        = Ok ps
      ∧ ApiAdapter.initialNodeCount <$> ps = [834; 833; 833].
Proof.
  intros (ps & Hps & Hcounts).
  vm_compute in Hps. injection Hps as <-. vm_compute in Hcounts. discriminate.
Qed.

(** ** TPU prerequisites *)

Section TpuOptions.
Import ApiAdapter.
Implicit Types (options : CreateClusterOptions) (cluster : Cluster).

(** C4: [ParseTpuOptions] fails naming [enable-kubernetes-alpha] when
    [enable_tpu] is true without [enable_kubernetes_alpha]; fails naming
    [enable-ip-alias] when [enable_tpu] and [enable_kubernetes_alpha] are
    true without [enable_ip_alias]; fails naming [enable-tpu] when
    [tpu_ipv4_cidr] is set without [enable_tpu]; and with all three flags
    true it succeeds and sets [enableTpu = true], leaving the other fields
    of the cluster message as they were. *)
Theorem ParseTpuOptions_prerequisites options cluster :
  (enable_tpu options = Some true →
   truthy (enable_kubernetes_alpha options) = false →
   ParseTpuOptions options cluster
   = Raise (UtilError ("Cannot specify --enable-tpu without --"
                       +:+ "enable-kubernetes-alpha" +:+ ".
")))
  ∧ (enable_tpu options = Some true →
     enable_kubernetes_alpha options = Some true →
     truthy (enable_ip_alias options) = false →
     ParseTpuOptions options cluster
     = Raise (UtilError ("Cannot specify --enable-tpu without --"
                         +:+ "enable-ip-alias" +:+ ".
")))
  ∧ (truthy (enable_tpu options) = false →
     truthy (tpu_ipv4_cidr options) = true →
     ParseTpuOptions options cluster
     = Raise (UtilError ("Cannot specify --tpu-ipv4-cidr without --"
                         +:+ "enable-tpu" +:+ ".
")))
  ∧ (enable_tpu options = Some true →
     enable_kubernetes_alpha options = Some true →
     enable_ip_alias options = Some true →
     ∃ cluster',
       ParseTpuOptions options cluster = Ok cluster'
       ∧ enableTpu cluster' = Some true
       ∧ enableKubernetesAlpha cluster' = enableKubernetesAlpha cluster
       ∧ mainIpv4CidrBlock cluster' = mainIpv4CidrBlock cluster
       ∧ privateCluster cluster' = privateCluster cluster
       ∧ labelFingerprint cluster' = labelFingerprint cluster).
Proof.
  unfold ParseTpuOptions. repeat split.
  - intros -> ->. reflexivity.
  - intros -> -> ->. reflexivity.
  - intros -> ->. reflexivity.
  - intros -> -> ->. cbn. eexists. repeat split.
Qed.
End TpuOptions.

Lemma ParseTpuOptions_prerequisites_witness :
  ApiAdapter.ParseTpuOptions
    (ApiAdapter.tpu_options (Some true) (Some false) None None)
    ApiAdapter.empty_cluster
  = Raise (UtilError "Cannot specify --enable-tpu without --enable-kubernetes-alpha.
")
  ∧ ApiAdapter.ParseTpuOptions
      (ApiAdapter.tpu_options (Some true) (Some true) (Some false) None)
      ApiAdapter.empty_cluster
    = Raise (UtilError "Cannot specify --enable-tpu without --enable-ip-alias.
")
  ∧ ApiAdapter.ParseTpuOptions
      (ApiAdapter.tpu_options (Some false) None None (Some "10.0.0.0/20"))
      ApiAdapter.empty_cluster
    = Raise (UtilError "Cannot specify --tpu-ipv4-cidr without --enable-tpu.
")
  ∧ ∃ cluster',
      ApiAdapter.ParseTpuOptions
        (ApiAdapter.tpu_options (Some true) (Some true) (Some true) None)
        ApiAdapter.empty_cluster = Ok cluster'
      ∧ ApiAdapter.enableTpu cluster' = Some true.
Proof.
  split; [|split; [|split]].
  - apply (ParseTpuOptions_prerequisites
             (ApiAdapter.tpu_options (Some true) (Some false) None None)
             ApiAdapter.empty_cluster); reflexivity.
  - apply (ParseTpuOptions_prerequisites
             (ApiAdapter.tpu_options (Some true) (Some true) (Some false) None)
             ApiAdapter.empty_cluster); reflexivity.
  - apply (ParseTpuOptions_prerequisites
             (ApiAdapter.tpu_options (Some false) None None (Some "10.0.0.0/20"))
             ApiAdapter.empty_cluster); reflexivity.
  - destruct (ParseTpuOptions_prerequisites
                (ApiAdapter.tpu_options (Some true) (Some true) (Some true) None)
                ApiAdapter.empty_cluster) as (_ & _ & _ & H).
    destruct H as (c & Hc & Htpu & _); [reflexivity..|].
    exists c. split; assumption.
Defined.

(** ** Cluster update *)

Section UpdateCluster.
Import ApiAdapter ApiAdapter.Update.
Context {ClusterAutoscaling : Type} `{!Adapter ClusterAutoscaling}.
Implicit Types (options : UpdateClusterOptions).
Implicit Types (u : ClusterUpdate ClusterAutoscaling) (k : UpdateKind).

Local Ltac carries_only_tac :=
  eexists; split; [reflexivity|];
  intros k'; destruct k'; split; intros Hc;
  solve [reflexivity | discriminate Hc | vm_compute in Hc; discriminate Hc].

(** Case analysis on the next test of the chain. *)
Local Ltac next_truthy f :=
  let E := fresh "E" in
  destruct (truthy f) eqn:E;
  [destruct f; [|discriminate E] |].
Local Ltac next_given f :=
  destruct f; cbn [is_not_None].

Lemma select_update_selected options version k :
  selected options = Some k → k ≠ KAutoprovisioning →
  ∃ u, select_update options version = Ok (Some u) ∧ carries_only u k.
Proof.
  unfold selected, select_update, all_kinds, carries_only.
  cbn [List.find populated].
  destruct (update_nodes options); [intros [= <-] _; carries_only_tac|].
  destruct (update_main options); [intros [= <-] _; carries_only_tac|].
  next_truthy (monitoring_service options); [intros [= <-] _; carries_only_tac|].
  next_truthy (disable_addons options); [intros [= <-] _; carries_only_tac|].
  next_given (enable_autoscaling options); [intros [= <-] _; carries_only_tac|].
  next_truthy (locations options); [intros [= <-] _; carries_only_tac|].
  next_given (enable_main_authorized_networks options);
    [intros [= <-] _; carries_only_tac|].
  next_given (enable_autoprovisioning options); [intros [= <-] Hk; done|].
  next_given (enable_pod_security_policy options);
    [intros [= <-] _; carries_only_tac|].
  next_given (enable_binauthz options); [intros [= <-] _; carries_only_tac|].
  discriminate.
Qed.

Lemma select_update_autoprovisioning options version :
  selected options = Some KAutoprovisioning →
  select_update options version
  = (autoscaling ← CreateClusterAutoscalingCommon options;
     Ok (Some (with_desiredClusterAutoscaling (Some autoscaling) ClusterUpdate0))).
Proof.
  unfold selected, select_update, all_kinds.
  cbn [List.find populated].
  destruct (update_nodes options); [discriminate|].
  destruct (update_main options); [discriminate|].
  destruct (truthy (monitoring_service options)); [discriminate|].
  destruct (truthy (disable_addons options)); [discriminate|].
  next_given (enable_autoscaling options); [discriminate|].
  destruct (truthy (locations options)); [discriminate|].
  next_given (enable_main_authorized_networks options); [discriminate|].
  next_given (enable_autoprovisioning options); [done|].
  next_given (enable_pod_security_policy options); [discriminate|].
  next_given (enable_binauthz options); discriminate.
Qed.

Lemma select_update_none options version :
  selected options = None → select_update options version = Ok None.
Proof.
  unfold selected, select_update, all_kinds.
  cbn [List.find populated].
  destruct (update_nodes options); [discriminate|].
  destruct (update_main options); [discriminate|].
  destruct (truthy (monitoring_service options)); [discriminate|].
  destruct (truthy (disable_addons options)); [discriminate|].
  next_given (enable_autoscaling options); [discriminate|].
  destruct (truthy (locations options)); [discriminate|].
  next_given (enable_main_authorized_networks options); [discriminate|].
  next_given (enable_autoprovisioning options); [discriminate|].
  next_given (enable_pod_security_policy options); [discriminate|].
  next_given (enable_binauthz options); [discriminate|]. done.
Qed.

(** The update built for the first populated kind is its message, field
    by field. *)
Lemma select_update_payload options k :
  selected options = Some k → k ≠ KAutoprovisioning →
  select_update options (or_default (version options) "-")
  = Ok (Some (payload options None k)).
Proof.
  unfold selected, select_update, all_kinds, payload.
  cbn [List.find populated].
  destruct (update_nodes options); [by intros [= <-] _|].
  destruct (update_main options); [by intros [= <-] _|].
  next_truthy (monitoring_service options); [by intros [= <-] _|].
  next_truthy (disable_addons options); [by intros [= <-] _|].
  next_given (enable_autoscaling options); [by intros [= <-] _|].
  next_truthy (locations options); [by intros [= <-] _|].
  next_given (enable_main_authorized_networks options).
  { intros [= <-] _.
    by destruct (main_authorized_networks options) as [[|network networks]|]. }
  next_given (enable_autoprovisioning options); [by intros [= <-] Hk|].
  next_given (enable_pod_security_policy options); [by intros [= <-] _|].
  next_given (enable_binauthz options); [by intros [= <-] _|].
  discriminate.
Qed.

(** C10 (amended): with [k] the first of the ten kinds of update that the
    options populate, in the fixed order, [UpdateClusterCommon] builds the
    message of [k] and of no other kind: every field of the [ClusterUpdate]
    is pinned. For the autoprovisioning kind it first calls the adapter's
    [CreateClusterAutoscalingCommon], whose exception, if any, is what it
    raises. After that, networks given without the enable flag make it
    raise the validation error, also when no kind is populated; with no
    kind populated and that check passing it reads the unbound local
    [update] and faults. So it returns exactly when a kind is populated,
    the networks check passes and, for autoprovisioning, the adapter's
    method returns. *)
Theorem UpdateClusterCommon_outcomes options :
  (∀ k, selected options = Some k → k ≠ KAutoprovisioning →
        carries_only (payload (CA := ClusterAutoscaling) options None k) k
        ∧ UpdateClusterCommon options
          = if networks_mismatch options
            then Raise (UtilError MISMATCH_AUTHORIZED_NETWORKS_ERROR_MSG)
            else Ok (payload options None k))
  ∧ (selected options = Some KAutoprovisioning →
     (∀ autoscaling : ClusterAutoscaling,
        carries_only (payload options (Some autoscaling) KAutoprovisioning)
          KAutoprovisioning)
     ∧ UpdateClusterCommon options
       = match CreateClusterAutoscalingCommon options with
         | Raise e => Raise e
         | Ok autoscaling =>
             if networks_mismatch options
             then Raise (UtilError MISMATCH_AUTHORIZED_NETWORKS_ERROR_MSG)
             else Ok (payload options (Some autoscaling) KAutoprovisioning)
         end)
  ∧ (selected options = None →
     UpdateClusterCommon options
     = Raise (if networks_mismatch options
              then UtilError MISMATCH_AUTHORIZED_NETWORKS_ERROR_MSG
              else UnboundLocalError "update"))
  ∧ (is_ok (UpdateClusterCommon options) = true ↔
       networks_mismatch options = false
       ∧ ∃ k, selected options = Some k
              ∧ (k = KAutoprovisioning →
                 is_ok (CreateClusterAutoscalingCommon options) = true)).
Proof.
  assert (∀ k, selected options = Some k → k ≠ KAutoprovisioning →
            UpdateClusterCommon options
            = if networks_mismatch options
              then Raise (UtilError MISMATCH_AUTHORIZED_NETWORKS_ERROR_MSG)
              else Ok (payload options None k)) as Hkind.
  { intros k Hk Hne. unfold UpdateClusterCommon.
    fold (networks_mismatch options). cbv zeta.
    rewrite (select_update_payload options k Hk Hne).
    cbn [mbind result_bind]. by destruct (networks_mismatch options). }
  assert (selected options = Some KAutoprovisioning →
          UpdateClusterCommon options
          = match CreateClusterAutoscalingCommon options with
            | Raise e => Raise e
            | Ok autoscaling =>
                if networks_mismatch options
                then Raise (UtilError MISMATCH_AUTHORIZED_NETWORKS_ERROR_MSG)
                else Ok (payload options (Some autoscaling) KAutoprovisioning)
            end) as Hauto.
  { intros Hk. unfold UpdateClusterCommon.
    fold (networks_mismatch options). cbv zeta.
    rewrite (select_update_autoprovisioning _ _ Hk).
    destruct (CreateClusterAutoscalingCommon options) as [a|e];
      cbn [mbind result_bind]; [|done].
    by destruct (networks_mismatch options). }
  assert (selected options = None →
          UpdateClusterCommon options
          = Raise (if networks_mismatch options
                   then UtilError MISMATCH_AUTHORIZED_NETWORKS_ERROR_MSG
                   else UnboundLocalError "update")) as Hnone.
  { intros Hk. unfold UpdateClusterCommon.
    fold (networks_mismatch options). cbv zeta.
    rewrite (select_update_none _ _ Hk). cbn [mbind result_bind].
    by destruct (networks_mismatch options). }
  split; [|split; [|split]].
  - intros k Hk Hne. split; [|by apply Hkind].
    destruct (select_update_selected options
                (or_default (version options) "-") k Hk Hne) as (u & Hu & Hc).
    rewrite (select_update_payload options k Hk Hne) in Hu.
    by injection Hu as <-.
  - intros Hk. split; [|by apply Hauto].
    intros autoscaling k'. by destruct k'.
  - done.
  - destruct (selected options) as [k|] eqn:Hk.
    + destruct (decide (k = KAutoprovisioning)) as [->|Hne].
      * rewrite (Hauto eq_refl).
        destruct (CreateClusterAutoscalingCommon options) as [a|e];
          [destruct (networks_mismatch options)|]; cbn [is_ok].
        -- split; [done|by intros [? _]].
        -- split; [intros _; split; [done|by exists KAutoprovisioning]|done].
        -- split; [done|].
           intros (_ & k' & [= <-] & Hok). by specialize (Hok eq_refl).
      * rewrite (Hkind k eq_refl Hne).
        destruct (networks_mismatch options); cbn [is_ok].
        -- split; [done|by intros [? _]].
        -- split; [intros _; split; [done|]|done]. by exists k.
    + rewrite (Hnone eq_refl). cbn [is_ok].
      split; [done|]. by intros (_ & k' & ? & _).
Qed.
End UpdateCluster.

Lemma UpdateClusterCommon_outcomes_witness :
  ApiAdapter.Update.UpdateClusterCommon
    (Adapter0 := ApiAdapter.Update.APIAdapter_base)
    (ApiAdapter.Update.nodes_networks_options true None)
  = Ok (ApiAdapter.Update.payload
          (ApiAdapter.Update.nodes_networks_options true None) None
          ApiAdapter.Update.KNodes)
  ∧ ApiAdapter.Update.UpdateClusterCommon
      (Adapter0 := ApiAdapter.Update.APIAdapter_base)
      (ApiAdapter.Update.nodes_networks_options false None)
    = Raise (UnboundLocalError "update")
  ∧ ApiAdapter.Update.UpdateClusterCommon
      (Adapter0 := ApiAdapter.Update.APIAdapter_base)
      (ApiAdapter.Update.nodes_networks_options true (Some ["10.0.0.0/8"]))
    = Raise (UtilError ApiAdapter.MISMATCH_AUTHORIZED_NETWORKS_ERROR_MSG).
Proof.
  split; [|split].
  - destruct (UpdateClusterCommon_outcomes
                (Adapter0 := ApiAdapter.Update.APIAdapter_base)
                (ApiAdapter.Update.nodes_networks_options true None))
      as (H & _).
    by destruct (H ApiAdapter.Update.KNodes eq_refl) as [_ ->].
  - destruct (UpdateClusterCommon_outcomes
                (Adapter0 := ApiAdapter.Update.APIAdapter_base)
                (ApiAdapter.Update.nodes_networks_options false None))
      as (_ & _ & H & _).
    by rewrite (H eq_refl).
  - destruct (UpdateClusterCommon_outcomes
                (Adapter0 := ApiAdapter.Update.APIAdapter_base)
                (ApiAdapter.Update.nodes_networks_options true
                   (Some ["10.0.0.0/8"])))
      as (H & _).
    by destruct (H ApiAdapter.Update.KNodes eq_refl) as [_ ->].
Defined.

(** The base adapter builds no cluster autoscaling: with autoprovisioning
    the first populated kind its error is raised, before the networks are
    looked at. *)
Lemma UpdateClusterCommon_autoprovisioning_base :
  ApiAdapter.Update.UpdateClusterCommon
    (Adapter0 := ApiAdapter.Update.APIAdapter_base)
    (ApiAdapter.Update.autoprovisioning_networks_options
       (Some ["10.0.0.0/8"]))
  = Raise (UtilError ApiAdapter.NO_AUTOPROVISIONING_MSG).
Proof. reflexivity. Qed.

(** C10 as stated fails twice over: with [update_nodes] populated and
    networks given without the enable flag nothing is returned, and with no
    kind populated and networks given the validation error is raised, not
    the fault on the unbound local. *)
Lemma UpdateClusterCommon_populated_not_total :
  (ApiAdapter.Update.selected
     (ApiAdapter.Update.nodes_networks_options true (Some ["10.0.0.0/8"]))
   = Some ApiAdapter.Update.KNodes
   ∧ ApiAdapter.Update.UpdateClusterCommon
       (Adapter0 := ApiAdapter.Update.APIAdapter_base)
       (ApiAdapter.Update.nodes_networks_options true (Some ["10.0.0.0/8"]))
     = Raise (UtilError ApiAdapter.MISMATCH_AUTHORIZED_NETWORKS_ERROR_MSG))
  ∧ (ApiAdapter.Update.selected
       (ApiAdapter.Update.nodes_networks_options false (Some ["10.0.0.0/8"]))
     = None
     ∧ ApiAdapter.Update.UpdateClusterCommon
         (Adapter0 := ApiAdapter.Update.APIAdapter_base)
         (ApiAdapter.Update.nodes_networks_options false (Some ["10.0.0.0/8"]))
       = Raise (UtilError ApiAdapter.MISMATCH_AUTHORIZED_NETWORKS_ERROR_MSG)).
Proof. repeat split. Qed.

(** ** Operation polling *)

Section Polling.
Import ApiAdapter ApiAdapter.Operations.
Context {OperationRef : Type}.
Context (clock : nat → Z).
Context (GetOperation : OperationRef → nat → api_result Operation).
Context (str_operation : Operation → string).
Implicit Types (operation_ref : OperationRef) (tr : Trace).
Implicit Types (operation : option Operation).

Local Abbreviation poll := (poll clock GetOperation).

(** [n] rounds of the loop in which the timeout has not passed and the
    fetch returns an operation that is not done. *)
Lemma poll_not_done (n : nat) :
  ∀ fuel operation_ref timeout_s poll_period_s start_time tr operation,
    (∀ i, (i < n)%nat →
       timeout_s > clock (clock_reads tr + i) - start_time) →
    (∀ i, (i < n)%nat →
       ∃ op, GetOperation operation_ref (fetches tr + i) = Returned op
             ∧ IsOperationFinished op = false) →
    ∃ tr' operation',
      poll (n + fuel) operation_ref timeout_s poll_period_s start_time
        tr operation
      = poll fuel operation_ref timeout_s poll_period_s start_time
          tr' operation'
      ∧ clock_reads tr' = (clock_reads tr + n)%nat
      ∧ fetches tr' = (fetches tr + n)%nat
      ∧ slept tr' = slept tr + Z.of_nat n * poll_period_s
      ∧ match n with
        | O => operation' = operation
        | S m => ∃ op, operation' = Some op
                       ∧ GetOperation operation_ref (fetches tr + m)
                         = Returned op
                       ∧ IsOperationFinished op = false
        end.
Proof.
  induction n as [|n IH];
    intros fuel operation_ref timeout_s poll_period_s start_time tr
           operation Hclock Hsrc.
  - exists tr, operation. rewrite !Nat.add_0_r. repeat split; lia.
  - destruct (Hsrc O ltac:(lia)) as (op & Hop & Hnd).
    pose proof (Hclock O ltac:(lia)) as Hc0.
    rewrite Nat.add_0_r in Hop, Hc0.
    cbn [Nat.add Operations.poll]. cbn [clock_reads fetches slept].
    destruct (Z.gtb_spec timeout_s (clock (clock_reads tr) - start_time));
      [|lia].
    rewrite Hop, Hnd.
    edestruct (IH fuel operation_ref timeout_s poll_period_s start_time
                 {| clock_reads := S (clock_reads tr);
                    fetches := S (fetches tr);
                    slept := slept tr + poll_period_s;
                    detail_message := detail op |} (Some op))
      as (tr' & operation' & -> & Hcr & Hf & Hs & Hlast).
    + intros i Hi. cbn [clock_reads].
      replace (S (clock_reads tr) + i)%nat with (clock_reads tr + S i)%nat
        by lia.
      apply Hclock. lia.
    + intros i Hi. cbn [fetches].
      replace (S (fetches tr) + i)%nat with (fetches tr + S i)%nat by lia.
      apply Hsrc. lia.
    + cbn [clock_reads fetches slept] in *.
      exists tr', operation'. split; [done|].
      split; [lia|]. split; [lia|]. split; [lia|].
      destruct n as [|m].
      * subst operation'. rewrite Nat.add_0_r. by exists op.
      * replace (fetches tr + S m)%nat with (S (fetches tr) + m)%nat by lia.
        done.
Qed.

(** The loop is left through [break] at the first done operation. *)
Lemma WaitForOperation_done (n fuel : nat) operation_ref message
    timeout_s poll_period_s op :
  not_done_before GetOperation operation_ref n →
  GetOperation operation_ref n = Returned op →
  IsOperationFinished op = true →
  within_timeout clock timeout_s (S n) →
  (n < fuel)%nat →
  ∃ tr,
    WaitForOperation clock GetOperation str_operation fuel operation_ref
      message timeout_s poll_period_s
    = Some (finish str_operation (Some op), tr)
    ∧ fetches tr = S n
    ∧ slept tr = Z.of_nat n * poll_period_s.
Proof.
  intros Hsrc Hop Hdone Hclock Hfuel.
  unfold WaitForOperation.
  replace fuel with (n + S (fuel - S n))%nat by lia.
  edestruct (poll_not_done n (S (fuel - S n)) operation_ref timeout_s
               poll_period_s (clock 0)
               {| clock_reads := 1; fetches := 0; slept := 0;
                  detail_message := None |} None)
    as (tr' & operation' & -> & Hcr & Hf & Hs & _).
  - intros i Hi. cbn [clock_reads]. apply Hclock. lia.
  - intros i Hi. cbn [fetches]. apply Hsrc. lia.
  - cbn [clock_reads fetches slept] in Hcr, Hf, Hs.
    cbn [Operations.poll]. rewrite Hcr, Hf. cbn [clock_reads fetches Nat.add].
    pose proof (Hclock n ltac:(lia)) as Hc.
    destruct (Z.gtb_spec timeout_s (clock (S n) - clock 0)); [|lia].
    rewrite Hop, Hdone. cbn. eexists. split; [reflexivity|].
    cbn [fetches slept]. split; [done|lia].
Qed.

(** The loop is left through its condition when the source is never
    done. *)
Lemma WaitForOperation_timeout (n fuel : nat) operation_ref message
    timeout_s poll_period_s :
  not_done_before GetOperation operation_ref n →
  within_timeout clock timeout_s n →
  timeout_s ≤ clock (S n) - clock 0 →
  (n < fuel)%nat →
  ∃ e tr,
    WaitForOperation clock GetOperation str_operation fuel operation_ref
      message timeout_s poll_period_s
    = Some (Raise e, tr)
    ∧ fetches tr = n
    ∧ match n with
      | O => e = UnboundLocalError "operation"
      | S m => ∃ op, GetOperation operation_ref m = Returned op
                     ∧ e = UtilError ("Operation [" +:+ str_operation op
                                      +:+ "] is still running")
      end.
Proof.
  intros Hsrc Hclock Hout Hfuel.
  unfold WaitForOperation.
  replace fuel with (n + S (fuel - S n))%nat by lia.
  edestruct (poll_not_done n (S (fuel - S n)) operation_ref timeout_s
               poll_period_s (clock 0)
               {| clock_reads := 1; fetches := 0; slept := 0;
                  detail_message := None |} None)
    as (tr' & operation' & -> & Hcr & Hf & Hs & Hlast).
  - intros i Hi. cbn [clock_reads]. apply Hclock. lia.
  - intros i Hi. cbn [fetches]. apply Hsrc. lia.
  - cbn [clock_reads fetches slept] in Hcr, Hf, Hs, Hlast.
    cbn [Operations.poll]. rewrite Hcr. cbn [clock_reads fetches Nat.add].
    destruct (Z.gtb_spec timeout_s (clock (S n) - clock 0)); [lia|].
    cbn. destruct n as [|m].
    + subst operation'. cbn. eexists _, _. split; [reflexivity|].
      cbn [fetches]. split; [lia|done].
    + destruct Hlast as (op & -> & Hop & Hnd). cbn. rewrite Hnd. cbn.
      eexists _, _. split; [reflexivity|]. cbn [fetches].
      split; [lia|]. exists op. by rewrite Nat.add_0_l in Hop.
Qed.

(** C6: [WaitForOperation] polls until the operation is done or the
    timeout has passed. With a source that is not done at the first [n]
    fetches and done at the next one, and the timeout not passed by then,
    it returns the operation after exactly [n + 1] fetches (for every
    [poll_period_s], 0 included), unless the operation carries a
    non-empty error, in which case it fails with a message that holds that
    error. With a source that is never done it fails at the first
    evaluation of the loop condition at which the elapsed time has reached
    [timeout_s]. *)
Theorem WaitForOperation_polls (n fuel : nat) operation_ref message
    timeout_s poll_period_s :
  (n < fuel)%nat →
  (∀ op,
     not_done_before GetOperation operation_ref n →
     GetOperation operation_ref n = Returned op →
     IsOperationFinished op = true →
     within_timeout clock timeout_s (S n) →
     (truthy (GetOperationError op) = false →
      ∃ tr,
        WaitForOperation clock GetOperation str_operation fuel operation_ref
          message timeout_s poll_period_s = Some (Ok op, tr)
        ∧ fetches tr = S n)
     ∧ (∀ payload,
          GetOperationError op = Some payload → payload ≠ "" →
          ∃ tr,
            WaitForOperation clock GetOperation str_operation fuel
              operation_ref message timeout_s poll_period_s
            = Some (Raise (UtilError
                             ("Operation [" +:+ str_operation op
                              +:+ "] finished with error: " +:+ payload)),
                    tr)
            ∧ fetches tr = S n))
  ∧ ((∀ k, not_done_before GetOperation operation_ref k) →
     within_timeout clock timeout_s n →
     timeout_s ≤ clock (S n) - clock 0 →
     ∃ e tr,
       WaitForOperation clock GetOperation str_operation fuel operation_ref
         message timeout_s poll_period_s = Some (Raise e, tr)
       ∧ fetches tr = n).
Proof.
  intros Hfuel. split.
  - intros op Hsrc Hop Hdone Hclock.
    destruct (WaitForOperation_done n fuel operation_ref message timeout_s
                poll_period_s op Hsrc Hop Hdone Hclock Hfuel)
      as (tr & Hrun & Hf & _).
    unfold finish in Hrun. rewrite Hdone in Hrun. cbn [negb] in Hrun.
    split.
    + intros Herr. rewrite Herr in Hrun. by exists tr.
    + intros payload Hp Hne. rewrite Hp in Hrun.
      assert (truthy (Some payload) = true) as Ht
        by (destruct payload; [done|reflexivity]).
      rewrite Ht in Hrun. by exists tr.
  - intros Hsrc Hclock Hout.
    destruct (WaitForOperation_timeout n fuel operation_ref message timeout_s
                poll_period_s (Hsrc n) Hclock Hout Hfuel)
      as (e & tr & Hrun & Hf & _).
    by exists e, tr.
Qed.
End Polling.

Lemma WaitForOperation_polls_witness :
  (∃ tr,
     ApiAdapter.Operations.WaitForOperation ApiAdapter.Operations.tick_clock
       (ApiAdapter.Operations.done_at_third None) (λ op, "operation-1")
       3 () "Creating cluster" 1200 0
     = Some (Ok (ApiAdapter.Operations.done_operation None), tr)
     ∧ ApiAdapter.Operations.fetches tr = 3%nat)
  ∧ (∃ e tr,
       ApiAdapter.Operations.WaitForOperation ApiAdapter.Operations.tick_clock
         ApiAdapter.Operations.never_done (λ op, "operation-1")
         3 () "Creating cluster" 3 0
       = Some (Raise e, tr)
       ∧ ApiAdapter.Operations.fetches tr = 2%nat).
Proof.
  split.
  - destruct (WaitForOperation_polls ApiAdapter.Operations.tick_clock
                (ApiAdapter.Operations.done_at_third None) (λ op, "operation-1")
                2 3 () "Creating cluster" 1200 0 ltac:(lia)) as (H & _).
    apply (H (ApiAdapter.Operations.done_operation None)).
    + intros i Hi. exists ApiAdapter.Operations.running_operation.
      destruct i as [|[|i]]; [split; reflexivity..|lia].
    + reflexivity.
    + reflexivity.
    + intros i Hi. unfold ApiAdapter.Operations.tick_clock. lia.
    + reflexivity.
  - destruct (WaitForOperation_polls ApiAdapter.Operations.tick_clock
                ApiAdapter.Operations.never_done (λ op, "operation-1")
                2 3 () "Creating cluster" 3 0 ltac:(lia)) as (_ & H).
    apply H.
    + intros k i Hi. exists ApiAdapter.Operations.running_operation.
      split; reflexivity.
    + intros i Hi. unfold ApiAdapter.Operations.tick_clock. lia.
    + unfold ApiAdapter.Operations.tick_clock. lia.
Defined.

(** Runs against the two sources, evaluated. *)
Lemma WaitForOperation_runs :
  ApiAdapter.Operations.WaitForOperation ApiAdapter.Operations.tick_clock
    (ApiAdapter.Operations.done_at_third None) (λ op, "operation-1")
    3 () "Creating cluster" 1200 0
  = Some (Ok (ApiAdapter.Operations.done_operation None),
          {| ApiAdapter.Operations.clock_reads := 5;
             ApiAdapter.Operations.fetches := 3;
             ApiAdapter.Operations.slept := 0;
             ApiAdapter.Operations.detail_message := Some "creating" |})
  ∧ ApiAdapter.Operations.WaitForOperation ApiAdapter.Operations.tick_clock
      (ApiAdapter.Operations.done_at_third (Some "quota exceeded"))
      (λ op, "operation-1") 3 () "Creating cluster" 1200 0
    = Some (Raise (UtilError
                     "Operation [operation-1] finished with error: quota exceeded"),
            {| ApiAdapter.Operations.clock_reads := 5;
               ApiAdapter.Operations.fetches := 3;
               ApiAdapter.Operations.slept := 0;
               ApiAdapter.Operations.detail_message := Some "creating" |})
  ∧ ApiAdapter.Operations.WaitForOperation ApiAdapter.Operations.tick_clock
      ApiAdapter.Operations.never_done (λ op, "operation-1")
      3 () "Creating cluster" 3 0
    = Some (Raise (UtilError "Operation [operation-1] is still running"),
            {| ApiAdapter.Operations.clock_reads := 4;
               ApiAdapter.Operations.fetches := 2;
               ApiAdapter.Operations.slept := 0;
               ApiAdapter.Operations.detail_message := Some "creating" |})
  ∧ ApiAdapter.Operations.WaitForOperation ApiAdapter.Operations.tick_clock
      ApiAdapter.Operations.never_done (λ op, "operation-1")
      3 () "Creating cluster" 0 0
    = Some (Raise (UnboundLocalError "operation"),
            {| ApiAdapter.Operations.clock_reads := 2;
               ApiAdapter.Operations.fetches := 0;
               ApiAdapter.Operations.slept := 0;
               ApiAdapter.Operations.detail_message := None |}).
Proof. repeat split. Qed.

(** ** Label update *)

Section UpdateLabels.
Import ApiAdapter.
Context {ClusterRef : Type}.
Implicit Types (cluster_ref : ClusterRef) (update_labels : gmap string string).

(** With the cluster found, the labels come back ordered by key, with the
    cluster's fingerprint. *)
Lemma UpdateLabelsCommon_found (GetCluster : ClusterRef → get_result)
    cluster_ref update_labels clus :
  GetCluster cluster_ref = GetReturned (Some clus) →
  UpdateLabelsCommon GetCluster cluster_ref update_labels
  = Ok (sorted_items update_labels, labelFingerprint clus).
Proof. intros Hget. unfold UpdateLabelsCommon. by rewrite Hget. Qed.

Lemma sorted_items_sorted update_labels :
  Sorted item_le (sorted_items update_labels).
Proof.
  apply Sorted_merge_sort. intros a b. unfold item_le.
  destruct (String.leb a.1 b.1) eqn:Hab; [by left|right].
  unfold String.leb in *.
  rewrite String.compare_antisym.
  destruct (String.compare a.1 b.1); cbn in *; congruence.
Qed.

Lemma sorted_items_perm update_labels :
  sorted_items update_labels ≡ₚ map_to_list update_labels.
Proof. apply merge_sort_Permutation. Qed.

End UpdateLabels.

Section UpdateLabelsLookup.
Import ApiAdapter Lookup LabelsLookup.
Context {NodeConfig : Type}.
Context (ListClusters : string → api_result (list (Lookup.Cluster NodeConfig))).
Context (Get : ClusterRef → api_result ApiAdapter.Cluster).
Context (api_error_of : ClusterRef → string).
Implicit Types (cluster_ref : ClusterRef) (update_labels : gmap string string).

Lemma TryToGetCluster_raises cluster_ref api_error :
  ∃ e, TryToGetCluster ListClusters cluster_ref api_error = Raise e.
Proof.
  unfold TryToGetCluster.
  destruct (ListClusters (projectId cluster_ref)) as [clusters| |status];
    [|by eexists..].
  destruct (find_wrong_zone cluster_ref api_error clusters);
    cbn [mbind result_bind]; by eexists.
Qed.

(** C9 (amended): the label update does not go on without the cluster.
    [GetCluster] answers a lookup that is not found with an exception of
    its own, the one [TryToGetCluster] raises, and [UpdateLabelsCommon]
    lets it through, as it does the [HttpException] of any other failure.
    It returns exactly when the lookup returns the cluster, and then, for
    every [update_labels], returns its items ordered by key with the
    fingerprint of that cluster. *)
Theorem UpdateLabelsCommon_lookup cluster_ref update_labels :
  let run := UpdateLabelsCommon (GetCluster ListClusters Get api_error_of)
               cluster_ref update_labels in
  (∀ clus, Get cluster_ref = Returned clus →
     run = Ok (sorted_items update_labels, labelFingerprint clus))
  ∧ (Get cluster_ref = RaisedHttpNotFoundError →
     ∃ e, TryToGetCluster ListClusters cluster_ref (api_error_of cluster_ref)
          = Raise e
          ∧ run = Raise e)
  ∧ (∀ status_code, Get cluster_ref = RaisedHttpError status_code →
       run = Raise (HttpException status_code))
  ∧ (is_ok run = true ↔ ∃ clus, Get cluster_ref = Returned clus)
  ∧ (∀ labels fingerprint, run = Ok (labels, fingerprint) →
       Sorted item_le labels
       ∧ ∀ k v, (k, v) ∈ labels ↔ update_labels !! k = Some v).
Proof.
  cbv zeta. unfold UpdateLabelsCommon, GetCluster.
  destruct (Get cluster_ref) as [clus| |status] eqn:Hget.
  - cbn [mbind result_bind is_ok].
    split; [by intros ? [= <-]|]. split; [done|]. split; [done|].
    split; [split; [by exists clus|done]|].
    intros labels fingerprint [= <- <-]. split; [apply sorted_items_sorted|].
    intros k v. by rewrite sorted_items_perm, elem_of_map_to_list.
  - destruct (TryToGetCluster_raises cluster_ref (api_error_of cluster_ref))
      as [e ->].
    cbn [mbind result_bind is_ok].
    split; [done|]. split; [intros _; by exists e|]. split; [done|].
    split; [split; [done|by intros [? ?]]|done].
  - cbn [mbind result_bind is_ok].
    split; [done|]. split; [done|]. split; [by intros ? [= <-]|].
    split; [split; [done|by intros [? ?]]|done].
Qed.
End UpdateLabelsLookup.

Lemma UpdateLabelsCommon_lookup_witness :
  ApiAdapter.UpdateLabelsCommon
    (LabelsLookup.GetCluster LabelsLookup.no_clusters
       (λ _, Returned (ApiAdapter.Build_Cluster None None None None (Some "f1")))
       (λ _, "ResponseError: code=404"))
    LabelsLookup.prod_ref (<["env" := "prod"]> (<["app" := "web"]> ∅))
  = Ok (ApiAdapter.sorted_items (<["env" := "prod"]> (<["app" := "web"]> ∅)),
        Some "f1").
Proof.
  destruct (UpdateLabelsCommon_lookup LabelsLookup.no_clusters
              (λ _, Returned (ApiAdapter.Build_Cluster None None None None
                                (Some "f1")))
              (λ _, "ResponseError: code=404")
              LabelsLookup.prod_ref (<["env" := "prod"]> (<["app" := "web"]> ∅)))
    as (H & _).
  exact (H _ eq_refl).
Defined.

(** C9 as stated fails: the lookup of [prod] is not found and no cluster
    of the project has the name, and the label update does not complete:
    it ends in the error that names the missing cluster. *)
Lemma UpdateLabelsCommon_not_found_raises :
  ApiAdapter.UpdateLabelsCommon
    (LabelsLookup.GetCluster LabelsLookup.no_clusters
       (λ _, RaisedHttpNotFoundError) (λ _, "ResponseError: code=404"))
    LabelsLookup.prod_ref {[ "env" := "prod" ]}
  = Raise (UtilError (Lookup.NO_SUCH_CLUSTER_ERROR_MSG
                        "ResponseError: code=404" "prod" "p1")).
Proof. reflexivity. Qed.

(** The label update of a cluster that is found, evaluated. *)
Lemma UpdateLabelsCommon_example :
  ApiAdapter.UpdateLabelsCommon
    (λ _ : (), ApiAdapter.GetReturned
                 (Some (ApiAdapter.Build_Cluster None None None None (Some "f1"))))
    () (<["env" := "prod"]> (<["app" := "web"]> ∅))
  = Ok ([("app", "web"); ("env", "prod")], Some "f1").
Proof. vm_compute. reflexivity. Qed.

(** ** Kubeconfig *)

Section KubeconfigClear.
Import Kubeconfig.
Implicit Types (self : Kubeconfig) (key : string).

Lemma eq_str_true (v : option value) key :
  eq_str v key = true ↔ v = Some (VStr key).
Proof.
  unfold eq_str. destruct v as [[]|]; try (split; [discriminate|congruence]).
  rewrite String.eqb_eq. split; congruence.
Qed.

(** C5: [Clear(key)] removes the entry named [key] from the clusters, the
    users and the contexts and leaves their other entries as they were;
    it sets [current-context] to the empty string when that equals [key]
    and leaves the whole document as it was otherwise; no other field of
    the document and not the file name changes. On three collections that
    hold just [key], with [key] the current context, it leaves three empty
    collections and an empty current context; on a key that is in none of
    them and is not the current context it changes nothing. *)
Theorem Clear_frame self key :
  (∀ k, clusters (Clear key self) !! k
        = if decide (k = key) then None else clusters self !! k)
  ∧ (∀ k, users (Clear key self) !! k
          = if decide (k = key) then None else users self !! k)
  ∧ (∀ k, contexts (Clear key self) !! k
          = if decide (k = key) then None else contexts self !! k)
  ∧ (_data self !! "current-context" = Some (VStr key) →
     _data (Clear key self) !! "current-context" = Some (VStr ""))
  ∧ (_data self !! "current-context" ≠ Some (VStr key) →
     _data (Clear key self) = _data self)
  ∧ (∀ field, field ≠ "current-context" →
       _data (Clear key self) !! field = _data self !! field)
  ∧ _filename (Clear key self) = _filename self
  ∧ (∀ c u x,
       clusters self = {[ key := c ]} → users self = {[ key := u ]} →
       contexts self = {[ key := x ]} →
       _data self !! "current-context" = Some (VStr key) →
       clusters (Clear key self) = ∅ ∧ users (Clear key self) = ∅
       ∧ contexts (Clear key self) = ∅
       ∧ current_context (Clear key self) = Ok (VStr ""))
  ∧ (clusters self !! key = None → users self !! key = None →
     contexts self !! key = None →
     _data self !! "current-context" ≠ Some (VStr key) →
     Clear key self = self).
Proof.
  repeat apply conj.
  - intros k. cbn. case_decide; simplify_map_eq; done.
  - intros k. cbn. case_decide; simplify_map_eq; done.
  - intros k. cbn. case_decide; simplify_map_eq; done.
  - intros Hcc. cbn. apply eq_str_true in Hcc as ->. by simplify_map_eq.
  - intros Hcc. cbn.
    destruct (eq_str _ key) eqn:E; [by apply eq_str_true in E|done].
  - intros field Hf. cbn. destruct (eq_str _ key); by simplify_map_eq.
  - done.
  - intros c u x Hc Hu Hx Hcc. cbn. rewrite Hc, Hu, Hx, !delete_singleton_eq.
    repeat split. unfold current_context. cbn.
    apply eq_str_true in Hcc as ->. by simplify_map_eq.
  - intros Hc Hu Hx Hcc. destruct self as [f d cs us xs]. cbn in *.
    unfold Clear. cbn.
    rewrite !delete_id by done.
    destruct (eq_str _ key) eqn:E; [by apply eq_str_true in E|done].
Qed.
End KubeconfigClear.

Lemma Clear_frame_witness :
  (Kubeconfig.clusters
     (Kubeconfig.Clear "c1" (Kubeconfig.single_entry_config "c1" "config")) = ∅
   ∧ Kubeconfig.users
       (Kubeconfig.Clear "c1" (Kubeconfig.single_entry_config "c1" "config")) = ∅
   ∧ Kubeconfig.contexts
       (Kubeconfig.Clear "c1" (Kubeconfig.single_entry_config "c1" "config")) = ∅
   ∧ Kubeconfig.current_context
       (Kubeconfig.Clear "c1" (Kubeconfig.single_entry_config "c1" "config"))
     = Ok (Kubeconfig.VStr ""))
  ∧ Kubeconfig.Clear "other" (Kubeconfig.single_entry_config "c1" "config")
    = Kubeconfig.single_entry_config "c1" "config".
Proof.
  split.
  - destruct (Clear_frame (Kubeconfig.single_entry_config "c1" "config") "c1")
      as (_ & _ & _ & _ & _ & _ & _ & H & _).
    apply (H _ _ _ eq_refl eq_refl eq_refl eq_refl).
  - apply Clear_frame; [reflexivity..|discriminate].
Defined.

Section KubeconfigUser.
Import Kubeconfig.
Context (inst : Installation).
Implicit Types (name : string).
Implicit Types (token username password auth_provider : option string).
Implicit Types (cert_path cert_data key_path key_data : option string).

(** C2 (amended): [User] fails when none of [auth_provider], [token],
    [cert_path], [cert_data] and not both of [username] and [password]
    are supplied; it fails when both of [cert_path] and [cert_data], or
    both of [key_path] and [key_data], are supplied; it returns exactly
    when neither is the case and, with an auth provider given, the
    provider entry can be built. When it returns, the user body holds the
    auth provider if one is given, else the token if one is given, else
    the user name and password (which may be [None] when only a
    certificate was supplied), and nothing of the later ones. *)
Theorem User_auth_info name token username password auth_provider
    cert_path cert_data key_path key_data :
  let run := User inst name token username password auth_provider
               cert_path cert_data key_path key_data in
  (no_auth_info token username password auth_provider cert_path cert_data
     = true →
   run = Raise (KubeconfigError
           "either auth_provider, token or username & password must be provided"))
  ∧ (truthy cert_path = true → truthy cert_data = true → is_ok run = false)
  ∧ (truthy key_path = true → truthy key_data = true → is_ok run = false)
  ∧ (is_ok run = true ↔
       no_auth_info token username password auth_provider cert_path cert_data
         = false
       ∧ (truthy auth_provider = true →
          is_ok (_AuthProvider inst (default "" auth_provider)) = true)
       ∧ truthy cert_path && truthy cert_data = false
       ∧ truthy key_path && truthy key_data = false)
  ∧ (∀ entry, run = Ok entry →
       entry !! "name" = Some (VStr name)
       ∧ ∃ user,
           entry !! "user" = Some (VDict user)
           ∧ (if truthy auth_provider then
                (∃ provider,
                   _AuthProvider inst (default "" auth_provider) = Ok provider
                   ∧ user !! "auth-provider" = Some (VDict provider))
                ∧ user !! "token" = None
                ∧ user !! "username" = None ∧ user !! "password" = None
              else if truthy token then
                user !! "token" = Some (of_optional token)
                ∧ user !! "auth-provider" = None
                ∧ user !! "username" = None ∧ user !! "password" = None
              else
                user !! "username" = Some (of_optional username)
                ∧ user !! "password" = Some (of_optional password)
                ∧ user !! "auth-provider" = None ∧ user !! "token" = None)).
Proof.
  cbv zeta. unfold User.
  destruct (no_auth_info token username password auth_provider cert_path
              cert_data) eqn:Hno.
  { repeat split; try done. by intros (? & _). }
  split; [done|].
  destruct (truthy auth_provider) eqn:Hap;
    [destruct (_AuthProvider inst (default "" auth_provider)) as [p|e] eqn:Hp|
     destruct (truthy token) eqn:Htok];
    cbn [mbind result_bind];
    destruct (truthy cert_path) eqn:Hcp, (truthy cert_data) eqn:Hcd;
    cbn [andb mbind result_bind];
    destruct (truthy key_path) eqn:Hkp, (truthy key_data) eqn:Hkd;
    cbn [andb mbind result_bind is_ok];
    (split; [done|]); (split; [done|]);
    (split; [split; [try done; intros _; repeat split; done
                    |try done; intros (_ & H1 & H2 & H3);
                     try discriminate; try (by specialize (H1 eq_refl))]|]);
    intros entry [= <-]; (split; [by simplify_map_eq|]);
    eexists; (split; [by simplify_map_eq|]);
    try (split; [by exists p|]); by simplify_map_eq.
Qed.
End KubeconfigUser.

Lemma User_auth_info_witness :
  Kubeconfig.User Kubeconfig.posix_installation "u"
    None (Some "admin") None None None None None None
  = Raise (KubeconfigError
      "either auth_provider, token or username & password must be provided")
  ∧ is_ok (Kubeconfig.User Kubeconfig.posix_installation "u"
             (Some "t0k3n") None None None (Some "/c.pem") (Some "Y2VydA==")
             None None) = false
  ∧ is_ok (Kubeconfig.User Kubeconfig.posix_installation "u"
             (Some "t0k3n") (Some "admin") (Some "pw") None None None
             None None) = true.
Proof.
  split; [|split].
  - destruct (User_auth_info Kubeconfig.posix_installation "u"
                None (Some "admin") None None None None None None)
      as (H & _).
    apply H. reflexivity.
  - destruct (User_auth_info Kubeconfig.posix_installation "u"
                (Some "t0k3n") None None None (Some "/c.pem") (Some "Y2VydA==")
                None None) as (_ & H & _).
    apply H; reflexivity.
  - destruct (User_auth_info Kubeconfig.posix_installation "u"
                (Some "t0k3n") (Some "admin") (Some "pw") None None None
                None None) as (_ & _ & _ & H & _).
    apply H. repeat split; discriminate.
Defined.

(** C2 as stated fails: with a client certificate and none of auth
    provider, token, user name and password, [User] returns an entry (whose
    user name and password are [None]). *)
Lemma User_cert_only_returns :
  Kubeconfig.User Kubeconfig.posix_installation "u"
    None None None None (Some "/c.pem") None None None
  = Ok (<["user" := Kubeconfig.VDict
                      (<["client-certificate" := Kubeconfig.VStr "/c.pem"]>
                      (<["password" := Kubeconfig.VNone]>
                      {[ "username" := Kubeconfig.VNone ]}))]>
        {[ "name" := Kubeconfig.VStr "u" ]}).
Proof. reflexivity. Qed.

(** The precedence of [User], evaluated: the auth provider wins over the
    token, the token over user name and password. *)
Lemma User_precedence_examples :
  Kubeconfig.User Kubeconfig.posix_installation "u"
    (Some "t0k3n") (Some "admin") (Some "pw") (Some "oidc") None None None None
  = Ok (<["user" := Kubeconfig.VDict
                      {[ "auth-provider" :=
                           Kubeconfig.VDict {[ "name" := Kubeconfig.VStr "oidc" ]} ]}]>
        {[ "name" := Kubeconfig.VStr "u" ]})
  ∧ Kubeconfig.User Kubeconfig.posix_installation "u"
      (Some "t0k3n") (Some "admin") (Some "pw") None None None None None
    = Ok (<["user" := Kubeconfig.VDict {[ "token" := Kubeconfig.VStr "t0k3n" ]}]>
          {[ "name" := Kubeconfig.VStr "u" ]})
  ∧ Kubeconfig.User Kubeconfig.posix_installation "u"
      None (Some "admin") (Some "pw") None None None None (Some "a2V5")
    = Ok (<["user" := Kubeconfig.VDict
                        (<["client-key-data" := Kubeconfig.VStr "a2V5"]>
                        (<["password" := Kubeconfig.VStr "pw"]>
                        {[ "username" := Kubeconfig.VStr "admin" ]}))]>
          {[ "name" := Kubeconfig.VStr "u" ]}).
Proof. repeat split. Qed.

(** ** Version comparison *)

Section VersionVerifier.
Import Upgrade.
Context (SemVer : string → result Version).
Context (Distance : Version → Version → Z * Z * Z).
Implicit Types (main_version cluster_version : Version).

Lemma verdicts_distinct :
  NoDup [UP_TO_DATE; UPGRADE_AVAILABLE; SUPPORT_ENDING; UNSUPPORTED].
Proof.
  unfold UP_TO_DATE, UPGRADE_AVAILABLE, SUPPORT_ENDING, UNSUPPORTED.
  apply NoDup_cons. split; [rewrite !elem_of_cons, elem_of_nil; lia|].
  apply NoDup_cons. split; [rewrite !elem_of_cons, elem_of_nil; lia|].
  apply NoDup_cons. split; [rewrite !elem_of_cons, elem_of_nil; lia|].
  apply NoDup_singleton.
Qed.

(** C3: for two version strings that parse, [Compare] depends only on the
    strings and their distance, and sorts the pair into one of four
    classes with four different values: equal strings are [UP_TO_DATE]; of
    the others, those with major distance 0 and minor distance at most 1
    are [UPGRADE_AVAILABLE], those with major distance 0 and minor distance
    2 are [SUPPORT_ENDING], and those with a major distance or a minor
    distance above 2 are [UNSUPPORTED]. *)
Theorem Compare_classes (current_main_version current_cluster_version : string)
    main_version cluster_version (dmajor dminor dpatch : Z) :
  SemVer current_main_version = Ok main_version →
  SemVer current_cluster_version = Ok cluster_version →
  Distance main_version cluster_version = (dmajor, dminor, dpatch) →
  let verdict :=
    Compare SemVer Distance current_main_version current_cluster_version in
  (current_main_version = current_cluster_version → verdict = Ok UP_TO_DATE)
  ∧ (current_main_version ≠ current_cluster_version →
     (dmajor = 0 → dminor ≤ 1 → verdict = Ok UPGRADE_AVAILABLE)
     ∧ (dmajor = 0 → dminor = 2 → verdict = Ok SUPPORT_ENDING)
     ∧ (dmajor ≠ 0 ∨ dminor > 2 → verdict = Ok UNSUPPORTED))
  ∧ (verdict = Ok UP_TO_DATE ∨ verdict = Ok UPGRADE_AVAILABLE
     ∨ verdict = Ok SUPPORT_ENDING ∨ verdict = Ok UNSUPPORTED)
  ∧ NoDup [UP_TO_DATE; UPGRADE_AVAILABLE; SUPPORT_ENDING; UNSUPPORTED].
Proof.
  intros Hm Hc Hd. cbv zeta. unfold Compare.
  destruct (String.eqb_spec current_main_version current_cluster_version)
    as [Heq|Hne].
  - repeat split; try done; [auto|]. apply verdicts_distinct.
  - rewrite Hm, Hc. cbn [mbind result_bind]. rewrite Hd.
    split; [done|]. split; [intros _|split].
    + split; [|split].
      * intros -> Hle. cbn. destruct (Z.gtb_spec dminor 2); [lia|].
        destruct (Z.gtb_spec dminor 1); [lia|]. done.
      * intros -> ->. done.
      * intros [Hmaj|Hmin].
        -- destruct (Z.eqb_spec dmajor 0); done.
        -- destruct (Z.gtb_spec dminor 2); [|lia]. by rewrite orb_true_r.
    + destruct (negb (dmajor =? 0) || (dminor >? 2)); [auto|].
      destruct (dminor >? 1); auto.
    + apply verdicts_distinct.
Qed.
End VersionVerifier.

Lemma Compare_classes_witness :
  Upgrade.Compare Upgrade.SemVer_spec Upgrade.Distance_spec "1.10.0" "1.9.0"
  = Ok Upgrade.UPGRADE_AVAILABLE.
Proof.
  destruct (Compare_classes Upgrade.SemVer_spec Upgrade.Distance_spec
              "1.10.0" "1.9.0"
              {| Upgrade.major := 1; Upgrade.minor := 10; Upgrade.patch := 0 |}
              {| Upgrade.major := 1; Upgrade.minor := 9; Upgrade.patch := 0 |}
              0 1 0 eq_refl eq_refl eq_refl) as (_ & H & _).
  apply H; [discriminate | reflexivity | lia].
Defined.

(** The four examples, with versions parsed and compared part by part. *)
Lemma Compare_examples :
  Upgrade.Compare Upgrade.SemVer_spec Upgrade.Distance_spec "1.9.0" "1.9.0"
  = Ok Upgrade.UP_TO_DATE
  ∧ Upgrade.Compare Upgrade.SemVer_spec Upgrade.Distance_spec "1.10.0" "1.9.0"
    = Ok Upgrade.UPGRADE_AVAILABLE
  ∧ Upgrade.Compare Upgrade.SemVer_spec Upgrade.Distance_spec "1.11.0" "1.9.0"
    = Ok Upgrade.SUPPORT_ENDING
  ∧ Upgrade.Compare Upgrade.SemVer_spec Upgrade.Distance_spec "1.12.0" "1.9.0"
    = Ok Upgrade.UNSUPPORTED
  ∧ Upgrade.Compare Upgrade.SemVer_spec Upgrade.Distance_spec "2.0.0" "1.9.0"
    = Ok Upgrade.UNSUPPORTED
  ∧ Upgrade.Compare Upgrade.SemVer_spec Upgrade.Distance_spec
      "1.9.7-gke.1" "1.9.6-gke.0"
    = Ok Upgrade.UPGRADE_AVAILABLE.
Proof. repeat split. Qed.

(** ** Size of the function source *)

Section SourceSize.
Import FunctionsDeploy.
Context (IsIncluded : string → string → bool).
Context (GetTreeSizeBytes : string → (string → bool) → Z).

(** C7: [_ValidateUnpackedSourceSize] fails with [OversizedDeployment],
    which reports the measured size and the limit in bytes, exactly when
    the size of the tree, measured through the ignore-file predicate, is
    above [512 * 2^20] bytes: at 512 MiB + 1 byte it fails, at 512 MiB it
    returns. *)
Theorem _ValidateUnpackedSourceSize_limit (path : string) :
  let size_b := GetTreeSizeBytes path (IsIncluded path) in
  let run := _ValidateUnpackedSourceSize IsIncluded GetTreeSizeBytes path in
  (size_b > 512 * 2 ^ 20 ↔
     run = Raise (OversizedDeployment (str_int size_b +:+ "B")
                                      (str_int (512 * 2 ^ 20) +:+ "B")))
  ∧ (size_b ≤ 512 * 2 ^ 20 ↔ run = Ok ())
  ∧ (size_b = 512 * 2 ^ 20 + 1 →
     run = Raise (OversizedDeployment "536870913B" "536870912B"))
  ∧ (size_b = 512 * 2 ^ 20 → run = Ok ()).
Proof.
  cbv zeta. unfold _ValidateUnpackedSourceSize.
  set (size_b := GetTreeSizeBytes path (IsIncluded path)).
  destruct (Z.gtb_spec size_b (512 * 2 ^ 20)) as [Hgt|Hle].
  - repeat split; try done; try lia. intros ->. reflexivity.
  - repeat split; try done; try lia.
Qed.
End SourceSize.

Lemma _ValidateUnpackedSourceSize_limit_witness :
  FunctionsDeploy._ValidateUnpackedSourceSize FunctionsDeploy.skip_node_modules
    (λ path, FunctionsDeploy.GetTreeSizeBytes_spec
               (FunctionsDeploy.synthetic_tree path)) "over"
  = Raise (OversizedDeployment "536870913B" "536870912B")
  ∧ FunctionsDeploy._ValidateUnpackedSourceSize FunctionsDeploy.skip_node_modules
      (λ path, FunctionsDeploy.GetTreeSizeBytes_spec
                 (FunctionsDeploy.synthetic_tree path)) "exact"
    = Ok ().
Proof.
  split.
  - destruct (_ValidateUnpackedSourceSize_limit
                FunctionsDeploy.skip_node_modules
                (λ path, FunctionsDeploy.GetTreeSizeBytes_spec
                           (FunctionsDeploy.synthetic_tree path)) "over")
      as (_ & _ & H & _).
    apply H. reflexivity.
  - destruct (_ValidateUnpackedSourceSize_limit
                FunctionsDeploy.skip_node_modules
                (λ path, FunctionsDeploy.GetTreeSizeBytes_spec
                           (FunctionsDeploy.synthetic_tree path)) "exact")
      as (_ & _ & _ & H).
    apply H. reflexivity.
Defined.

(** ** Replication type of a new SQL instance *)

Section SqlReplication.
Import SqlInstances.
Context {B F M L : Type} `{!Reducers B F M L}.
Implicit Types (cls : Dialect) (args : Args) (release_track : ReleaseTrack).
Implicit Types (original : option (DatabaseInstance B F M L)).
Implicit Types (s : Settings B F M L).

Lemma _ConstructBaseSettingsFromArgs_replicationType cls args original
    release_track s :
  _ConstructBaseSettingsFromArgs cls args original release_track = Ok s →
  replicationType s = replication args.
Proof.
  unfold _ConstructBaseSettingsFromArgs. intros Hs.
  repeat match type of Hs with
         | (?r ≫= _) = Ok _ =>
             destruct r; cbn [mbind result_bind] in Hs; [|discriminate Hs]
         end.
  by injection Hs as <-.
Qed.

Lemma _ConstructCreateSettingsFromArgs_replicationType cls args original
    release_track s :
  _ConstructCreateSettingsFromArgs cls args original release_track = Ok s →
  replicationType s = replication args.
Proof.
  unfold _ConstructCreateSettingsFromArgs. intros Hs.
  destruct (_ConstructBaseSettingsFromArgs cls args original release_track)
    as [base|] eqn:Hbase; cbn [mbind result_bind] in Hs; [|discriminate Hs].
  apply _ConstructBaseSettingsFromArgs_replicationType in Hbase.
  repeat match type of Hs with
         | (?r ≫= _) = Ok _ =>
             destruct r; cbn [mbind result_bind] in Hs; [|discriminate Hs]
         end.
  by injection Hs as <-.
Qed.

(** C8: [ConstructCreateInstanceFromArgs] returns an instance whenever the
    settings can be built, and fails as they do otherwise. The instance
    has replication type [SYNCHRONOUS] with no main-instance name and no
    replication flag; [ASYNCHRONOUS], with
    [replicaConfiguration.failoverTarget = true], with a main-instance
    name, replica type [FAILOVER] and no replication flag; and the value
    of the replication flag whenever that is given. *)
Theorem ConstructCreateInstanceFromArgs_replication cls args original
    instance_ref release_track :
  let run := ConstructCreateInstanceFromArgs cls args original instance_ref
               release_track in
  (∀ e, _ConstructCreateSettingsFromArgs cls args original release_track
        = Raise e → run = Raise e)
  ∧ (∀ s, _ConstructCreateSettingsFromArgs cls args original release_track
          = Ok s →
       ∃ inst s',
         run = Ok inst ∧ settings inst = Some s'
         ∧ (truthy (main_instance_name args) = false →
            truthy (replication args) = false →
            replicationType s' = Some "SYNCHRONOUS")
         ∧ (truthy (main_instance_name args) = true →
            replica_type args = Some "FAILOVER" →
            truthy (replication args) = false →
            replicationType s' = Some "ASYNCHRONOUS"
            ∧ replicaConfiguration inst
              = Some {| failoverTarget := Some true |})
         ∧ (truthy (replication args) = true →
            replicationType s' = replication args)).
Proof.
  cbv zeta. unfold ConstructCreateInstanceFromArgs. split.
  - intros e ->. reflexivity.
  - intros s Hs.
    pose proof (_ConstructCreateSettingsFromArgs_replicationType _ _ _ _ _ Hs)
      as Hrep.
    rewrite Hs. cbn [mbind result_bind]. eexists _, _.
    split; [reflexivity|]. split; [reflexivity|]. cbn [replicaConfiguration].
    split; [|split].
    + intros -> ->. reflexivity.
    + intros -> -> ->. split; reflexivity.
    + intros ->. exact Hrep.
Qed.
End SqlReplication.

Lemma ConstructCreateInstanceFromArgs_replication_witness :
  ∃ inst s',
    SqlInstances.ConstructCreateInstanceFromArgs
      (Reducers0 := SqlInstances.plain_reducers) SqlInstances.InstancesV1Beta4
      (SqlInstances.replica_args (Some "main-1") (Some "FAILOVER") None)
      None (Some ("my-project", "replica-1")) SqlInstances.GA
    = Ok inst
    ∧ SqlInstances.settings inst = Some s'
    ∧ SqlInstances.replicationType s' = Some "ASYNCHRONOUS"
    ∧ SqlInstances.replicaConfiguration inst
      = Some {| SqlInstances.failoverTarget := Some true |}.
Proof.
  destruct (ConstructCreateInstanceFromArgs_replication
              (Reducers0 := SqlInstances.plain_reducers)
              SqlInstances.InstancesV1Beta4
              (SqlInstances.replica_args (Some "main-1") (Some "FAILOVER") None)
              None (Some ("my-project", "replica-1")) SqlInstances.GA)
    as (_ & H).
  destruct (H _ eq_refl) as (inst & s' & Hrun & Hs & _ & Hfail & _).
  destruct (Hfail eq_refl eq_refl eq_refl) as (Hrep & Hconf).
  exists inst, s'. repeat split; assumption.
Defined.

(** The three cases, evaluated on the replication type and the replica
    configuration of the instance built. *)
Lemma ConstructCreateInstanceFromArgs_examples :
  let outcome main replica replication :=
    (λ inst, (SqlInstances.replicationType <$> SqlInstances.settings inst,
              SqlInstances.replicaConfiguration inst))
    <$> SqlInstances.ConstructCreateInstanceFromArgs
          (Reducers0 := SqlInstances.plain_reducers)
          SqlInstances.InstancesV1Beta4
          (SqlInstances.replica_args main replica replication)
          None (Some ("my-project", "replica-1")) SqlInstances.GA in
  outcome None None None = Ok (Some (Some "SYNCHRONOUS"), None)
  ∧ outcome (Some "main-1") (Some "FAILOVER") None
    = Ok (Some (Some "ASYNCHRONOUS"),
          Some {| SqlInstances.failoverTarget := Some true |})
  ∧ outcome (Some "main-1") (Some "READ") None
    = Ok (Some (Some "ASYNCHRONOUS"), None)
  ∧ outcome (Some "main-1") (Some "FAILOVER") (Some "SYNCHRONOUS")
    = Ok (Some (Some "SYNCHRONOUS"),
          Some {| SqlInstances.failoverTarget := Some true |})
  ∧ outcome None None (Some "ASYNCHRONOUS")
    = Ok (Some (Some "ASYNCHRONOUS"), None).
Proof. repeat split. Qed.

(** * Further properties *)

(** ** Node pools of a new cluster *)

Section NodePoolsUniform.
Import ApiAdapter.
Context {NodeConfig : Type}.
Implicit Types (options : CreateClusterOptions) (node_config : NodeConfig).
Implicit Types (ps : list (NodePool NodeConfig)).

Lemma pool_names_of_NoDup k : NoDup (pool_names_of k).
Proof.
  unfold pool_names_of. destruct (k =? 1).
  - apply NoDup_singleton.
  - apply NoDup_fmap_2.
    + intros i j Hij. apply (inj (String.app "default-pool-")) in Hij.
      unfold str_int in Hij. by apply (inj pretty) in Hij.
    + unfold range0. apply NoDup_fmap_2; [apply _|apply NoDup_seq].
Qed.

Lemma fill_pools_uniform options node_config p names t :
  Forall (λ pool, ∃ nm n, pool = make_pool options node_config nm n)
         (fill_pools options node_config p names t).
Proof.
  revert t. induction names as [|nm names IH]; intros t; cbn [fill_pools].
  - constructor.
  - constructor; [by eexists _, _|apply IH].
Qed.

(** The pools of a new cluster have pairwise different names and differ in
    nothing but name and node count: all carry the one node config, the
    node version, the node management and the autoscaling of the options. *)
Theorem CreateClusterCommon_pools_uniform options node_config ps :
  CreateClusterCommon_pools options node_config = Ok ps →
  NoDup (name <$> ps)
  ∧ ∀ pool, pool ∈ ps →
      config pool = node_config
      ∧ version pool = node_version options
      ∧ management pool = _GetNodeManagement options
      ∧ autoscaling pool
        = (if truthy (enable_autoscaling options)
           then Some {| npa_enabled := enable_autoscaling options;
                        minNodeCount := min_nodes options;
                        maxNodeCount := max_nodes options |}
           else None).
Proof.
  unfold CreateClusterCommon_pools.
  destruct (num_nodes options) as [n|]; [|discriminate].
  cbv zeta.
  destruct (floordiv _ _) as [k|]; cbn [mbind result_bind]; [|discriminate].
  destruct (floordiv _ _) as [p|]; cbn [mbind result_bind]; [|discriminate].
  intros [= <-]. split.
  - rewrite fill_pools_names. apply pool_names_of_NoDup.
  - intros pool Hin.
    pose proof (fill_pools_uniform options node_config p (pool_names_of k) n)
      as Hall.
    rewrite Forall_forall in Hall.
    destruct (Hall pool Hin) as (nm & c & ->). repeat split.
Qed.
End NodePoolsUniform.

Lemma CreateClusterCommon_pools_uniform_witness :
  ∃ ps,
    ApiAdapter.CreateClusterCommon_pools (ApiAdapter.sharding_options 2500 1000) ()
      = Ok ps
    ∧ NoDup (ApiAdapter.name <$> ps).
Proof.
  eexists. split; [reflexivity|].
  apply (CreateClusterCommon_pools_uniform
           (ApiAdapter.sharding_options 2500 1000) ()).
  reflexivity.
Defined.

(** ** Looking up node pools and clusters *)

Section LookupProperties.
Import Lookup.
Context {NodeConfig : Type}.
Implicit Types (cluster : Cluster NodeConfig).
Implicit Types (np : ApiAdapter.NodePool NodeConfig).

(** What [List.find] finds is the first element that passes the test. *)
Lemma find_first {A} (f : A → bool) (l : list A) x :
  List.find f l = Some x →
  ∃ l1 l2, l = l1 ++ x :: l2 ∧ f x = true ∧ Forall (λ y, f y = false) l1.
Proof.
  induction l as [|a l IH]; cbn [List.find]; [discriminate|].
  destruct (f a) eqn:Ha.
  - intros [= ->]. by exists [], l.
  - intros Hf. destruct (IH Hf) as (l1 & l2 & -> & Hx & Hl1).
    exists (a :: l1), l2. repeat split; [done|by constructor].
Qed.

Lemma find_none_iff {A} (f : A → bool) (l : list A) :
  List.find f l = None ↔ Forall (λ y, f y = false) l.
Proof.
  induction l as [|a l IH]; cbn [List.find].
  - split; [constructor|done].
  - destruct (f a) eqn:Ha.
    + split; [discriminate|]. intros H. inversion H; congruence.
    + rewrite IH. split; [by constructor|]. intros H. by inversion H.
Qed.

(** [FindNodePool] returns a pool exactly when the name given is the name of
    a pool of the cluster or, with no name given, when the cluster has one
    pool. The pool returned is the first of that name, or the only pool. *)
Theorem FindNodePool_found linesep cluster (pool_name : option string) :
  (is_ok (FindNodePool linesep cluster pool_name) = true ↔
     if truthy pool_name
     then ∃ np, np ∈ nodePools cluster ∧ pool_name = Some (ApiAdapter.name np)
     else length (nodePools cluster) = 1%nat)
  ∧ ∀ np, FindNodePool linesep cluster pool_name = Ok np →
      if truthy pool_name
      then ∃ before after,
             nodePools cluster = before ++ np :: after
             ∧ pool_name = Some (ApiAdapter.name np)
             ∧ Forall (λ p, Some (ApiAdapter.name p) ≠ pool_name) before
      else nodePools cluster = [np].
Proof.
  unfold FindNodePool. cbv zeta.
  destruct (truthy pool_name) eqn:Ht.
  - destruct pool_name as [n|]; [|discriminate]. cbn [default].
    destruct (List.find _ (nodePools cluster)) as [np|] eqn:Hfind.
    + destruct (find_first _ _ _ Hfind) as (l1 & l2 & Hl & Hnp & Hl1).
      apply String.eqb_eq in Hnp. split.
      * split; [intros _|done]. exists np. split; [|by rewrite Hnp].
        rewrite Hl. apply elem_of_app. right. by left.
      * intros ? [= <-]. exists l1, l2. repeat split; [done|by rewrite Hnp|].
        eapply Forall_impl; [exact Hl1|]. cbn. intros p Hp [= Heq].
        apply String.eqb_neq in Hp. done.
    + apply find_none_iff in Hfind. split; [|discriminate].
      split; [discriminate|]. intros (np & Hin & [= ->]).
      rewrite Forall_forall in Hfind. specialize (Hfind np Hin).
      by rewrite String.eqb_refl in Hfind.
  - destruct (nodePools cluster) as [|np [|np' l]].
    + split; [split; discriminate|discriminate].
    + split; [done|]. by intros ? [= <-].
    + split; [split; discriminate|discriminate].
Qed.

(** For a name that is not empty, [FindNodePool] of the adapter and
    [_NodePoolFromCluster] of the command library find the same pool, and
    fail together. *)
Theorem FindNodePool_agrees_NodePoolFromCluster linesep cluster
    (node_pool_name : string) :
  node_pool_name ≠ "" →
  match FindNodePool linesep cluster (Some node_pool_name),
        _NodePoolFromCluster cluster node_pool_name with
  | Ok np, Return np' => np = np'
  | Raise _, Throw _ => True
  | _, _ => False
  end.
Proof.
  intros Hne. unfold FindNodePool, _NodePoolFromCluster. cbv zeta.
  assert (truthy (Some node_pool_name) = true) as ->
    by (destruct node_pool_name; done).
  cbn [default]. by destruct (List.find _ _).
Qed.

Context (ListClusters : string → api_result (list (Cluster NodeConfig))).
Context (Get : ClusterRef → api_result (Cluster NodeConfig)).
Context (api_error_of : ClusterRef → string).

Lemma find_wrong_zone_Ok cluster_ref api_error
    (clusters : list (Cluster NodeConfig)) :
  find_wrong_zone cluster_ref api_error clusters = Ok () ↔
  Forall (λ c, name c ≠ clusterId cluster_ref) clusters.
Proof.
  induction clusters as [|c l IH]; cbn [find_wrong_zone].
  - split; [constructor|done].
  - destruct (String.eqb_spec (name c) (clusterId cluster_ref)) as [Heq|Hne].
    + split; [discriminate|]. intros H. by inversion H.
    + rewrite IH. split; [by constructor|]. intros H. by inversion H.
Qed.

Lemma find_wrong_zone_Raise cluster_ref api_error
    (clusters : list (Cluster NodeConfig)) e :
  find_wrong_zone cluster_ref api_error clusters = Raise e →
  ∃ zone, e = UtilError (WRONG_ZONE_ERROR_MSG api_error (clusterId cluster_ref)
                           (ref_zone cluster_ref) zone).
Proof.
  induction clusters as [|c l IH]; cbn [find_wrong_zone]; [discriminate|].
  destruct (String.eqb (name c) (clusterId cluster_ref)); [|exact IH].
  intros [= <-]. by eexists.
Qed.

(** [TryToGetCluster] never returns: it raises the not-found error of the
    project exactly when the listing succeeds and holds no cluster of the
    name, and otherwise an error of the listing or the wrong-zone error.
    So [GetCluster] of the v1 adapter never evaluates to [None]: it returns
    the cluster when the service does, and raises otherwise. *)
Theorem GetCluster_never_None cluster_ref api_error :
  is_ok (TryToGetCluster ListClusters cluster_ref api_error) = false
  ∧ (TryToGetCluster ListClusters cluster_ref api_error
     = Raise (UtilError (NO_SUCH_CLUSTER_ERROR_MSG api_error
                           (clusterId cluster_ref) (projectId cluster_ref)))
     ↔ ∃ clusters,
         ListClusters (projectId cluster_ref) = Returned clusters
         ∧ Forall (λ c, name c ≠ clusterId cluster_ref) clusters)
  ∧ GetCluster ListClusters Get api_error_of cluster_ref ≠ Ok None
  ∧ ∀ cluster,
      GetCluster ListClusters Get api_error_of cluster_ref = Ok (Some cluster)
      ↔ Get cluster_ref = Returned cluster.
Proof.
  assert (∀ e, is_ok (TryToGetCluster ListClusters cluster_ref e) = false)
    as Hnever.
  { intros e. unfold TryToGetCluster.
    destruct (ListClusters _) as [cs| |s]; [|done..].
    by destruct (find_wrong_zone _ _ cs) as [[]|]. }
  split; [apply Hnever|]. split; [|split].
  - unfold TryToGetCluster.
    destruct (ListClusters _) as [cs| |s].
    + destruct (find_wrong_zone cluster_ref api_error cs) as [[]|e] eqn:Hw;
        cbn [mbind result_bind].
      * apply find_wrong_zone_Ok in Hw. split; [|done]. by exists cs.
      * split; [|intros (cs' & [= <-] & Hall);
                  apply (find_wrong_zone_Ok cluster_ref api_error) in Hall;
                  congruence].
        intros [= ->]. exfalso.
        destruct (find_wrong_zone_Raise _ _ _ _ Hw) as (z & [= Hmsg]).
        unfold WRONG_ZONE_ERROR_MSG, NO_SUCH_CLUSTER_ERROR_MSG in Hmsg.
        apply (inj (String.app api_error)) in Hmsg.
        vm_compute in Hmsg. discriminate Hmsg.
    + split; [discriminate|]. by intros (? & ? & _).
    + split; [discriminate|]. by intros (? & ? & _).
  - unfold GetCluster. destruct (Get cluster_ref); [done| |done].
    specialize (Hnever (api_error_of cluster_ref)).
    by destruct (TryToGetCluster _ _ _) as [[]|].
  - intros cluster. unfold GetCluster.
    destruct (Get cluster_ref) as [c| |s].
    + split; congruence.
    + specialize (Hnever (api_error_of cluster_ref)).
      destruct (TryToGetCluster _ _ _) as [[]|]; [done|]. split; discriminate.
    + split; discriminate.
Qed.
End LookupProperties.

Lemma FindNodePool_found_witness :
  ∃ np,
    Lookup.FindNodePool "
" Lookup.two_pool_cluster (Some "gpu-pool") = Ok np
    ∧ ApiAdapter.initialNodeCount np = 1.
Proof.
  eexists. split; [reflexivity|]. 
  destruct (FindNodePool_found "
" Lookup.two_pool_cluster (Some "gpu-pool")) as [_ H].
  destruct (H _ eq_refl) as (before & after & _ & _ & _). reflexivity.
Defined.

Lemma FindNodePool_agrees_NodePoolFromCluster_witness :
  match Lookup.FindNodePool "
" Lookup.two_pool_cluster (Some "gpu-pool"),
        Lookup._NodePoolFromCluster Lookup.two_pool_cluster "gpu-pool" with
  | Ok np, Return np' => np = np'
  | Raise _, Throw _ => True
  | _, _ => False
  end.
Proof.
  apply (FindNodePool_agrees_NodePoolFromCluster "
" Lookup.two_pool_cluster "gpu-pool").
  discriminate.
Defined.

Lemma GetCluster_never_None_witness :
  Lookup.TryToGetCluster (λ _, Returned [Lookup.two_pool_cluster])
    {| Lookup.clusterId := "prod"; Lookup.ref_zone := "us-west1-a";
       Lookup.projectId := "p1" |} "HTTP 404"
  = Raise (UtilError "HTTP 404
Could not find [prod] in [us-west1-a].
Did you mean [prod] in [us-east1-b]?")
  ∧ Lookup.GetCluster (λ _, Returned [Lookup.two_pool_cluster])
      (λ _, RaisedHttpNotFoundError) (λ _, "HTTP 404")
      {| Lookup.clusterId := "dev"; Lookup.ref_zone := "us-west1-a";
         Lookup.projectId := "p1" |}
    ≠ Ok None.
Proof.
  split; [reflexivity|].
  apply (GetCluster_never_None (λ _, Returned [Lookup.two_pool_cluster])
           (λ _, RaisedHttpNotFoundError) (λ _, "HTTP 404")
           {| Lookup.clusterId := "dev"; Lookup.ref_zone := "us-west1-a";
              Lookup.projectId := "p1" |} "HTTP 404").
Defined.

(** ** Removing labels *)

Section RemoveLabelsProperties.
Import ClusterLabels.
Context {ClusterRef : Type} (GetCluster : ClusterRef → api_result Cluster).
Implicit Types (clus_labels : gmap string string) (remove_labels : list string).

Lemma pop_all_Ok cluster remove_labels clus_labels m :
  pop_all cluster remove_labels clus_labels = Ok m →
  NoDup remove_labels
  ∧ Forall (λ k, is_Some (clus_labels !! k)) remove_labels
  ∧ ∀ k, m !! k = if decide (k ∈ remove_labels) then None
                  else clus_labels !! k.
Proof.
  revert clus_labels. induction remove_labels as [|k ks IH];
    intros clus_labels; cbn [pop_all].
  - intros [= <-]. split; [constructor|]. split; [constructor|].
    intros k. case_decide as Hk; [by apply elem_of_nil in Hk|done].
  - destruct (clus_labels !! k) as [v|] eqn:Hk; [|discriminate].
    intros Hpop. destruct (IH _ Hpop) as (Hnd & Hall & Hm).
    assert (k ∉ ks) as Hnotin.
    { intros Hin. rewrite Forall_forall in Hall.
      destruct (Hall k Hin) as [? Hl]. by rewrite lookup_delete_eq in Hl. }
    split; [|split].
    + by constructor.
    + constructor; [by eexists|].
      eapply Forall_impl; [exact Hall|]. cbn. intros k' [v' Hk'].
      apply lookup_delete_Some in Hk' as [_ Hk']. by eexists.
    + intros k'. rewrite Hm.
      destruct (decide (k' ∈ ks)) as [Hin|Hnin].
      * by rewrite decide_True by (by right).
      * destruct (decide (k' = k)) as [->|Hne].
        -- rewrite decide_True by left. apply lookup_delete_eq.
        -- rewrite decide_False; [by rewrite lookup_delete_ne|].
           by intros [?|?]%elem_of_cons.
Qed.

Lemma pop_all_is_ok cluster remove_labels clus_labels :
  NoDup remove_labels →
  Forall (λ k, is_Some (clus_labels !! k)) remove_labels →
  is_ok (pop_all cluster remove_labels clus_labels) = true.
Proof.
  revert clus_labels. induction remove_labels as [|k ks IH];
    intros clus_labels Hnd Hall; cbn [pop_all]; [done|].
  apply NoDup_cons in Hnd as [Hk Hnd].
  apply Forall_cons in Hall as [[v ->] Hall].
  apply IH; [done|]. rewrite Forall_forall in Hall |- *.
  intros k' Hk'. destruct (Hall k' Hk') as [v' Hv'].
  exists v'. rewrite lookup_delete_ne; [done|]. by intros ->.
Qed.

Lemma elem_of_sorted_items (m : gmap string string) k v :
  (k, v) ∈ ApiAdapter.sorted_items m ↔ m !! k = Some v.
Proof.
  unfold ApiAdapter.sorted_items.
  rewrite merge_sort_Permutation. apply elem_of_map_to_list.
Qed.

(** With the cluster found, [RemoveLabelsCommon] returns exactly when the
    cluster has labels, every label to remove is one of them and none is
    named twice. It then returns the labels that are left, ordered by
    key, with the fingerprint of the cluster. *)
Theorem RemoveLabelsCommon_removes cluster_ref remove_labels clus :
  GetCluster cluster_ref = Returned clus →
  let clus_labels := from_option labels_dict ∅ (resourceLabels clus) in
  (is_ok (RemoveLabelsCommon GetCluster cluster_ref remove_labels) = true ↔
     clus_labels ≠ ∅ ∧ NoDup remove_labels
     ∧ ∀ k, k ∈ remove_labels → is_Some (clus_labels !! k))
  ∧ ∀ labels fingerprint,
      RemoveLabelsCommon GetCluster cluster_ref remove_labels
        = Ok (labels, fingerprint) →
      fingerprint = labelFingerprint clus
      ∧ Sorted ApiAdapter.item_le labels
      ∧ ∀ k v, (k, v) ∈ labels ↔
               clus_labels !! k = Some v ∧ k ∉ remove_labels.
Proof.
  intros Hget. cbv zeta. unfold RemoveLabelsCommon. rewrite Hget.
  cbn [mbind result_bind].
  assert ((match resourceLabels clus with
           | Some items => labels_dict items
           | None => ∅
           end) = from_option labels_dict ∅ (resourceLabels clus)) as ->
    by (by destruct (resourceLabels clus)).
  set (d := from_option labels_dict ∅ (resourceLabels clus)).
  unfold truthy, truthy_dict. rewrite negb_involutive.
  destruct (bool_decide_reflect (dom d = ∅)) as [Hempty|Hne].
  - apply dom_empty_iff_L in Hempty. split; [|discriminate].
    split; [discriminate|]. by intros (? & _).
  - assert (d ≠ ∅) as Hd by (by intros ?%dom_empty_iff_L).
    destruct (pop_all (name clus) remove_labels d) as [m|e] eqn:Hpop;
      cbn [mbind result_bind].
    + destruct (pop_all_Ok _ _ _ _ Hpop) as (Hnd & Hall & Hm). split.
      * split; [intros _|done]. split; [done|]. split; [done|].
        by apply Forall_forall.
      * intros ? ? [= <- <-]. split; [done|].
        split; [apply sorted_items_sorted|].
        intros k v. rewrite elem_of_sorted_items, Hm.
        case_decide as Hin.
        -- split; [done|]. by intros [_ ?].
        -- split; [by intros ?|]. by intros [? _].
    + split; [|discriminate]. split; [discriminate|].
      intros (_ & Hnd & Hall). apply Forall_forall in Hall.
      pose proof (pop_all_is_ok (name clus) _ _ Hnd Hall) as Hok.
      by rewrite Hpop in Hok.
Qed.

End RemoveLabelsProperties.

Lemma RemoveLabelsCommon_removes_witness :
  ClusterLabels.RemoveLabelsCommon
    (λ _ : (), Returned ClusterLabels.labelled_cluster) () ["team"]
  = Ok ([("app", "web"); ("env", "prod")], Some "f1")
  ∧ ∀ labels fingerprint,
      ClusterLabels.RemoveLabelsCommon
        (λ _ : (), Returned ClusterLabels.labelled_cluster) () ["team"]
      = Ok (labels, fingerprint) →
      fingerprint = Some "f1".
Proof.
  split; [vm_compute; reflexivity|]. intros labels fingerprint Hrun.
  destruct (RemoveLabelsCommon_removes
              (λ _ : (), Returned ClusterLabels.labelled_cluster) () ["team"]
              ClusterLabels.labelled_cluster eq_refl) as [_ H].
  by destruct (H _ _ Hrun) as (-> & _).
Defined.

(** ** Node taints *)

Section NodeTaintsProperties.
Import NodeTaints.
Implicit Types (sep : Ascii.ascii) (s : string).

Lemma split_not_nil sep s : split sep s ≠ [].
Proof.
  destruct s as [|c s]; cbn [split]; [done|].
  destruct (Ascii.eqb c sep); [done|]. by destruct (split sep s).
Qed.

(** Joining the fields with the separator gives the string back. *)
Lemma split_concat sep s :
  String.concat (String sep EmptyString) (split sep s) = s.
Proof.
  induction s as [|c s IH]; cbn [split]; [done|].
  destruct (Ascii.eqb_spec c sep) as [->|Hne].
  - pose proof (split_not_nil sep s) as Hnil.
    destruct (split sep s) as [|f fs] eqn:Hs; [done|].
    cbn [String.concat]. cbn [String.concat] in IH. by rewrite IH.
  - pose proof (split_not_nil sep s) as Hnil.
    destruct (split sep s) as [|f fs] eqn:Hs; [done|].
    cbn [String.concat] in *. destruct fs; cbn; by rewrite <- IH.
Qed.

Lemma split_fields_no_sep sep s :
  Forall (λ field, has_char sep field = false) (split sep s).
Proof.
  induction s as [|c s IH]; cbn [split]; [by repeat constructor|].
  destruct (Ascii.eqb_spec c sep) as [->|Hne].
  - by constructor.
  - destruct (split sep s) as [|f fs].
    { repeat constructor. cbn. by destruct (Ascii.eqb_spec c sep). }
    inversion IH; subst. constructor; [|done]. cbn [has_char].
    by destruct (Ascii.eqb_spec c sep).
Qed.

Lemma split_app_sep sep a rest :
  has_char sep a = false →
  split sep (a +:+ String sep rest) = a :: split sep rest.
Proof.
  induction a as [|c a IH]; cbn [has_char]; intros Ha.
  - change ("" +:+ String sep rest) with (String sep rest).
    cbn [split]. by rewrite Ascii.eqb_refl.
  - apply orb_false_iff in Ha as [Hc Ha].
    change (String c a +:+ String sep rest)
      with (String c (a +:+ String sep rest)).
    cbn [split]. rewrite Hc, (IH Ha). done.
Qed.

Lemma parse_taint_Ok (k v : string) t :
  parse_taint (k, v) = Ok t ↔
  key t = k ∧ v = taint_text (value t) (effect t)
  ∧ has_char colon (value t) = false.
Proof.
  unfold parse_taint, taint_text. split.
  - pose proof (split_concat colon v) as Hjoin.
    pose proof (split_fields_no_sep colon v) as Hno.
    destruct (split colon v) as [|a [|b [|c l]]]; try discriminate.
    cbn [String.concat] in Hjoin. inversion Hno; subst.
    destruct (String.eqb_spec b "NoSchedule") as [->|_];
      [intros [= <-]; by repeat split|].
    destruct (String.eqb_spec b "PreferNoSchedule") as [->|_];
      [intros [= <-]; by repeat split|].
    destruct (String.eqb_spec b "NoExecute") as [->|_];
      [intros [= <-]; by repeat split|].
    discriminate.
  - destruct t as [k' x e]. cbn [key value effect].
    intros (-> & -> & Hx). rewrite (split_app_sep _ _ _ Hx).
    by destruct e.
Qed.

Lemma parse_taints_Ok (items : list (string * string)) taints :
  parse_taints items = Ok taints ↔
  Forall2 (λ item t, parse_taint item = Ok t) items taints.
Proof.
  revert taints. induction items as [|item items IH]; intros taints;
    cbn [parse_taints].
  - split; [intros [= <-]; constructor|]. by intros ->%Forall2_nil_inv_l.
  - destruct (parse_taint item) as [t|e] eqn:Ht; cbn [mbind result_bind].
    + destruct (parse_taints items) as [ts|e] eqn:Hts; cbn [mbind result_bind].
      * split.
        -- intros [= <-]. constructor; [done|]. by apply IH.
        -- intros (t' & ts' & Ht' & Hts' & ->)%Forall2_cons_inv_l.
           apply IH in Hts'. congruence.
      * split; [discriminate|].
        intros (t' & ts' & Ht' & Hts' & ->)%Forall2_cons_inv_l.
        apply IH in Hts'. discriminate.
    + split; [discriminate|].
      intros (t' & ts' & Ht' & Hts' & ->)%Forall2_cons_inv_l. congruence.
Qed.

(** [_AddNodeTaintsToNodeConfig] returns exactly when every value of the
    dictionary is [value:effect] with no colon in the value and one of the
    three effects. The taints come in the order of the keys, one for each
    key, and writing a taint as [value:effect] gives back the value the
    dictionary holds for its key. *)
Theorem _AddNodeTaintsToNodeConfig_parses (node_taints : gmap string string) :
  (is_ok (_AddNodeTaintsToNodeConfig (Some node_taints)) = true ↔
     ∀ k v, node_taints !! k = Some v →
       ∃ x e, v = taint_text x e ∧ has_char colon x = false)
  ∧ ∀ taints,
      _AddNodeTaintsToNodeConfig (Some node_taints) = Ok (Some taints) →
      key <$> taints = (ApiAdapter.sorted_items node_taints).*1
      ∧ ∀ t, t ∈ taints →
          node_taints !! key t = Some (taint_text (value t) (effect t)).
Proof.
  unfold _AddNodeTaintsToNodeConfig.
  assert (∀ items taints,
            Forall2 (λ item t, parse_taint item = Ok t) items taints →
            key <$> taints = items.*1
            ∧ ∀ t, t ∈ taints →
                (key t, taint_text (value t) (effect t)) ∈ items) as Hsound.
  { induction 1 as [|[k v] t items taints Ht _ [IHk IHin]]; [by split; [|intros ? ?%elem_of_nil]|].
    apply parse_taint_Ok in Ht as (Hk & Hv & _). cbn. split; [by rewrite Hk, IHk|].
    intros t' [->|Hin]%elem_of_cons.
    - rewrite Hk, <- Hv. by left.
    - right. by apply IHin. }
  split.
  - split.
    + destruct (parse_taints _) as [taints|] eqn:Hp; [intros _|done].
      apply parse_taints_Ok in Hp. intros k v Hkv.
      apply elem_of_sorted_items in Hkv.
      apply list_elem_of_lookup in Hkv as [i Hi].
      destruct (Forall2_lookup_l _ _ _ _ _ Hp Hi) as (t & _ & Ht).
      apply parse_taint_Ok in Ht as (_ & -> & Hx). by eexists _, _.
    + intros Hall.
      assert (∃ taints, Forall2 (λ item t, parse_taint item = Ok t)
                          (ApiAdapter.sorted_items node_taints) taints)
        as [taints Htaints].
      { assert (Forall (λ item, ∃ x e, item.2 = taint_text x e
                                        ∧ has_char colon x = false)
                  (ApiAdapter.sorted_items node_taints)) as Hitems.
        { apply Forall_forall. intros [k v] Hin.
          apply elem_of_sorted_items in Hin. by apply (Hall k v). }
        induction Hitems as [|[k v] items (x & e & Hv & Hx) _ [ts IH]].
        - by exists [].
        - exists ({| key := k; value := x; effect := e |} :: ts).
          constructor; [|done]. by apply parse_taint_Ok. }
      apply parse_taints_Ok in Htaints. by rewrite Htaints.
  - intros taints Hrun.
    destruct (parse_taints _) as [ts|] eqn:Hp; [|discriminate].
    injection Hrun as ->. apply parse_taints_Ok in Hp.
    destruct (Hsound _ _ Hp) as [Hk Hin]. split; [done|].
    intros t Ht. by apply elem_of_sorted_items, Hin.
Qed.
End NodeTaintsProperties.

Lemma _AddNodeTaintsToNodeConfig_parses_witness :
  NodeTaints._AddNodeTaintsToNodeConfig
    (Some (<["gpu" := "true:NoSchedule"]> {[ "batch" := "low:PreferNoSchedule" ]}))
  = Ok (Some [ {| NodeTaints.key := "batch"; NodeTaints.value := "low";
                  NodeTaints.effect := NodeTaints.PREFER_NO_SCHEDULE |};
               {| NodeTaints.key := "gpu"; NodeTaints.value := "true";
                  NodeTaints.effect := NodeTaints.NO_SCHEDULE |} ])
  ∧ NodeTaints.key <$>
      [ {| NodeTaints.key := "batch"; NodeTaints.value := "low";
           NodeTaints.effect := NodeTaints.PREFER_NO_SCHEDULE |};
        {| NodeTaints.key := "gpu"; NodeTaints.value := "true";
           NodeTaints.effect := NodeTaints.NO_SCHEDULE |} ]
    = (ApiAdapter.sorted_items
         (<["gpu" := "true:NoSchedule"]> {[ "batch" := "low:PreferNoSchedule" ]})).*1.
Proof.
  assert (NodeTaints._AddNodeTaintsToNodeConfig
    (Some (<["gpu" := "true:NoSchedule"]> {[ "batch" := "low:PreferNoSchedule" ]}))
  = Ok (Some [ {| NodeTaints.key := "batch"; NodeTaints.value := "low";
                  NodeTaints.effect := NodeTaints.PREFER_NO_SCHEDULE |};
               {| NodeTaints.key := "gpu"; NodeTaints.value := "true";
                  NodeTaints.effect := NodeTaints.NO_SCHEDULE |} ])) as Hrun
    by (vm_compute; reflexivity).
  split; [exact Hrun|].
  by apply (_AddNodeTaintsToNodeConfig_parses
              (<["gpu" := "true:NoSchedule"]>
                 {[ "batch" := "low:PreferNoSchedule" ]})).
Defined.

(** ** Scopes of the nodes *)

Section NodeIdentityProperties.
Import NodeIdentity.
Context (SCOPES : gmap string (list string)).
Context (new_scopes_behavior_property : option bool).
Implicit Types (scopes required todo : list string) (options : Options).

Lemma elem_of_sorted_set scopes x : x ∈ sorted_set scopes ↔ x ∈ scopes.
Proof.
  unfold sorted_set. rewrite merge_sort_Permutation.
  apply elem_of_remove_dups.
Qed.

Lemma sorted_set_Sorted scopes : Sorted String.le (sorted_set scopes).
Proof. apply (Sorted_merge_sort _). Qed.

Lemma sorted_set_NoDup scopes : NoDup (sorted_set scopes).
Proof.
  unfold sorted_set. rewrite merge_sort_Permutation. apply NoDup_remove_dups.
Qed.

Lemma add_if_missing_keeps required todo scopes x :
  x ∈ scopes → x ∈ add_if_missing required todo scopes.
Proof.
  induction todo as [|t todo IH]; cbn [add_if_missing]; [done|].
  case_bool_decide; [done|]. intros ?. apply elem_of_app. by left.
Qed.

Lemma add_if_missing_adds required todo scopes :
  todo ⊆ required →
  Forall (λ t, t ∈ add_if_missing required todo scopes) todo.
Proof.
  induction todo as [|t todo IH]; intros Hsub; [constructor|].
  assert (todo ⊆ required) as Hsub'
    by (intros y Hy; apply Hsub; by right).
  cbn [add_if_missing]. case_bool_decide as Ht.
  - constructor; [by apply add_if_missing_keeps|by apply IH].
  - apply Forall_forall. intros y Hy. apply elem_of_app. right. by apply Hsub.
Qed.

Lemma add_if_missing_only required todo scopes x :
  x ∈ add_if_missing required todo scopes → x ∈ scopes ∨ x ∈ required.
Proof.
  induction todo as [|t todo IH]; cbn [add_if_missing]; [by left|].
  case_bool_decide; [done|]. by intros ?%elem_of_app.
Qed.

(** The scopes of the node config are in order and hold no scope twice; with
    a service account they are the cloud-platform scope and nothing else,
    whatever scopes the options name. *)
Theorem NodeIdentityOptionsToNodeConfig_scopes options serviceAccount oauthScopes :
  NodeIdentityOptionsToNodeConfig SCOPES new_scopes_behavior_property options
    = Ok (serviceAccount, oauthScopes) →
  Sorted String.le oauthScopes ∧ NoDup oauthScopes
  ∧ (truthy (service_account options) = true →
     serviceAccount = service_account options
     ∧ oauthScopes = ["https://www.googleapis.com/auth/cloud-platform"])
  ∧ (truthy (service_account options) = false → serviceAccount = None).
Proof.
  unfold NodeIdentityOptionsToNodeConfig. cbv zeta.
  destruct (truthy (service_account options)) eqn:Hsa.
  - cbn [mbind result_bind]. intros [= <- <-].
    split; [apply sorted_set_Sorted|]. split; [apply sorted_set_NoDup|].
    split; [|discriminate]. intros _. split; [done|]. by vm_compute.
  - match goal with
    | |- (?r ≫= _) = _ → _ => destruct r as [sc|]; cbn [mbind result_bind]
    end; [|discriminate].
    intros [= <- <-].
    split; [apply sorted_set_Sorted|]. split; [apply sorted_set_NoDup|].
    split; [discriminate|done].
Qed.

(** Without a service account and without the new behaviour,
    [NodeIdentityOptionsToNodeConfig] returns for all scopes, [None]
    included. The node gets the two old required scopes; it gets the two
    endpoints scopes when cloud endpoints are enabled and neither of them
    otherwise; it gets every other scope the options name, aliases
    expanded; and it gets nothing else. *)
Theorem NodeIdentityOptionsToNodeConfig_legacy options :
  truthy (service_account options) = false →
  truthy new_scopes_behavior_property = false →
  truthy (new_scopes_behavior options) = false →
  let expanded :=
    default [] (scopes options) ≫= λ scope, default [scope] (SCOPES !! scope) in
  ∃ oauthScopes,
    NodeIdentityOptionsToNodeConfig SCOPES new_scopes_behavior_property options
      = Ok (None, oauthScopes)
    ∧ (∀ x, x ∈ _OLD_REQUIRED_SCOPES → x ∈ oauthScopes)
    ∧ (∀ x, x ∈ _ENDPOINTS_SCOPES →
         x ∈ oauthScopes ↔ truthy (enable_cloud_endpoints options) = true)
    ∧ (∀ x, x ∉ _ENDPOINTS_SCOPES → x ∉ _OLD_REQUIRED_SCOPES →
         x ∈ oauthScopes ↔ x ∈ expanded).
Proof.
  intros Hsa Hprop Hnew. cbv zeta.
  unfold NodeIdentityOptionsToNodeConfig. cbv zeta.
  rewrite Hsa, Hprop, Hnew.
  assert (ExpandScopeURIs SCOPES
            (if truthy (scopes options) then scopes options else Some [])
          = Ok (default [] (scopes options)
                ≫= λ scope, default [scope] (SCOPES !! scope))) as ->.
  { by destruct (scopes options) as [[|s l]|]. }
  set (expanded := default [] (scopes options) ≫= _).
  cbn [mbind result_bind]. eexists. split; [reflexivity|].
  assert (∀ x, x ∈ _ENDPOINTS_SCOPES → x ∉ _OLD_REQUIRED_SCOPES) as Hdisj.
  { intros x Hx Hx'. unfold _ENDPOINTS_SCOPES, _OLD_REQUIRED_SCOPES in *.
    rewrite !elem_of_cons, elem_of_nil in Hx, Hx'.
    destruct Hx as [->|[->|[]]]; destruct Hx' as [?|[?|[]]]; discriminate. }
  split; [|split].
  - intros x Hx. apply elem_of_sorted_set.
    pose proof (add_if_missing_adds _OLD_REQUIRED_SCOPES _OLD_REQUIRED_SCOPES
                  (if truthy (enable_cloud_endpoints options)
                   then add_if_missing _ENDPOINTS_SCOPES _ENDPOINTS_SCOPES
                          expanded
                   else filter (λ x, x ∉ _ENDPOINTS_SCOPES) expanded)
                  ltac:(done)) as Hall.
    rewrite Forall_forall in Hall. by apply Hall.
  - intros x Hx. rewrite elem_of_sorted_set.
    destruct (truthy (enable_cloud_endpoints options)).
    + split; [done|]. intros _. apply add_if_missing_keeps.
      pose proof (add_if_missing_adds _ENDPOINTS_SCOPES _ENDPOINTS_SCOPES
                    expanded ltac:(done)) as Hall.
      rewrite Forall_forall in Hall. by apply Hall.
    + split; [|discriminate]. intros Hin. exfalso.
      apply add_if_missing_only in Hin as [Hin|Hin]; [|by apply (Hdisj x)].
      apply list_elem_of_filter in Hin as [Hnot _]. done.
  - intros x Hne Hno. rewrite elem_of_sorted_set. split.
    + intros Hin. apply add_if_missing_only in Hin as [Hin|Hin]; [|done].
      destruct (truthy (enable_cloud_endpoints options)).
      * by apply add_if_missing_only in Hin as [Hin|Hin].
      * by apply list_elem_of_filter in Hin as [_ Hin].
    + intros Hin. apply add_if_missing_keeps.
      destruct (truthy (enable_cloud_endpoints options)).
      * by apply add_if_missing_keeps.
      * by apply list_elem_of_filter.
Qed.
End NodeIdentityProperties.

Lemma NodeIdentityOptionsToNodeConfig_scopes_witness :
  NodeIdentity.NodeIdentityOptionsToNodeConfig NodeIdentity.alias_table None
    {| NodeIdentity.service_account := Some "sa@p1.iam.gserviceaccount.com";
       NodeIdentity.new_scopes_behavior := None;
       NodeIdentity.scopes := Some ["storage-rw"];
       NodeIdentity.enable_cloud_endpoints := Some true |}
  = Ok (Some "sa@p1.iam.gserviceaccount.com",
        ["https://www.googleapis.com/auth/cloud-platform"])
  ∧ NoDup ["https://www.googleapis.com/auth/cloud-platform"].
Proof.
  split; [vm_compute; reflexivity|].
  apply (NodeIdentityOptionsToNodeConfig_scopes NodeIdentity.alias_table None
           {| NodeIdentity.service_account := Some "sa@p1.iam.gserviceaccount.com";
              NodeIdentity.new_scopes_behavior := None;
              NodeIdentity.scopes := Some ["storage-rw"];
              NodeIdentity.enable_cloud_endpoints := Some true |}
           (Some "sa@p1.iam.gserviceaccount.com")).
  vm_compute. reflexivity.
Defined.

Lemma NodeIdentityOptionsToNodeConfig_legacy_witness :
  ∃ oauthScopes,
    NodeIdentity.NodeIdentityOptionsToNodeConfig NodeIdentity.alias_table None
      (NodeIdentity.legacy_options
         (Some ["storage-rw"; "https://www.googleapis.com/auth/servicecontrol"])
         (Some false))
    = Ok (None, oauthScopes)
    ∧ ∀ x, x ∈ NodeIdentity._OLD_REQUIRED_SCOPES → x ∈ oauthScopes.
Proof.
  destruct (NodeIdentityOptionsToNodeConfig_legacy NodeIdentity.alias_table None
              (NodeIdentity.legacy_options
                 (Some ["storage-rw";
                        "https://www.googleapis.com/auth/servicecontrol"])
                 (Some false)) eq_refl eq_refl eq_refl)
    as (sc & Hrun & Hold & _).
  by exists sc.
Defined.

(** The scopes of the deprecated behaviour, evaluated: the alias is
    expanded, the endpoints scope named is dropped, the two old scopes are
    added. *)
Lemma NodeIdentityOptionsToNodeConfig_example :
  NodeIdentity.NodeIdentityOptionsToNodeConfig NodeIdentity.alias_table None
    (NodeIdentity.legacy_options
       (Some ["storage-rw"; "https://www.googleapis.com/auth/servicecontrol"])
       (Some false))
  = Ok (None, ["https://www.googleapis.com/auth/compute";
               "https://www.googleapis.com/auth/devstorage.read_only";
               "https://www.googleapis.com/auth/devstorage.read_write"]).
Proof. vm_compute. reflexivity. Qed.

(** ** Network stages of cluster creation *)

Section ClusterNetworkProperties.
Import ClusterNetwork.
Implicit Types (options : Options) (cluster : Cluster).

(** [ParseNetworkConfigOptions] returns exactly when shared networking is
    not asked for or all five options it requires are set. When it fails it
    names the first of the five, in their fixed order, that is not set. When
    it returns it has changed nothing but [networkConfig]. *)
Theorem ParseNetworkConfigOptions_requirements options cluster :
  (returns (ParseNetworkConfigOptions options cluster) = true ↔
     truthy (enable_shared_network options) = false
     ∨ Forall (λ o, o.2 = true) (req_related_options options))
  ∧ (∀ e, ParseNetworkConfigOptions options cluster = Throw e →
       ∃ name before after,
         e = MissingArgForSharedSubnetError name
         ∧ req_related_options options = before ++ (name, false) :: after
         ∧ Forall (λ o, o.2 = true) before)
  ∧ (∀ cluster', ParseNetworkConfigOptions options cluster = Return cluster' →
       base cluster' = base cluster
       ∧ clusterIpv4Cidr cluster' = clusterIpv4Cidr cluster
       ∧ ipAllocationPolicy cluster' = ipAllocationPolicy cluster
       ∧ networkConfig cluster'
         = if truthy (enable_shared_network options)
           then Some {| enableSharedNetwork := enable_shared_network options |}
           else networkConfig cluster).
Proof.
  unfold ParseNetworkConfigOptions.
  destruct (truthy (enable_shared_network options)); cbn [negb].
  - unfold first_unset.
    destruct (List.find _ (req_related_options options))
      as [[name b]|] eqn:Hfind; cbn [fmap option_fmap option_map fst].
    + destruct (find_first _ _ _ Hfind) as (l1 & l2 & Hl & Hb & Hl1).
      cbn in Hb. apply negb_true_iff in Hb as ->.
      split; [|split; [|discriminate]].
      * split; [discriminate|]. intros [?|Hall]; [done|].
        rewrite Hl in Hall. apply Forall_app in Hall as [_ Hall].
        by inversion Hall.
      * intros e [= <-]. exists name, l1, l2. split; [done|]. split; [done|].
        eapply Forall_impl; [exact Hl1|]. cbn. intros o Ho.
        by apply negb_false_iff in Ho.
    + apply find_none_iff in Hfind.
      split; [|split; [discriminate|]].
      * split; [intros _|done]. right.
        eapply Forall_impl; [exact Hfind|]. cbn. intros o Ho.
        by apply negb_false_iff in Ho.
      * by intros ? [= <-].
  - split; [|split; [discriminate|]].
    + split; [by left|done].
    + by intros ? [= <-].
Qed.

Lemma create_subnetwork_keys (d : gmap string string) key :
  List.find (λ key, negb (bool_decide (key ∈ ["name"; "range"])))
    (map_to_list d).*1 = None →
  is_Some (d !! key) → key = "name" ∨ key = "range".
Proof.
  intros Hfind [v Hkey]. apply find_none_iff in Hfind.
  rewrite Forall_forall in Hfind.
  assert (key ∈ (map_to_list d).*1) as Hin.
  { apply list_elem_of_fmap. exists (key, v). split; [done|].
    by apply elem_of_map_to_list. }
  specialize (Hfind key Hin). apply negb_false_iff in Hfind.
  apply bool_decide_eq_true in Hfind.
  rewrite !elem_of_cons, elem_of_nil in Hfind.
  destruct Hfind as [?|[?|[]]]; auto.
Qed.

(** What a successful [ParseIPAliasOptions] says of the options and of the
    cluster it returns. *)
Lemma ParseIPAliasOptions_inv options cluster cluster' :
  ParseIPAliasOptions options cluster = Ok cluster' →
  (truthy (cluster_secondary_range_name options)
   = truthy (services_secondary_range_name options))
  ∧ (is_not_None (create_subnetwork options) = true →
     truthy (subnetwork options) = false
     ∧ truthy (cluster_secondary_range_name options) = false)
  ∧ (truthy (enable_ip_alias options) = false →
     cluster' = cluster
     ∧ truthy (services_ipv4_cidr options) = false
     ∧ truthy (create_subnetwork options) = false
     ∧ truthy (cluster_secondary_range_name options) = false)
  ∧ (truthy (enable_ip_alias options) = true →
     clusterIpv4Cidr cluster' = None
     ∧ base cluster' = base cluster
     ∧ networkConfig cluster' = networkConfig cluster
     ∧ (∀ d key, create_subnetwork options = Some d → is_Some (d !! key) →
          key = "name" ∨ key = "range")
     ∧ ∃ policy,
         ipAllocationPolicy cluster' = Some policy
         ∧ useIpAliases policy = enable_ip_alias options
         ∧ createSubnetwork policy
           = Some (is_not_None (create_subnetwork options))
         ∧ subnetworkName policy = (create_subnetwork options ≫= (.!! "name"))
         ∧ nodeIpv4CidrBlock policy
           = (create_subnetwork options ≫= (.!! "range"))
         ∧ clusterIpv4CidrBlock policy = cluster_ipv4_cidr options
         ∧ servicesIpv4CidrBlock policy = services_ipv4_cidr options).
Proof.
  unfold ParseIPAliasOptions. cbv zeta. unfold first_set.
  destruct (truthy (enable_ip_alias options)) eqn:Hip; cbn [negb];
    destruct (truthy (cluster_secondary_range_name options)) eqn:Hc,
             (truthy (services_secondary_range_name options)) eqn:Hs,
             (truthy (subnetwork options)) eqn:Hsub,
             (truthy (services_ipv4_cidr options)) eqn:Hsvc;
    destruct (create_subnetwork options) as [d|] eqn:Hd;
    cbn [List.find snd fst fmap option_fmap option_map is_not_None andb orb
         negb truthy truthy_option];
    try discriminate;
    try (destruct (truthy d) eqn:Htd; cbn [List.find snd fst fmap option_fmap
           option_map]; try discriminate).
  all: try (destruct (List.find _ (map_to_list d).*1) as [bad|] eqn:Hfind;
            cbn [mbind result_bind]; [discriminate|]).
  all: intros [= <-]; cbn.
  all: repeat (split; [try done; try discriminate|]).
  all: try done.
  all: try (intros d' key [= <-] Hkey; by eapply create_subnetwork_keys).
  all: try by eexists.
  all: try (split; [by intros ? ? [=]|]; by eexists).
Qed.

(** When [ParseIPAliasOptions] returns, the secondary range names are both
    set or both unset, a subnetwork is not both named and created, and a
    created subnetwork comes with no secondary range name. Without IP
    aliases none of the options that need them is set and the cluster is
    returned as it was; with them the cluster CIDR of the cluster message is
    cleared, an allocation policy is set, and the dictionary of the
    subnetwork to create has no keys but [name] and [range]. *)
Theorem ParseIPAliasOptions_returns options cluster cluster' :
  ParseIPAliasOptions options cluster = Ok cluster' →
  (truthy (cluster_secondary_range_name options)
   = truthy (services_secondary_range_name options))
  ∧ (is_not_None (create_subnetwork options) = true →
     truthy (subnetwork options) = false
     ∧ truthy (cluster_secondary_range_name options) = false)
  ∧ (truthy (enable_ip_alias options) = false →
     cluster' = cluster
     ∧ truthy (services_ipv4_cidr options) = false
     ∧ truthy (create_subnetwork options) = false
     ∧ truthy (cluster_secondary_range_name options) = false)
  ∧ (truthy (enable_ip_alias options) = true →
     clusterIpv4Cidr cluster' = None
     ∧ is_Some (ipAllocationPolicy cluster')
     ∧ ∀ d key, create_subnetwork options = Some d → is_Some (d !! key) →
         key = "name" ∨ key = "range").
Proof.
  intros Hrun.
  destruct (ParseIPAliasOptions_inv _ _ _ Hrun) as (H1 & H2 & H3 & H4).
  split; [done|]. split; [done|]. split; [done|].
  intros Hip. destruct (H4 Hip) as (Hc & _ & _ & Hkeys & p & Hp & _).
  split; [done|]. split; [by rewrite Hp|done].
Qed.

Lemma ParseIPAliasOptions_returns_witness :
  ∃ cluster',
    ParseIPAliasOptions shared_tpu_options new_cluster = Ok cluster'
    ∧ clusterIpv4Cidr cluster' = None
    ∧ is_Some (ipAllocationPolicy cluster').
Proof.
  eexists. split; [reflexivity|].
  destruct (ParseIPAliasOptions_returns shared_tpu_options new_cluster _
              eq_refl) as (_ & _ & _ & H).
  destruct (H eq_refl) as (Hc & Hp & _). by split.
Defined.

Lemma ParseNetworkConfigOptions_inv options cluster cluster' :
  ParseNetworkConfigOptions options cluster = Return cluster' →
  base cluster' = base cluster
  ∧ clusterIpv4Cidr cluster' = clusterIpv4Cidr cluster
  ∧ ipAllocationPolicy cluster' = ipAllocationPolicy cluster
  ∧ (truthy (enable_shared_network options) = true →
     networkConfig cluster'
     = Some {| enableSharedNetwork := enable_shared_network options |}
     ∧ truthy (enable_ip_alias options) = true
     ∧ truthy (subnetwork options) = true
     ∧ truthy (cluster_secondary_range_name options) = true
     ∧ truthy (services_secondary_range_name options) = true).
Proof.
  unfold ParseNetworkConfigOptions, first_unset, req_related_options.
  destruct (truthy (enable_shared_network options)); cbn [negb];
    [|by intros [= <-]].
  destruct (truthy (enable_kubernetes_alpha options)),
           (truthy (enable_ip_alias options)),
           (truthy (subnetwork options)),
           (truthy (cluster_secondary_range_name options)),
           (truthy (services_secondary_range_name options));
    cbn; try discriminate.
  by intros [= <-].
Qed.

Lemma ParseAllowRouteOverlapOptions_inv options cluster cluster' :
  ParseAllowRouteOverlapOptions options cluster = Ok cluster' →
  base cluster' = base cluster
  ∧ clusterIpv4Cidr cluster' = clusterIpv4Cidr cluster
  ∧ networkConfig cluster' = networkConfig cluster
  ∧ (truthy (allow_route_overlap options) = false → cluster' = cluster)
  ∧ (truthy (allow_route_overlap options) = true →
     is_Some (cluster_ipv4_cidr options)
     ∧ (truthy (enable_ip_alias options) = true →
        is_Some (services_ipv4_cidr options))
     ∧ ∃ policy,
         ipAllocationPolicy cluster' = Some policy
         ∧ allowRouteOverlap policy = Some true
         ∧ ∀ p, ipAllocationPolicy cluster = Some p →
             useIpAliases policy = useIpAliases p
             ∧ createSubnetwork policy = createSubnetwork p
             ∧ subnetworkName policy = subnetworkName p
             ∧ clusterIpv4CidrBlock policy = clusterIpv4CidrBlock p
             ∧ nodeIpv4CidrBlock policy = nodeIpv4CidrBlock p
             ∧ servicesIpv4CidrBlock policy = servicesIpv4CidrBlock p
             ∧ clusterSecondaryRangeName policy = clusterSecondaryRangeName p
             ∧ servicesSecondaryRangeName policy
               = servicesSecondaryRangeName p
             ∧ tpuIpv4CidrBlock policy = tpuIpv4CidrBlock p).
Proof.
  unfold ParseAllowRouteOverlapOptions.
  destruct (truthy (allow_route_overlap options)); cbn [negb];
    [|by intros [= <-]].
  destruct (cluster_ipv4_cidr options) as [cidr|]; cbn [is_not_None negb];
    [|discriminate].
  destruct (truthy (enable_ip_alias options));
    destruct (services_ipv4_cidr options) as [svc|];
    cbn [is_not_None negb andb]; try discriminate.
  all: intros [= <-]; cbn.
  all: split; [done|]; split; [done|]; split; [done|]; split; [done|].
  all: intros _; split; [by eexists|]; split; [try done; by eexists|].
  all: eexists; split; [done|]; split;
    [by destruct (ipAllocationPolicy cluster)|].
  all: intros p ->; by repeat split.
Qed.

(** [ParseAllowRouteOverlapOptions] changes nothing unless route overlap is
    allowed. It then returns only with a cluster CIDR given, and with IP
    aliases only with a services CIDR given too; of the cluster it changes
    the allocation policy alone, which then allows route overlap and in
    each of its nine other fields is the policy the cluster had, or is
    unset when the cluster had none. *)
Theorem ParseAllowRouteOverlapOptions_returns options cluster cluster' :
  ParseAllowRouteOverlapOptions options cluster = Ok cluster' →
  (truthy (allow_route_overlap options) = false → cluster' = cluster)
  ∧ (truthy (allow_route_overlap options) = true →
     is_Some (cluster_ipv4_cidr options)
     ∧ (truthy (enable_ip_alias options) = true →
        is_Some (services_ipv4_cidr options))
     ∧ base cluster' = base cluster
     ∧ clusterIpv4Cidr cluster' = clusterIpv4Cidr cluster
     ∧ networkConfig cluster' = networkConfig cluster
     ∧ ∃ policy,
         ipAllocationPolicy cluster' = Some policy
         ∧ allowRouteOverlap policy = Some true
         ∧ (∀ p, ipAllocationPolicy cluster = Some p →
              useIpAliases policy = useIpAliases p
              ∧ createSubnetwork policy = createSubnetwork p
              ∧ subnetworkName policy = subnetworkName p
              ∧ clusterIpv4CidrBlock policy = clusterIpv4CidrBlock p
              ∧ nodeIpv4CidrBlock policy = nodeIpv4CidrBlock p
              ∧ servicesIpv4CidrBlock policy = servicesIpv4CidrBlock p
              ∧ clusterSecondaryRangeName policy = clusterSecondaryRangeName p
              ∧ servicesSecondaryRangeName policy
                = servicesSecondaryRangeName p
              ∧ tpuIpv4CidrBlock policy = tpuIpv4CidrBlock p)
         ∧ (ipAllocationPolicy cluster = None →
            useIpAliases policy = None ∧ createSubnetwork policy = None
            ∧ subnetworkName policy = None
            ∧ clusterIpv4CidrBlock policy = None
            ∧ nodeIpv4CidrBlock policy = None
            ∧ servicesIpv4CidrBlock policy = None
            ∧ clusterSecondaryRangeName policy = None
            ∧ servicesSecondaryRangeName policy = None
            ∧ tpuIpv4CidrBlock policy = None)).
Proof.
  unfold ParseAllowRouteOverlapOptions.
  destruct (truthy (allow_route_overlap options)); cbn [negb];
    [|by intros [= <-]].
  destruct (cluster_ipv4_cidr options) as [cidr|]; cbn [is_not_None negb];
    [|discriminate].
  destruct (truthy (enable_ip_alias options));
    destruct (services_ipv4_cidr options) as [svc|];
    cbn [is_not_None negb andb]; try discriminate.
  all: intros [= <-]; cbn [base clusterIpv4Cidr networkConfig
                           ipAllocationPolicy].
  all: split; [done|]; intros _; split; [by eexists|].
  all: split; [try done; by eexists|].
  all: split; [done|]; split; [done|]; split; [done|].
  all: eexists; split; [done|].
  all: destruct (ipAllocationPolicy cluster) as [p0|]; cbn;
    (split; [done|]); (split; [|done]);
    first [by intros p [= <-]|intros p [=]].
Qed.

Lemma ParseAllowRouteOverlapOptions_returns_witness :
  ∃ cluster',
    ParseAllowRouteOverlapOptions shared_tpu_options new_cluster = Ok cluster'
    ∧ is_Some (cluster_ipv4_cidr shared_tpu_options).
Proof.
  eexists. split; [reflexivity|].
  destruct (ParseAllowRouteOverlapOptions_returns shared_tpu_options
              new_cluster _ eq_refl) as (_ & H).
  by destruct (H eq_refl) as (Hc & _).
Defined.

(** The five stages together. A cluster on a shared network gets an
    allocation policy that names both secondary ranges and creates no
    subnetwork; a cluster with TPUs gets an allocation policy with IP
    aliases that carries the TPU CIDR; a cluster that allows route overlap
    has a cluster CIDR among its options and says so in its policy; and
    with IP aliases the cluster CIDR field of the message is cleared. *)
Theorem parse_stages_returns options cluster cluster' :
  parse_stages options cluster = Return cluster' →
  (truthy (enable_shared_network options) = true →
     create_subnetwork options = None
     ∧ networkConfig cluster'
       = Some {| enableSharedNetwork := enable_shared_network options |}
     ∧ ∃ policy,
         ipAllocationPolicy cluster' = Some policy
         ∧ createSubnetwork policy = Some false
         ∧ truthy (clusterSecondaryRangeName policy) = true
         ∧ truthy (servicesSecondaryRangeName policy) = true)
  ∧ (truthy (enable_tpu options) = true →
     ApiAdapter.enableTpu (base cluster') = enable_tpu options
     ∧ ∃ policy,
         ipAllocationPolicy cluster' = Some policy
         ∧ truthy (useIpAliases policy) = true
         ∧ tpuIpv4CidrBlock policy
           = if truthy (tpu_ipv4_cidr options) then tpu_ipv4_cidr options
             else None)
  ∧ (truthy (allow_route_overlap options) = true →
     is_Some (cluster_ipv4_cidr options)
     ∧ ∃ policy,
         ipAllocationPolicy cluster' = Some policy
         ∧ allowRouteOverlap policy = Some true)
  ∧ (truthy (enable_ip_alias options) = true → clusterIpv4Cidr cluster' = None)
  ∧ (truthy (private_cluster options) = true →
     ApiAdapter.privateCluster (base cluster') = private_cluster options
     ∧ ApiAdapter.mainIpv4CidrBlock (base cluster') = main_ipv4_cidr options).
Proof.
  unfold parse_stages.
  destruct (ParseNetworkConfigOptions options cluster) as [c1|] eqn:H1;
    cbn [mbind outcome_bind]; [|discriminate].
  destruct (ParseIPAliasOptions options c1) as [c2|] eqn:H2;
    cbn [lift mbind outcome_bind]; [|discriminate].
  destruct (ParseAllowRouteOverlapOptions options c2) as [c3|] eqn:H3;
    cbn [lift mbind outcome_bind]; [|discriminate].
  destruct (ApiAdapter.ParseTpuOptions _ _) as [b|] eqn:H4;
    cbn [lift mbind outcome_bind]; [|discriminate].
  intros [= <-].
  destruct (ParseNetworkConfigOptions_inv _ _ _ H1) as (Hb1 & Hc1 & Hp1 & Hn1).
  destruct (ParseIPAliasOptions_inv _ _ _ H2) as (Hsec & Hcs & Hoff & Hon).
  destruct (ParseAllowRouteOverlapOptions_inv _ _ _ H3)
    as (Hb3 & Hc3 & Hn3 & Hoff3 & Hon3).
  assert (ipAllocationPolicy
            (with_base b (ParsePrivateClusterOptions options c3))
          = ipAllocationPolicy c3) as Hpol
    by (unfold ParsePrivateClusterOptions;
        by destruct (truthy (private_cluster options))).
  assert (clusterIpv4Cidr (with_base b (ParsePrivateClusterOptions options c3))
          = clusterIpv4Cidr c3) as Hcidr
    by (unfold ParsePrivateClusterOptions;
        by destruct (truthy (private_cluster options))).
  assert (networkConfig (with_base b (ParsePrivateClusterOptions options c3))
          = networkConfig c3) as Hnet
    by (unfold ParsePrivateClusterOptions;
        by destruct (truthy (private_cluster options))).
  rewrite Hpol, Hcidr, Hnet. cbn [base with_base].
  (* the policy after the IP alias stage survives route overlap *)
  assert (truthy (enable_ip_alias options) = true →
          ∃ policy, ipAllocationPolicy c3 = Some policy
            ∧ useIpAliases policy = enable_ip_alias options
            ∧ createSubnetwork policy
              = Some (is_not_None (create_subnetwork options))
            ∧ clusterSecondaryRangeName policy
              = cluster_secondary_range_name options
            ∧ servicesSecondaryRangeName policy
              = services_secondary_range_name options
            ∧ tpuIpv4CidrBlock policy
              = if truthy (tpu_ipv4_cidr options) then tpu_ipv4_cidr options
                else None) as Hip.
  { intros Hflag. clear Hon. revert H2. unfold ParseIPAliasOptions.
    rewrite Hflag. cbn [negb].
    repeat match goal with
           | |- context [if ?b then Raise _ else _] => destruct b; [discriminate|]
           end.
    match goal with
    | |- (?r ≫= _) = _ → _ => destruct r as [names|]; [|discriminate]
    end.
    cbn [mbind result_bind]. intros [= <-].
    destruct (truthy (allow_route_overlap options)) eqn:Hov.
    - destruct (Hon3 eq_refl) as (_ & _ & policy & Hp & _ & Hkeep).
      destruct (Hkeep _ eq_refl) as (? & ? & ? & ? & ? & ? & ? & ? & ?).
      exists policy. cbn in *. repeat split; congruence.
    - rewrite (Hoff3 eq_refl). eexists. by repeat split. }
  split; [|split; [|split; [|split]]].
  - intros Hshared. destruct (Hn1 Hshared) as (Hnc & Hipa & Hsub & Hcsec & Hssec).
    destruct (Hip Hipa) as (policy & Hp & _ & Hcreate & Hc & Hs & _).
    assert (create_subnetwork options = None) as Hnone.
    { destruct (create_subnetwork options) as [d|] eqn:Hd; [|done].
      destruct (Hcs eq_refl) as [Hsub' _]. congruence. }
    split; [done|].
    split.
    { rewrite Hn3. destruct (Hon Hipa) as (_ & _ & -> & _). done. }
    exists policy. rewrite Hnone in Hcreate. split; [done|]. split; [done|].
    by rewrite Hc, Hs.
  - intros Htpu. revert H4. unfold ApiAdapter.ParseTpuOptions, tpu_view.
    cbn [ApiAdapter.enable_tpu ApiAdapter.tpu_options
         ApiAdapter.enable_kubernetes_alpha ApiAdapter.enable_ip_alias
         ApiAdapter.tpu_ipv4_cidr].
    rewrite Htpu.
    destruct (truthy (enable_kubernetes_alpha options)); [|discriminate].
    destruct (truthy (enable_ip_alias options)) eqn:Hipa; [|discriminate].
    cbn. intros [= <-]. split; [done|].
    destruct (Hip eq_refl) as (policy & Hp & Hu & _ & _ & _ & Ht).
    exists policy. split; [done|]. split; [by rewrite Hu|done].
  - intros Hov. destruct (Hon3 Hov) as (Hc & _ & policy & Hp & Ha & _).
    split; [done|]. by exists policy.
  - intros Hipa. rewrite Hc3. by destruct (Hon Hipa) as (-> & _).
  - intros Hpriv. revert H4. unfold ParsePrivateClusterOptions. rewrite Hpriv.
    unfold ApiAdapter.ParseTpuOptions.
    repeat match goal with
           | |- context [if ?b then Raise _ else _] => destruct b; [discriminate|]
           end.
    destruct (truthy (ApiAdapter.enable_tpu (tpu_view options)));
      by intros [= <-].
Qed.

Lemma parse_stages_returns_witness :
  ∃ cluster',
    parse_stages shared_tpu_options new_cluster = Return cluster'
    ∧ clusterIpv4Cidr cluster' = None.
Proof.
  eexists. split; [reflexivity|].
  destruct (parse_stages_returns shared_tpu_options new_cluster _ eq_refl)
    as (_ & _ & _ & H & _).
  exact (H eq_refl).
Defined.
End ClusterNetworkProperties.


(** ** Loading and saving a kubeconfig *)

Section KubeconfigFileProperties.
Import Kubeconfig KubeconfigFile.
Implicit Types (self : KubeconfigFile.Kubeconfig) (d : gmap name value).
Implicit Types (entries : list value) (key filename : string).

Lemma index_by_name_is_ok entries d :
  is_ok (index_by_name entries d) = true
  ↔ Forall (λ entry, is_ok (name_of entry) = true) entries.
Proof.
  revert d. induction entries as [|entry rest IH]; intros d.
  - split; [by constructor|done].
  - cbn [index_by_name].
    destruct (name_of entry) as [k|e] eqn:Hentry;
      cbn [mbind result_bind is_ok].
    + rewrite IH. split; [|by inversion 1].
      intros Hrest. constructor; [by rewrite Hentry|done].
    + split; [done|]. inversion 1 as [|? ? Hhd _]. by rewrite Hentry in Hhd.
Qed.

(** After the loop, a key holds the last entry of its name, or what it held
    before when no entry has the name. *)
Lemma index_by_name_last entries d d' :
  index_by_name entries d = Ok d' →
  ∀ k v, d' !! k = Some v ↔
    (∃ before after,
        entries = before ++ v :: after ∧ name_of v = Ok k
        ∧ Forall (λ w, name_of w ≠ Ok k) after)
    ∨ (d !! k = Some v ∧ Forall (λ w, name_of w ≠ Ok k) entries).
Proof.
  revert d. induction entries as [|entry rest IH]; intros d.
  - intros [= <-] k v. split.
    + intros Hk. right. by split.
    + intros [(before & after & Hl & _)|[Hk _]]; [by destruct before|done].
  - cbn [index_by_name].
    destruct (name_of entry) as [n|] eqn:Hentry; cbn [mbind result_bind];
      [|discriminate].
    intros Hrun k v. rewrite (IH _ Hrun k v). split.
    + intros [(before & after & -> & Hv & Hafter)|[Hk Hrest]].
      * left. by exists (entry :: before), after.
      * destruct (decide (k = n)) as [->|Hne].
        -- rewrite lookup_insert_eq in Hk. injection Hk as <-.
           left. by exists [], rest.
        -- rewrite lookup_insert_ne in Hk by done. right. split; [done|].
           constructor; [|done]. rewrite Hentry. congruence.
    + intros [(before & after & Hl & Hv & Hafter)|[Hk Hall]].
      * destruct before as [|b before]; cbn in Hl.
        -- injection Hl as <- <-. right. split; [|done].
           rewrite Hentry in Hv. injection Hv as <-.
           by rewrite lookup_insert_eq.
        -- injection Hl as <- ->. left. by exists before, after.
      * inversion Hall as [|? ? Hhd Htl]; subst. right. split; [|done].
        rewrite Hentry in Hhd. rewrite lookup_insert_ne by congruence. done.
Qed.

(** The constructor takes each of the three collections of the document as
    it iterates: a list, but also an empty string or dictionary. It returns
    exactly when the three are there and can be iterated and every entry
    is a dictionary with a name that can be hashed, a string or not. Each
    collection of the object then holds under a key the last entry of that
    name, and nothing else. *)
Theorem __init___indexes raw_data filename :
  (is_ok (__init__ raw_data filename) = true ↔
     ∃ cs us xs,
       entries_of raw_data "clusters" = Ok cs
       ∧ entries_of raw_data "users" = Ok us
       ∧ entries_of raw_data "contexts" = Ok xs
       ∧ Forall (λ entry, is_ok (name_of entry) = true) (cs ++ us ++ xs))
  ∧ ∀ self, __init__ raw_data filename = Ok self →
      _data self = raw_data ∧ _filename self = filename
      ∧ ∃ cs us xs,
          entries_of raw_data "clusters" = Ok cs
          ∧ entries_of raw_data "users" = Ok us
          ∧ entries_of raw_data "contexts" = Ok xs
          ∧ ∀ k v,
              let last_named entries :=
                ∃ before after,
                  entries = before ++ v :: after ∧ name_of v = Ok k
                  ∧ Forall (λ w, name_of w ≠ Ok k) after in
              (clusters self !! k = Some v ↔ last_named cs)
              ∧ (users self !! k = Some v ↔ last_named us)
              ∧ (contexts self !! k = Some v ↔ last_named xs).
Proof.
  unfold __init__. split.
  - split.
    + destruct (entries_of raw_data "clusters") as [cs|]; [|done].
      cbn [mbind result_bind].
      destruct (index_by_name cs ∅) as [c|] eqn:Hc; [|done].
      cbn [mbind result_bind].
      destruct (entries_of raw_data "users") as [us|]; [|done].
      cbn [mbind result_bind].
      destruct (index_by_name us ∅) as [u|] eqn:Hu; [|done].
      cbn [mbind result_bind].
      destruct (entries_of raw_data "contexts") as [xs|]; [|done].
      cbn [mbind result_bind].
      destruct (index_by_name xs ∅) as [x|] eqn:Hx; [|done].
      intros _. exists cs, us, xs. split; [done|]. split; [done|].
      split; [done|]. rewrite !Forall_app.
      split; [|split]; apply (index_by_name_is_ok _ ∅);
        by rewrite ?Hc, ?Hu, ?Hx.
    + intros (cs & us & xs & -> & -> & -> & Hall).
      rewrite !Forall_app in Hall. destruct Hall as (Hc & Hu & Hx).
      apply (index_by_name_is_ok _ ∅) in Hc, Hu, Hx.
      cbn [mbind result_bind].
      destruct (index_by_name cs ∅); [|done]. cbn [mbind result_bind].
      destruct (index_by_name us ∅); [|done]. cbn [mbind result_bind].
      by destruct (index_by_name xs ∅).
  - intros self.
    destruct (entries_of raw_data "clusters") as [cs|]; [|done].
    cbn [mbind result_bind].
    destruct (index_by_name cs ∅) as [c|] eqn:Hc; [|done].
    cbn [mbind result_bind].
    destruct (entries_of raw_data "users") as [us|]; [|done].
    cbn [mbind result_bind].
    destruct (index_by_name us ∅) as [u|] eqn:Hu; [|done].
    cbn [mbind result_bind].
    destruct (entries_of raw_data "contexts") as [xs|]; [|done].
    cbn [mbind result_bind].
    destruct (index_by_name xs ∅) as [x|] eqn:Hx; [|done].
    cbn [mbind result_bind]. intros [= <-]. cbn.
    split; [done|]. split; [done|]. exists cs, us, xs.
    split; [done|]. split; [done|]. split; [done|].
    intros k v.
    rewrite (index_by_name_last _ _ _ Hc k v),
      (index_by_name_last _ _ _ Hu k v), (index_by_name_last _ _ _ Hx k v).
    rewrite lookup_empty.
    split; [|split]; (split; [by intros [H|[? _]]|by left]).
Qed.

(** Every collection built by the constructor holds its entries under
    their names. *)
Lemma __init___named raw_data filename self :
  __init__ raw_data filename = Ok self →
  (∀ k v, clusters self !! k = Some v → name_of v = Ok k)
  ∧ (∀ k v, users self !! k = Some v → name_of v = Ok k)
  ∧ (∀ k v, contexts self !! k = Some v → name_of v = Ok k).
Proof.
  unfold __init__.
  destruct (entries_of raw_data "clusters") as [cs|]; [|done].
  cbn [mbind result_bind].
  destruct (index_by_name cs ∅) as [c|] eqn:Hc; [|done].
  cbn [mbind result_bind].
  destruct (entries_of raw_data "users") as [us|]; [|done].
  cbn [mbind result_bind].
  destruct (index_by_name us ∅) as [u|] eqn:Hu; [|done].
  cbn [mbind result_bind].
  destruct (entries_of raw_data "contexts") as [xs|]; [|done].
  cbn [mbind result_bind].
  destruct (index_by_name xs ∅) as [x|] eqn:Hx; [|done].
  cbn [mbind result_bind]. intros [= <-]. cbn.
  split; [|split]; intros k v Hk.
  - apply (index_by_name_last _ _ _ Hc) in Hk
      as [(_ & _ & _ & H & _)|[H _]]; [done|by rewrite lookup_empty in H].
  - apply (index_by_name_last _ _ _ Hu) in Hk
      as [(_ & _ & _ & H & _)|[H _]]; [done|by rewrite lookup_empty in H].
  - apply (index_by_name_last _ _ _ Hx) in Hk
      as [(_ & _ & _ & H & _)|[H _]]; [done|by rewrite lookup_empty in H].
Qed.

(** The object built from a document with one entry of each kind is the
    object with string names that [Clear] is tried on. *)
Lemma init_single_entry key filename :
  __init__ (single_entry_data key) filename
  = Ok (of_strings (single_entry_config key filename)).
Proof.
  unfold __init__, entries_of, single_entry_data. simplify_map_eq. cbn.
  simplify_map_eq. cbn. unfold Context. simplify_map_eq. cbn.
  unfold of_strings. cbn. by rewrite !kmap_singleton, !insert_empty.
Qed.

(** A collection in which every entry is held under its own name. *)
Lemma index_by_name_foldl (l : list (name * value)) d :
  Forall (λ kv, name_of kv.2 = Ok kv.1) l →
  index_by_name l.*2 d = Ok (foldl (λ d kv, <[kv.1 := kv.2]> d) d l).
Proof.
  revert d. induction l as [|[k v] l IH]; intros d Hall; [done|].
  inversion Hall as [|? ? Hk Hl]; subst. cbn in Hk.
  cbn [fmap list_fmap snd index_by_name foldl fst]. rewrite Hk.
  cbn [mbind result_bind]. by apply IH.
Qed.

Lemma foldl_insert_NoDup (l : list (name * value)) d :
  NoDup l.*1 →
  foldl (λ d kv, <[kv.1 := kv.2]> d) d l = list_to_map l ∪ d.
Proof.
  revert d. induction l as [|[k v] l IH]; intros d Hnd.
  - cbn. by rewrite (left_id_L ∅ (∪)).
  - cbn [fmap list_fmap fst] in Hnd. apply NoDup_cons in Hnd as [Hk Hnd].
    cbn [foldl fst snd list_to_map foldr]. rewrite IH by done.
    rewrite <- insert_union_l. symmetry. apply insert_union_r.
    by apply not_elem_of_list_to_map_1.
Qed.

(** Whatever the order in which the dictionary lists its values, indexing
    them by name gives back the dictionary. *)
Lemma index_by_name_values (order : dict_order) which d :
  (∀ k v, d !! k = Some v → name_of v = Ok k) →
  index_by_name (values order which d) ∅ = Ok d.
Proof.
  intros Hnamed. unfold values.
  pose proof (items_perm order which d) as Hperm.
  assert (NoDup (items order which d).*1) as Hnd
    by (rewrite Hperm; apply NoDup_fst_map_to_list).
  rewrite index_by_name_foldl.
  - rewrite foldl_insert_NoDup by done.
    rewrite (list_to_map_proper _ _ Hnd Hperm).
    by rewrite list_to_map_to_list, (right_id_L ∅ (∪)).
  - apply Forall_forall. intros [k v] Hin. cbn.
    apply Hnamed. apply elem_of_map_to_list. by rewrite <- Hperm.
Qed.

(** Saving and constructing again: when every entry of the three
    collections is held under its own name, the document that [SaveToFile]
    dumps lists each collection in the order of the dictionary, whichever
    that is, and gives back the same three collections. *)
Theorem SaveToFile_reload (order : dict_order) os_open self :
  (∀ k v, clusters self !! k = Some v → name_of v = Ok k) →
  (∀ k v, users self !! k = Some v → name_of v = Ok k) →
  (∀ k v, contexts self !! k = Some v → name_of v = Ok k) →
  os_open (_filename self) = None →
  ∃ document,
    SaveToFile order os_open self
    = ({| _filename := _filename self; _data := document;
          clusters := clusters self; users := users self;
          contexts := contexts self |}, Ok document)
    ∧ (∀ field, field ∉ ["clusters"; "users"; "contexts"] →
         document !! field = _data self !! field)
    ∧ (∃ cs us xs,
         document !! "clusters" = Some (VList cs)
         ∧ document !! "users" = Some (VList us)
         ∧ document !! "contexts" = Some (VList xs)
         ∧ cs ≡ₚ (map_to_list (clusters self)).*2
         ∧ us ≡ₚ (map_to_list (users self)).*2
         ∧ xs ≡ₚ (map_to_list (contexts self)).*2)
    ∧ __init__ document (_filename self)
      = Ok {| _filename := _filename self; _data := document;
              clusters := clusters self; users := users self;
              contexts := contexts self |}.
Proof.
  intros Hc Hu Hx Hopen. exists (saved_data order self).
  assert (saved_data order self !! "clusters"
          = Some (VList (values order "clusters" (clusters self)))) as Hlc
    by (unfold saved_data; by simplify_map_eq).
  assert (saved_data order self !! "users"
          = Some (VList (values order "users" (users self)))) as Hlu
    by (unfold saved_data; by simplify_map_eq).
  assert (saved_data order self !! "contexts"
          = Some (VList (values order "contexts" (contexts self)))) as Hlx
    by (unfold saved_data; by simplify_map_eq).
  split; [|split; [|split]].
  - unfold SaveToFile. cbn. by rewrite Hopen.
  - intros field Hf. unfold saved_data.
    rewrite !elem_of_cons, elem_of_nil in Hf.
    rewrite !lookup_insert_ne by naive_solver. done.
  - eexists _, _, _. split; [done|]. split; [done|]. split; [done|].
    unfold values. by rewrite !items_perm.
  - unfold __init__, entries_of.
    rewrite Hlc. cbn [iterate mbind result_bind].
    rewrite (index_by_name_values _ _ _ Hc). cbn [mbind result_bind].
    rewrite Hlu. cbn [iterate mbind result_bind].
    rewrite (index_by_name_values _ _ _ Hu). cbn [mbind result_bind].
    rewrite Hlx. cbn [iterate mbind result_bind].
    rewrite (index_by_name_values _ _ _ Hx). done.
Qed.
End KubeconfigFileProperties.

Lemma __init___indexes_witness :
  ∃ self,
    KubeconfigFile.__init__ KubeconfigFile.mixed_names_data "config" = Ok self
    ∧ KubeconfigFile.clusters self !! KubeconfigFile.NStr "a"
      = Some (KubeconfigFile.server_entry (Kubeconfig.VStr "a")
                (Kubeconfig.VStr "s3"))
    ∧ KubeconfigFile.clusters self !! KubeconfigFile.NNum 1
      = Some (KubeconfigFile.server_entry (Kubeconfig.VInt 1)
                (Kubeconfig.VStr "s4"))
    ∧ KubeconfigFile.clusters self !! KubeconfigFile.NStr "b" = None.
Proof.
  destruct (KubeconfigFile.__init__ KubeconfigFile.mixed_names_data "config")
    as [self|e] eqn:Hinit; [|by vm_compute in Hinit].
  exists self. split; [done|].
  destruct (__init___indexes KubeconfigFile.mixed_names_data "config")
    as [_ H].
  destruct (H self Hinit) as (_ & _ & cs & us & xs & Hcs & _ & _ & Hlast).
  assert (KubeconfigFile.entries_of KubeconfigFile.mixed_names_data "clusters"
          = Ok [KubeconfigFile.server_entry (Kubeconfig.VStr "a")
                  (Kubeconfig.VStr "s1");
                KubeconfigFile.server_entry (Kubeconfig.VBool true)
                  (Kubeconfig.VStr "s2");
                KubeconfigFile.server_entry (Kubeconfig.VStr "a")
                  (Kubeconfig.VStr "s3");
                KubeconfigFile.server_entry (Kubeconfig.VInt 1)
                  (Kubeconfig.VStr "s4")]) as Hlist by reflexivity.
  rewrite Hlist in Hcs. injection Hcs as <-.
  split; [|split].
  - apply (Hlast (KubeconfigFile.NStr "a")).
    eexists [_; _], [_]. split; [reflexivity|]. split; [reflexivity|].
    repeat constructor. by vm_compute.
  - apply (Hlast (KubeconfigFile.NNum 1)).
    eexists [_; _; _], []. split; [reflexivity|]. split; [reflexivity|].
    constructor.
  - destruct (KubeconfigFile.clusters self !! KubeconfigFile.NStr "b")
      as [v|] eqn:Hb; [|done].
    apply (Hlast (KubeconfigFile.NStr "b")) in Hb
      as (before & after & Hl & Hname & _).
    exfalso.
    assert (v ∈ [KubeconfigFile.server_entry (Kubeconfig.VStr "a")
                   (Kubeconfig.VStr "s1");
                 KubeconfigFile.server_entry (Kubeconfig.VBool true)
                   (Kubeconfig.VStr "s2");
                 KubeconfigFile.server_entry (Kubeconfig.VStr "a")
                   (Kubeconfig.VStr "s3");
                 KubeconfigFile.server_entry (Kubeconfig.VInt 1)
                   (Kubeconfig.VStr "s4")]) as Hin.
    { rewrite Hl. apply elem_of_app. right. by left. }
    rewrite !elem_of_cons, elem_of_nil in Hin.
    destruct Hin as [->|[->|[->|[->|[]]]]]; by vm_compute in Hname.
Defined.

Lemma SaveToFile_reload_witness :
  ∃ self document,
    KubeconfigFile.__init__ KubeconfigFile.two_cluster_data "config" = Ok self
    ∧ (KubeconfigFile.SaveToFile KubeconfigFile.reverse_order (λ _, None)
         self).2 = Ok document
    ∧ KubeconfigFile.__init__ document (KubeconfigFile._filename self)
      = Ok {| KubeconfigFile._filename := KubeconfigFile._filename self;
              KubeconfigFile._data := document;
              KubeconfigFile.clusters := KubeconfigFile.clusters self;
              KubeconfigFile.users := KubeconfigFile.users self;
              KubeconfigFile.contexts := KubeconfigFile.contexts self |}.
Proof.
  destruct (KubeconfigFile.__init__ KubeconfigFile.two_cluster_data "config")
    as [self|e] eqn:Hinit; [|by vm_compute in Hinit].
  destruct (__init___named _ _ _ Hinit) as (Hc & Hu & Hx).
  destruct (SaveToFile_reload KubeconfigFile.reverse_order (λ _, None) self
              Hc Hu Hx eq_refl)
    as (document & Hsave & _ & _ & Hreload).
  exists self, document. split; [done|]. split; [by rewrite Hsave|done].
Defined.

Section KubeconfigLoadProperties.
Import Kubeconfig KubeconfigFile.
Context (order : dict_order).
Context (os_open : string → option string).
Context (load_path : string → load_result).
Context (MakeDir : string → outcome ()) (dirname : string → string).
Context (str_value type_name : value → string).
Implicit Types (data : value) (filename : string).

Lemma check_keys_Ok (d : gmap string value) keys :
  is_ok (check_keys str_value type_name d keys) = true
  ↔ Forall (λ key, ∃ l, d !! key = Some (VList l)) keys.
Proof.
  induction keys as [|key rest IH]; cbn [check_keys is_ok].
  - split; [by constructor|done].
  - destruct (d !! key) as [[| | | |l|]|] eqn:Hkey; cbn [is_ok];
      try (split; [discriminate|];
           intros Hall; inversion Hall as [|? ? [l' Hl'] _]; congruence).
    rewrite IH. split.
    + intros Hall. constructor; [by exists l|done].
    + intros Hall. by inversion Hall.
Qed.

Lemma index_by_name_Raise entries (m : gmap name value) e :
  index_by_name entries m = Raise e → e = TypeError ∨ e = KeyError "name".
Proof.
  revert m. induction entries as [|entry rest IH]; intros m; [discriminate|].
  cbn [index_by_name].
  destruct (name_of entry) as [k|e'] eqn:Hname; cbn [mbind result_bind].
  - apply IH.
  - intros [= <-]. unfold name_of in Hname.
    destruct entry as [| | | | |ed]; try (injection Hname as <-; by left).
    destruct (ed !! "name") as [v|]; [|injection Hname as <-; by right].
    destruct (key_of v); [discriminate|]. injection Hname as <-. by left.
Qed.

(** [_Validate] accepts exactly the dictionaries that hold a list under
    each of [clusters], [users] and [contexts]. On a document it accepts,
    the constructor can fail only at an entry: with a [TypeError] or with
    the [KeyError] of a missing [name]. *)
Theorem _Validate_accepts data :
  (is_ok (_Validate str_value type_name data) = true ↔
     ∃ d cs us xs,
       data = VDict d ∧ d !! "clusters" = Some (VList cs)
       ∧ d !! "users" = Some (VList us) ∧ d !! "contexts" = Some (VList xs))
  ∧ ∀ d filename e,
      is_ok (_Validate str_value type_name data) = true → data = VDict d →
      __init__ d filename = Raise e → e = TypeError ∨ e = KeyError "name".
Proof.
  assert (is_ok (_Validate str_value type_name data) = true ↔
     ∃ d cs us xs,
       data = VDict d ∧ d !! "clusters" = Some (VList cs)
       ∧ d !! "users" = Some (VList us) ∧ d !! "contexts" = Some (VList xs))
    as Hiff.
  { unfold _Validate. split.
    - destruct (truthy_value data); cbn [negb is_ok]; [|discriminate].
      destruct data as [| | | | |d]; try discriminate.
      rewrite check_keys_Ok. intros Hall.
      inversion Hall as [|? ? [cs Hcs] Hall']; subst.
      inversion Hall' as [|? ? [us Hus] Hall'']; subst.
      inversion Hall'' as [|? ? [xs Hxs] _]; subst.
      by exists d, cs, us, xs.
    - intros (d & cs & us & xs & -> & Hcs & Hus & Hxs).
      assert (truthy_value (VDict d) = true) as ->.
      { cbn. unfold truthy, truthy_dict. apply negb_true_iff.
        apply bool_decide_eq_false. intros Hdom.
        apply (elem_of_dom_2 (D := gset string)) in Hcs.
        rewrite Hdom in Hcs. by apply not_elem_of_empty in Hcs. }
      cbn [negb]. apply check_keys_Ok.
      repeat constructor; by eexists. }
  split; [done|].
  intros d filename e Hok -> Hinit. apply Hiff in Hok
    as (d' & cs & us & xs & [= <-] & Hcs & Hus & Hxs).
  revert Hinit. unfold __init__, entries_of. rewrite Hcs, Hus, Hxs.
  cbn [iterate mbind result_bind].
  destruct (index_by_name cs ∅) eqn:Hc; cbn [mbind result_bind];
    [|intros [= <-]; by eapply index_by_name_Raise].
  destruct (index_by_name us ∅) eqn:Hu; cbn [mbind result_bind];
    [|intros [= <-]; by eapply index_by_name_Raise].
  destruct (index_by_name xs ∅) eqn:Hx; cbn [mbind result_bind];
    [discriminate|intros [= <-]; by eapply index_by_name_Raise].
Qed.

Lemma init_EmptyKubeconfig filename :
  __init__ EmptyKubeconfig filename
  = Ok {| _filename := filename; _data := EmptyKubeconfig;
          clusters := ∅; users := ∅; contexts := ∅ |}.
Proof. reflexivity. Qed.

Lemma values_empty which : values order which ∅ = [].
Proof.
  unfold values. pose proof (items_perm order which ∅) as Hperm.
  rewrite map_to_list_empty in Hperm.
  apply Permutation_nil_r in Hperm. by rewrite Hperm.
Qed.

Lemma saved_data_EmptyKubeconfig filename :
  saved_data order {| _filename := filename; _data := EmptyKubeconfig;
                      clusters := ∅; users := ∅; contexts := ∅ |}
  = EmptyKubeconfig.
Proof.
  unfold saved_data. cbn [clusters users contexts _data].
  rewrite !values_empty.
  apply map_eq. intros i. unfold EmptyKubeconfig.
  destruct (decide (i = "contexts")) as [->|]; [by simplify_map_eq|].
  destruct (decide (i = "users")) as [->|]; [by simplify_map_eq|].
  destruct (decide (i = "clusters")) as [->|]; [by simplify_map_eq|].
  by simplify_map_eq.
Qed.

(** [LoadOrCreate] does not report a file that cannot be read or a document
    that [_Validate] rejects: it then makes the directory and returns the
    empty configuration, which it has written to the file. A kubeconfig
    [Error] that it raises is the one of [MakeDir] or says that the file
    cannot be opened for writing. *)
Theorem LoadOrCreate_creates filename :
  let run := LoadOrCreate order os_open load_path MakeDir dirname str_value
               type_name filename in
  let empty := {| _filename := filename; _data := EmptyKubeconfig;
                  clusters := ∅; users := ∅; contexts := ∅ |} in
  (∀ error,
     LoadFromFile load_path str_value type_name filename = Throw error →
     caught error = true →
     MakeDir (dirname filename) = Return () →
     os_open filename = None →
     run = Return empty
     ∧ SaveToFile order os_open empty = (empty, Ok EmptyKubeconfig))
  ∧ (∀ kubeconfig,
       run = Return kubeconfig →
       LoadFromFile load_path str_value type_name filename = Return kubeconfig
       ∨ kubeconfig = empty)
  ∧ (∀ msg,
       run = Throw (Exn (KubeconfigError msg)) →
       MakeDir (dirname filename) = Throw (Exn (KubeconfigError msg))
       ∨ ∃ error,
           os_open filename = Some error
           ∧ msg = "don't have the permission to open kubeconfig file "
                   +:+ filename +:+ ": " +:+ error).
Proof.
  cbv zeta. unfold LoadOrCreate.
  split; [|split].
  - intros error -> -> -> Hopen. rewrite init_EmptyKubeconfig.
    cbn [mbind outcome_bind lift]. unfold SaveToFile.
    cbn [_filename clusters users contexts]. rewrite Hopen.
    rewrite saved_data_EmptyKubeconfig. by cbn.
  - intros kubeconfig.
    destruct (LoadFromFile _ _ _ filename) as [k|error]; [by left|].
    destruct (caught error); [|discriminate].
    destruct (MakeDir (dirname filename)) as [[]|]; [|discriminate].
    rewrite init_EmptyKubeconfig.
    cbn [mbind outcome_bind lift]. unfold SaveToFile.
    cbn [_filename clusters users contexts].
    rewrite saved_data_EmptyKubeconfig.
    destruct (os_open filename); cbn; [discriminate|].
    intros [= <-]. by right.
  - intros msg.
    destruct (LoadFromFile _ _ _ filename) as [k|error]; [discriminate|].
    destruct (caught error) eqn:Hcaught.
    + destruct (MakeDir (dirname filename)) as [[]|e];
        [|cbn; intros [= ->]; by left].
      rewrite init_EmptyKubeconfig.
      cbn [mbind outcome_bind lift]. unfold SaveToFile.
      cbn [_filename clusters users contexts].
      rewrite saved_data_EmptyKubeconfig.
      destruct (os_open filename) as [err|]; cbn; [|discriminate].
      intros [= <-]. right. by exists err.
    + intros [= ->]. discriminate Hcaught.
Qed.
End KubeconfigLoadProperties.

Lemma _Validate_accepts_witness :
  ∃ e, KubeconfigFile.__init__ KubeconfigFile.nameless_data "config" = Raise e
       ∧ (e = TypeError ∨ e = KeyError "name").
Proof.
  exists (KeyError "name"). split; [reflexivity|].
  destruct (_Validate_accepts (λ _, "") (λ _, "")
              (Kubeconfig.VDict KubeconfigFile.nameless_data)) as [_ Hinit].
  exact (Hinit KubeconfigFile.nameless_data "config" (KeyError "name")
           eq_refl eq_refl eq_refl).
Defined.

Lemma LoadOrCreate_creates_witness :
  KubeconfigFile.LoadOrCreate KubeconfigFile.reverse_order (λ _, None)
    KubeconfigFile.unreadable (λ _, Return ()) (λ p, p) (λ _, "") (λ _, "")
    "config"
  = Return {| KubeconfigFile._filename := "config";
              KubeconfigFile._data := Kubeconfig.EmptyKubeconfig;
              KubeconfigFile.clusters := ∅; KubeconfigFile.users := ∅;
              KubeconfigFile.contexts := ∅ |}.
Proof.
  destruct (LoadOrCreate_creates KubeconfigFile.reverse_order (λ _, None)
              KubeconfigFile.unreadable (λ _, Return ()) (λ p, p) (λ _, "")
              (λ _, "") "config")
    as (H & _).
  by destruct (H _ eq_refl eq_refl eq_refl eq_refl).
Defined.

Section KubeconfigEntryProperties.
Import Kubeconfig KubeconfigFile.

(** [Cluster] fails exactly when both a CA path and CA data are given. The
    entry it returns holds the name and a body of two keys: the server and
    one of the CA path, the CA data and the mark that skips TLS
    verification, the mark only when neither of the others is given. *)
Theorem Cluster_one_of_three (name server : string)
    (ca_path ca_data : option string) :
  (is_ok (Cluster name server ca_path ca_data) = false
   ↔ truthy ca_path = true ∧ truthy ca_data = true)
  ∧ ∀ entry, Cluster name server ca_path ca_data = Ok entry →
      dom entry = {["name"; "cluster"]}
      ∧ entry !! "name" = Some (VStr name)
      ∧ ∃ cluster,
          entry !! "cluster" = Some (VDict cluster)
          ∧ cluster !! "server" = Some (VStr server)
          ∧ size cluster = 2%nat
          ∧ cluster !! "certificate-authority"
            = (if truthy ca_path then Some (of_optional ca_path) else None)
          ∧ cluster !! "certificate-authority-data"
            = (if negb (truthy ca_path) && truthy ca_data
               then Some (of_optional ca_data) else None)
          ∧ cluster !! "insecure-skip-tls-verify"
            = (if negb (truthy ca_path) && negb (truthy ca_data)
               then Some (VBool true) else None).
Proof.
  unfold Cluster.
  destruct (truthy ca_path) eqn:Hp, (truthy ca_data) eqn:Hd;
    cbn [andb negb is_ok].
  - split; [done|discriminate].
  - split; [split; [discriminate|by intros [_ ?]]|].
    intros entry [= <-]. split; [set_solver|]. split; [by simplify_map_eq|].
    eexists. split; [by simplify_map_eq|]. split; [by simplify_map_eq|].
    split; [|by simplify_map_eq].
    rewrite map_size_insert_None by by simplify_map_eq.
    by rewrite map_size_singleton.
  - split; [split; [discriminate|by intros [? _]]|].
    intros entry [= <-]. split; [set_solver|]. split; [by simplify_map_eq|].
    eexists. split; [by simplify_map_eq|]. split; [by simplify_map_eq|].
    split; [|by simplify_map_eq].
    rewrite map_size_insert_None by by simplify_map_eq.
    by rewrite map_size_singleton.
  - split; [split; [discriminate|by intros [? _]]|].
    intros entry [= <-]. split; [set_solver|]. split; [by simplify_map_eq|].
    eexists. split; [by simplify_map_eq|]. split; [by simplify_map_eq|].
    split; [|by simplify_map_eq].
    rewrite map_size_insert_None by by simplify_map_eq.
    by rewrite map_size_singleton.
Qed.

(** [DefaultPath] returns exactly when [KUBECONFIG] or [HOME] is set or, on
    Windows, when the home drive and path are set and join to a path or
    [USERPROFILE] is set. [KUBECONFIG] comes first; without it and off
    Windows the path is that of [HOME] and no other variable counts. *)
Theorem DefaultPath_returns (env : Environment) :
  let var name := environ env !! name in
  (returns (DefaultPath env) = true ↔
     truthy (var "KUBECONFIG") = true ∨ truthy (var "HOME") = true
     ∨ (IsWindows env = true
        ∧ ((truthy (var "HOMEDRIVE") = true ∧ truthy (var "HOMEPATH") = true
            ∧ truthy (join env [default "" (var "HOMEDRIVE");
                                default "" (var "HOMEPATH")]) = true)
           ∨ truthy (var "USERPROFILE") = true)))
  ∧ (∀ path, var "KUBECONFIG" = Some path → path ≠ "" →
       DefaultPath env = Return (abspath env path))
  ∧ (∀ home, truthy (var "KUBECONFIG") = false →
       var "HOME" = Some home → home ≠ "" →
       DefaultPath env = Return (join env [home; ".kube"; "config"]))
  ∧ (truthy (var "KUBECONFIG") = false → truthy (var "HOME") = false →
     IsWindows env = false → returns (DefaultPath env) = false).
Proof.
  cbv zeta. unfold DefaultPath.
  split; [|split; [|split]].
  - destruct (truthy (environ env !! "KUBECONFIG")) eqn:Hk;
      [by split; [left|]|].
    destruct (truthy (environ env !! "HOME")) eqn:Hh,
             (IsWindows env) eqn:Hw,
             (truthy (environ env !! "HOMEDRIVE")) eqn:Hd,
             (truthy (environ env !! "HOMEPATH")) eqn:Hp;
      cbn [negb andb]; rewrite ?Hh; cbn [negb returns];
      try (split; [by intros _; right; left|done]);
      try (split; [done|by intros [?|[?|[? _]]]]).
    + cbn [truthy truthy_option].
      destruct (truthy (join env _)) eqn:Hj; cbn [negb].
      * cbn [truthy truthy_option]. rewrite Hj. cbn.
        split; [intros _; right; right; split; [done|by left]|done].
      * destruct (truthy (environ env !! "USERPROFILE")) eqn:Hu; cbn.
        -- split; [intros _; right; right; split; [done|by right]|done].
        -- split; [done|]. by intros [?|[?|[_ [(_ & _ & ?)|?]]]].
    + destruct (truthy (environ env !! "USERPROFILE")) eqn:Hu; cbn.
      * split; [intros _; right; right; split; [done|by right]|done].
      * split; [done|]. by intros [?|[?|[_ [(_ & ? & _)|?]]]].
    + destruct (truthy (environ env !! "USERPROFILE")) eqn:Hu; cbn.
      * split; [intros _; right; right; split; [done|by right]|done].
      * split; [done|]. by intros [?|[?|[_ [(? & _ & _)|?]]]].
    + destruct (truthy (environ env !! "USERPROFILE")) eqn:Hu; cbn.
      * split; [intros _; right; right; split; [done|by right]|done].
      * split; [done|]. by intros [?|[?|[_ [(? & _ & _)|?]]]].
  - intros path -> Hpath. by destruct path.
  - intros home -> -> Hhome. by destruct home.
  - intros Hk Hh Hw. rewrite Hk, Hw, Hh. cbn. by rewrite Hh.
Qed.
End KubeconfigEntryProperties.

Lemma Cluster_one_of_three_witness :
  ∃ entry, Kubeconfig.Cluster "c1" "https://10.0.0.1" None (Some "Q0E=") = Ok entry
           ∧ entry !! "name" = Some (Kubeconfig.VStr "c1").
Proof.
  eexists. split; [reflexivity|].
  destruct (Cluster_one_of_three "c1" "https://10.0.0.1" None (Some "Q0E="))
    as [_ H].
  by destruct (H _ eq_refl) as (_ & Hname & _).
Defined.

Lemma DefaultPath_returns_witness :
  KubeconfigFile.DefaultPath
    (KubeconfigFile.posix_environment
       (<["HOME" := "/home/u"]> (<["HOMEDRIVE" := "C:"]> ∅)))
  = Return "/home/u/.kube/config".
Proof.
  destruct (DefaultPath_returns
              (KubeconfigFile.posix_environment
                 (<["HOME" := "/home/u"]> (<["HOMEDRIVE" := "C:"]> ∅))))
    as (_ & _ & H & _).
  apply (H "/home/u"); [reflexivity|reflexivity|discriminate].
Defined.


(** ** The source of a function *)

Section FunctionsSourceProperties.
Import FunctionsDeploy FunctionsSource.

Lemma append_cons a (s t : string) : String a s +:+ t = String a (s +:+ t).
Proof. reflexivity. Qed.

Lemma strip_prefix_app p s r t :
  strip_prefix p s = Some r → strip_prefix p (s +:+ t) = Some (r +:+ t).
Proof.
  revert s. induction p as [|a p IH]; intros s; cbn.
  - by intros [= ->].
  - destruct s as [|b s]; [discriminate|]. rewrite append_cons. cbn.
    destruct (Ascii.eqb a b); [apply IH|discriminate].
Qed.

Lemma segment_app_tail s seg c tail t :
  segment s = (seg, String c tail) →
  segment (s +:+ t) = (seg, String c tail +:+ t).
Proof.
  revert seg. induction s as [|a s IH]; intros seg; [discriminate|].
  rewrite append_cons. cbn.
  destruct (Ascii.eqb a slash); [by intros [= <- <- <-]|].
  destruct (segment s) as [seg' tail'] eqn:Hs. intros [= <- ->].
  by rewrite (IH _ eq_refl).
Qed.

Lemma segment_app_slash s seg t :
  segment s = (seg, EmptyString) →
  segment (s +:+ String slash t) = (seg, String slash t).
Proof.
  revert seg. induction s as [|a s IH]; intros seg.
  - by intros [= <-].
  - rewrite append_cons. cbn.
    destruct (Ascii.eqb a slash); [discriminate|].
    destruct (segment s) as [seg' tail'] eqn:Hs. intros [= <- ->].
    by rewrite (IH _ eq_refl).
Qed.

Lemma strip_prefix_Some_cons a p s r :
  strip_prefix (String a p) s = Some r → ∃ s', s = String a s'.
Proof.
  destruct s as [|b s]; cbn; [discriminate|].
  destruct (Ascii.eqb_spec a b) as [->|]; [by eexists|discriminate].
Qed.

(** [_AddDefaultBranch] appends the default branch to the URL of a cloud
    repository and to nothing else. It does so once: the URL it returns
    is no URL of a cloud repository, and a second call leaves it as it
    is. *)
Theorem _AddDefaultBranch_once (source_archive_url : string) :
  cloud_repo_match (_AddDefaultBranch source_archive_url) = false
  ∧ _AddDefaultBranch (_AddDefaultBranch source_archive_url)
    = _AddDefaultBranch source_archive_url
  ∧ (_AddDefaultBranch source_archive_url = source_archive_url
     ∨ _AddDefaultBranch source_archive_url
       = source_archive_url +:+ "/moveable-aliases/main").
Proof.
  assert (cloud_repo_match (_AddDefaultBranch source_archive_url) = false)
    as Hno.
  { unfold _AddDefaultBranch.
    destruct (cloud_repo_match source_archive_url) eqn:Hm; [|done].
    revert Hm. unfold cloud_repo_match.
    destruct (strip_prefix _ source_archive_url) as [r1|] eqn:H1;
      [|discriminate].
    rewrite (strip_prefix_app _ _ _ _ H1).
    destruct (segment r1) as [project r2] eqn:H2.
    destruct (truthy project); [|discriminate]. cbn [andb].
    destruct (strip_prefix "/repos/" r2) as [r3|] eqn:H3; [|discriminate].
    destruct (strip_prefix_Some_cons _ _ _ _ H3) as [r2' ->].
    rewrite (segment_app_tail _ _ _ _ _ H2).
    rewrite (strip_prefix_app _ _ _ _ H3).
    destruct (segment r3) as [repo rest] eqn:H4.
    destruct (truthy repo); [|discriminate]. cbn [andb].
    destruct rest; [|discriminate]. intros _.
    change "/moveable-aliases/main"
      with (String slash "moveable-aliases/main").
    rewrite (segment_app_slash _ _ _ H4). cbn [truthy truthy_string negb].
    by rewrite !andb_false_r. }
  split; [done|]. split.
  - unfold _AddDefaultBranch at 1. by rewrite Hno.
  - unfold _AddDefaultBranch.
    destruct (cloud_repo_match source_archive_url); [by right|by left].
Qed.

Context (ValidateDirectoryExistsOrRaiseFunctionError : string → outcome ()).
Context (IsIncluded : string → string → bool).
Context (GetTreeSizeBytes : string → (string → bool) → Z).
Context (MakeZipFromDir : string → string → option string).
Context (path_join : string → string → string) (tmp_dir : string).
Context (_GenerateRemoteZipFileName : string).
Context (ToUrl : string → string → string).
Context (RunGsutilCommand : string → string → Z).
Context (_GetUploadUrl : string).
Context (MakeRequest : string → Z * string).

(** The upload to the generated URL returns, with that URL, exactly when
    the status of the response is from 200 to 299. *)
Theorem _UploadFileToGeneratedUrl_2xx (source : string) :
  let status_code := (MakeRequest _GetUploadUrl).1 in
  (_CheckUploadStatus status_code = true ↔ 200 ≤ status_code ≤ 299)
  ∧ ((_UploadFileToGeneratedUrl _GetUploadUrl MakeRequest source).2
       = Return _GetUploadUrl ↔ 200 ≤ status_code ≤ 299)
  ∧ (returns (_UploadFileToGeneratedUrl _GetUploadUrl MakeRequest source).2
       = false ↔ status_code < 200 ∨ 300 ≤ status_code).
Proof.
  cbv zeta. unfold _UploadFileToGeneratedUrl, _CheckUploadStatus.
  cbn [fst snd]. set (code := (MakeRequest _GetUploadUrl).1).
  assert (code / 100 = 2 ↔ 200 ≤ code ≤ 299) as Hdiv.
  { pose proof (Z.div_mod code 100 ltac:(lia)).
    pose proof (Z.mod_pos_bound code 100 ltac:(lia)). lia. }
  destruct (Z.eqb_spec (code / 100) 2) as [Heq|Hne]; cbn [negb returns].
  - apply Hdiv in Heq. repeat split; try done; try lia.
  - assert (¬ 200 ≤ code ≤ 299) by (by rewrite <- Hdiv).
    repeat split; try done; try lia.
Qed.

(** When [AddSourceToFunction] returns, the function has one source and
    the update mask has grown by the name of that field. When it raises,
    the function is left with no source at all and the mask is as it
    was. A source in a bucket or a repository is taken as it is, with no
    call made. *)
Theorem AddSourceToFunction_one_source function update_mask
    (source_arg stage_bucket : option string) :
  let '(function', update_mask', calls, out) :=
    AddSourceToFunction ValidateDirectoryExistsOrRaiseFunctionError IsIncluded
      GetTreeSizeBytes MakeZipFromDir path_join tmp_dir
      _GenerateRemoteZipFileName ToUrl RunGsutilCommand _GetUploadUrl
      MakeRequest function update_mask source_arg stage_bucket in
  match out with
  | Return _ =>
      (is_Some (sourceArchiveUrl function')
       ∧ sourceRepository function' = None ∧ sourceUploadUrl function' = None
       ∧ update_mask' = update_mask ++ ["sourceArchiveUrl"])
      ∨ (sourceArchiveUrl function' = None
         ∧ is_Some (sourceRepository function')
         ∧ sourceUploadUrl function' = None
         ∧ update_mask' = update_mask ++ ["sourceRepository"])
      ∨ (sourceArchiveUrl function' = None
         ∧ sourceRepository function' = None
         ∧ is_Some (sourceUploadUrl function')
         ∧ update_mask' = update_mask ++ ["sourceUploadUrl"])
  | Throw _ =>
      function' = _CleanOldSourceInfo function ∧ update_mask' = update_mask
  end
  ∧ (∀ source, source_arg = Some source →
       startswith source "gs://" = true ∨ startswith source "https://" = true →
       calls = [] ∧ out = Return ()).
Proof.
  unfold AddSourceToFunction.
  set (source := if truthy (default "." source_arg)
                 then default "." source_arg else ".").
  assert (∀ s, source_arg = Some s →
            startswith s "gs://" = true ∨ startswith s "https://" = true →
            source = s) as Hsource.
  { intros s -> Hs. subst source. cbn. destruct s; [|done].
    by destruct Hs. }
  destruct (startswith source "gs://") eqn:Hgs.
  { split; [left; by repeat split|]. done. }
  destruct (startswith source "https://") eqn:Hhttps.
  { split; [right; left; by repeat split|]. done. }
  destruct (_CreateSourcesZipFile _ _ _ _ _ tmp_dir source)
    as [calls [zip_file|e]].
  2:{ split; [done|]. intros s Hs Hor. rewrite (Hsource s Hs Hor) in *.
      destruct Hor; congruence. }
  destruct (UploadFile _ _ _ _ _ zip_file stage_bucket)
    as [calls' [upload_url|e]].
  2:{ split; [done|]. intros s Hs Hor. rewrite (Hsource s Hs Hor) in *.
      destruct Hor; congruence. }
  destruct (startswith upload_url "gs://").
  - split; [left; by repeat split|].
    intros s Hs Hor. rewrite (Hsource s Hs Hor) in *. destruct Hor; congruence.
  - split; [right; right; by repeat split|].
    intros s Hs Hor. rewrite (Hsource s Hs Hor) in *. destruct Hor; congruence.
Qed.

(** Nothing leaves the process before the checks have passed: when
    [AddSourceToFunction] has made a call, the directory was accepted and
    its size is at most 512 MiB, and the first call made the archive; an
    upload was tried only after the archive was made. A directory above
    the limit raises [OversizedDeployment] with no call made. *)
Theorem AddSourceToFunction_checks_first function update_mask
    (source_arg stage_bucket : option string) :
  let source := if truthy (default "." source_arg)
                then default "." source_arg else "." in
  let size_b := GetTreeSizeBytes source (IsIncluded source) in
  let '(function', update_mask', calls, out) :=
    AddSourceToFunction ValidateDirectoryExistsOrRaiseFunctionError IsIncluded
      GetTreeSizeBytes MakeZipFromDir path_join tmp_dir
      _GenerateRemoteZipFileName ToUrl RunGsutilCommand _GetUploadUrl
      MakeRequest function update_mask source_arg stage_bucket in
  (calls ≠ [] →
     ValidateDirectoryExistsOrRaiseFunctionError source = Return ()
     ∧ size_b ≤ 512 * 2 ^ 20
     ∧ ∃ rest,
         calls = MakeZipFromDir_call (path_join tmp_dir "fun.zip") source
                 :: rest
         ∧ (rest ≠ [] →
            MakeZipFromDir (path_join tmp_dir "fun.zip") source = None))
  ∧ (startswith source "gs://" = false → startswith source "https://" = false →
     ValidateDirectoryExistsOrRaiseFunctionError source = Return () →
     size_b > 512 * 2 ^ 20 →
     calls = []
     ∧ out = Throw (Exn (OversizedDeployment
                           (str_int size_b +:+ "B")
                           (str_int (512 * 2 ^ 20) +:+ "B")))).
Proof.
  cbv zeta. unfold AddSourceToFunction.
  set (source := if truthy (default "." source_arg)
                 then default "." source_arg else ".").
  destruct (startswith source "gs://") eqn:Hgs; [by split|].
  destruct (startswith source "https://") eqn:Hhttps; [by split|].
  unfold _CreateSourcesZipFile, _ValidateUnpackedSourceSize.
  destruct (ValidateDirectoryExistsOrRaiseFunctionError source) as [[]|e];
    [|by split].
  destruct (Z.gtb_spec (GetTreeSizeBytes source (IsIncluded source))
              (512 * 2 ^ 20)) as [Hgt|Hle].
  { split; [done|]. intros _ _ _ _. done. }
  destruct (MakeZipFromDir (path_join tmp_dir "fun.zip") source) as [e|].
  { split; [|intros _ _ _ ?; lia]. intros _. split; [done|]. split; [done|].
    by exists []. }
  destruct (UploadFile _ _ _ _ _ _ stage_bucket) as [calls' [upload_url|e]].
  - destruct (startswith upload_url "gs://");
      (split; [|intros _ _ _ ?; lia]); intros _;
      (split; [done|]); (split; [done|]); by exists calls'.
  - split; [|intros _ _ _ ?; lia]. intros _.
    split; [done|]. split; [done|]. by exists calls'.
Qed.

Lemma substring_0_app (b t : string) :
  String.substring 0 (String.length b) (b +:+ t) = b.
Proof.
  induction b as [|c b IH]; [by destruct t|].
  rewrite append_cons. cbn. by rewrite IH.
Qed.

Lemma length_app_one (b : string) c :
  String.length (b +:+ String c EmptyString) = S (String.length b).
Proof.
  induction b as [|a b IH]; [done|]. rewrite append_cons. cbn. by rewrite IH.
Qed.

(** [_BucketTrigger] takes the name of the bucket out of [gs://name/]; of
    a URL without the closing slash it drops the last character. The event
    is the new one only when the property is set to true. *)
Theorem _BucketTrigger_bucket_name (new_behavior : option bool)
    (bucket : string) (c : Ascii.ascii) :
  trigger_resource
    (_BucketTrigger new_behavior ("gs://" +:+ bucket +:+ String c "")) = bucket
  ∧ (trigger_event (_BucketTrigger new_behavior ("gs://" +:+ bucket +:+ "/"))
     = "google.storage.object.finalize" ↔ new_behavior = Some true)
  ∧ trigger_provider (_BucketTrigger new_behavior ("gs://" +:+ bucket +:+ "/"))
    = "cloud.storage".
Proof.
  split; [|split].
  - unfold _BucketTrigger, slice_5_minus_1. cbn [trigger_resource].
    rewrite !append_cons. change ("" +:+ ?x) with x.
    cbn [String.length String.substring].
    rewrite length_app_one.
    replace (S (S (S (S (S (S (String.length bucket)))))) - 1 - 5)%nat
      with (String.length bucket) by lia.
    apply substring_0_app.
  - unfold _BucketTrigger. cbn [trigger_event].
    destruct new_behavior as [[]|]; cbn; split; congruence.
  - done.
Qed.
End FunctionsSourceProperties.

Lemma _AddDefaultBranch_example :
  FunctionsSource._AddDefaultBranch
    "https://source.developers.google.com/projects/p1/repos/r1"
  = "https://source.developers.google.com/projects/p1/repos/r1/moveable-aliases/main"
  ∧ FunctionsSource._AddDefaultBranch
      "https://source.developers.google.com/projects/p1/repos/r1/x"
    = "https://source.developers.google.com/projects/p1/repos/r1/x"
  ∧ FunctionsSource._AddDefaultBranch "https://github.com/p1/r1"
    = "https://github.com/p1/r1".
Proof. by vm_compute. Qed.

Lemma AddSourceToFunction_example :
  FunctionsSource.local_deploy 204 (Some "exact")
  = ({| FunctionsSource.sourceArchiveUrl := None;
        FunctionsSource.sourceRepository := None;
        FunctionsSource.sourceUploadUrl :=
          Some "https://storage.googleapis.com/upload" |},
     ["sourceUploadUrl"],
     [FunctionsSource.MakeZipFromDir_call "/tmp/x/fun.zip" "exact";
      FunctionsSource.GenerateUploadUrl_call;
      FunctionsSource.MakeRequest_call "https://storage.googleapis.com/upload"],
     Return ()).
Proof. by vm_compute. Qed.

Lemma AddSourceToFunction_checks_first_witness :
  (FunctionsSource.local_deploy 200 (Some "over")).1.2 = []
  ∧ (FunctionsSource.local_deploy 200 (Some "over")).2
    = Throw (Exn (OversizedDeployment "536870913B" "536870912B")).
Proof.
  pose proof (AddSourceToFunction_checks_first
                (λ _, Return ()) FunctionsDeploy.skip_node_modules
                (λ path, FunctionsDeploy.GetTreeSizeBytes_spec
                           (FunctionsDeploy.synthetic_tree path))
                (λ _ _, None) (λ a b, a +:+ "/" +:+ b) "/tmp/x"
                "us-central1-f-abc.zip"
                (λ bucket file, "gs://" +:+ bucket +:+ "/" +:+ file)
                (λ _ _, 0) "https://storage.googleapis.com/upload"
                (λ _, (200, ""))
                {| FunctionsSource.sourceArchiveUrl := Some "gs://old/fun.zip";
                   FunctionsSource.sourceRepository := None;
                   FunctionsSource.sourceUploadUrl := None |}
                [] (Some "over") None) as H.
  cbv zeta in H. fold (FunctionsSource.local_deploy 200 (Some "over")) in H.
  destruct (FunctionsSource.local_deploy 200 (Some "over"))
    as [[[function' update_mask'] calls] out].
  destruct H as [_ H]. cbn [fst snd].
  apply H; [reflexivity|reflexivity|reflexivity|reflexivity].
Defined.


(** ** Locations, and the update that an upgrade sends *)

Section LocationProperties.
Import ContainerCommandUtil.
Context (compute_zone : option string).

(** [GetZoneOrRegion] refuses a zone together with a region, whether or
    not a location is required. Otherwise the region comes before the
    zone and the zone before the property; a location that is required is
    never returned empty; and with no region it returns what [GetZone]
    returns and fails when [GetZone] fails. *)
Theorem GetZoneOrRegion_location (args : LocationArgs)
    (ignore_property required : bool) :
  let zone_property := if ignore_property then None else compute_zone in
  let run := GetZoneOrRegion compute_zone args ignore_property required in
  (truthy (zone args) = true → truthy (region args) = true →
   run = Throw (ConflictingArgumentsException ["--zone"; "--region"]))
  ∧ (returns run = true ↔
       (truthy (zone args) && truthy (region args) = false)
       ∧ (required = true →
          truthy (zone args) = true ∨ truthy (region args) = true
          ∨ truthy zone_property = true))
  ∧ (∀ location, run = Return location →
       (required = true → truthy location = true)
       ∧ location = (if truthy (region args) then region args
                     else if truthy (zone args) then zone args
                     else zone_property))
  ∧ (truthy (region args) = false →
     match GetZone compute_zone args ignore_property required, run with
     | Return zone, Return location => zone = location
     | Throw _, Throw _ => True
     | _, _ => False
     end).
Proof.
  cbv zeta. unfold GetZoneOrRegion, GetZone, py_or.
  destruct (truthy (zone args)) eqn:Hz, (truthy (region args)) eqn:Hr;
    cbn [andb negb]; rewrite ?Hz, ?Hr; cbn [andb negb].
  - repeat split; try done. by intros [? _].
  - destruct required; cbn [andb negb]; rewrite ?Hz; cbn [negb returns];
      (split; [done|]); (split; [split; [intros _; split; [done|auto]|done]|]);
      (split; [by intros ? [= <-]|done]).
  - destruct required; cbn [andb negb]; rewrite ?Hr; cbn [negb returns];
      (split; [done|]); (split; [split; [intros _; split; [done|auto]|done]|]);
      (split; [by intros ? [= <-]|done]).
  - destruct required; cbn [andb negb].
    + destruct (truthy (if ignore_property then None else compute_zone))
        eqn:Hp; cbn [negb returns].
      * split; [done|]. split; [split; [intros _; split; [done|auto]|done]|].
        split; [by intros ? [= <-]|done].
      * split; [done|].
        split; [split; [done|intros [_ H]; by destruct (H eq_refl) as [|[|]]]|].
        split; [done|done].
    + split; [done|]. split; [done|]. split; [by intros ? [= <-]|done].
Qed.
End LocationProperties.

Lemma GetZoneOrRegion_location_witness :
  ContainerCommandUtil.GetZoneOrRegion (Some "us-east1-b")
    {| ContainerCommandUtil.zone := Some "us-east1-b";
       ContainerCommandUtil.region := Some "us-east1" |} false false
  = Throw (ConflictingArgumentsException ["--zone"; "--region"]).
Proof.
  destruct (GetZoneOrRegion_location (Some "us-east1-b")
              {| ContainerCommandUtil.zone := Some "us-east1-b";
                 ContainerCommandUtil.region := Some "us-east1" |} false false)
    as [H _].
  by apply H.
Defined.

Section UpgradeProperties.
Import ApiAdapter.Update ContainerCommandUtil UpgradeCommand.
Context {NodeConfig ClusterAutoscaling : Type} `{!Adapter ClusterAutoscaling}.
Context (Pluralize : option Z → string → string).
Implicit Types (args : Args) (cluster : Lookup.Cluster NodeConfig).

(** The options that [Run] builds ask for the main or for the nodes,
    never for both, so [UpdateClusterCommon] never fails on them: the
    update carries the main version and nothing else, or the node version
    with the node pool and the image type and nothing else, and the
    version is [-] when none is given. With [--main] the node pool and the
    image type are not sent and the node pool is not looked up; without it
    [Run] fails exactly when a node pool is named that the cluster does
    not have. *)
Theorem Run_update_exclusive args cluster (versions : Versions) :
  let run := Run_update (ClusterAutoscaling := ClusterAutoscaling) Pluralize
               args cluster versions in
  let version := or_default (cluster_version args) "-" in
  (returns run = true ↔
     main args = true ∨ truthy (node_pool args) = false
     ∨ ∃ pool, pool ∈ Lookup.nodePools cluster
               ∧ node_pool args = Some (ApiAdapter.name pool))
  ∧ (∀ e, run = Throw e → ∃ msg, e = NodePoolError msg)
  ∧ ∀ upgrade_message update, run = Return (upgrade_message, update) →
      update = (if main args
                then with_desiredMainVersion (Some version) ClusterUpdate0
                else with_desiredImageType (image_type args)
                       (with_desiredNodePoolId (node_pool args)
                          (with_desiredNodeVersion (Some version)
                             ClusterUpdate0)))
      ∧ carries_only update (if main args then KMain else KNodes).
Proof.
  cbv zeta. unfold Run_update, UpdateClusterCommon, select_update, Run_options.
  cbn [update_nodes update_main version main_authorized_networks
       enable_main_authorized_networks ApiAdapter.Update.node_pool
       ApiAdapter.Update.image_type].
  unfold ClusterUpgradeMessage.
  assert (∀ u : ClusterUpdate ClusterAutoscaling,
            u = with_desiredMainVersion
                  (Some (or_default (cluster_version args) "-")) ClusterUpdate0 →
            carries_only u KMain) as Hmain.
  { intros u -> k. by destruct k; cbn. }
  assert (∀ u : ClusterUpdate ClusterAutoscaling,
            u = with_desiredImageType (image_type args)
                  (with_desiredNodePoolId (node_pool args)
                     (with_desiredNodeVersion
                        (Some (or_default (cluster_version args) "-"))
                        ClusterUpdate0)) →
            carries_only u KNodes) as Hnodes.
  { intros u -> k. by destruct k; cbn. }
  destruct (main args); cbn [negb mbind outcome_bind result_bind lift
                             truthy truthy_option andb returns].
  - split; [by split; [left|]|]. split; [discriminate|].
    intros ? ? [= <- <-]. split; [done|by apply Hmain].
  - destruct (node_pool args) as [np|] eqn:Hnp;
      cbn [truthy truthy_option default].
    + destruct (truthy np) eqn:Hnpt; cbn [mbind outcome_bind].
      * unfold Lookup._NodePoolFromCluster.
        destruct (List.find _ (Lookup.nodePools cluster)) as [pool|] eqn:Hfind;
          cbn [mbind outcome_bind lift result_bind returns].
        -- destruct (find_first _ _ _ Hfind) as (l1 & l2 & Hl & Hname & _).
           apply String.eqb_eq in Hname.
           split; [split; [intros _|done]|].
           { right; right. exists pool. split; [|by rewrite Hname].
             rewrite Hl. apply elem_of_app. right. by left. }
           split; [discriminate|].
           intros ? ? [= <- <-]. split; [done|by apply Hnodes].
        -- apply find_none_iff in Hfind. rewrite Forall_forall in Hfind.
           split; [split; [done|]|].
           { intros [?|[?|(pool & Hin & [= ->])]]; try done.
             specialize (Hfind pool Hin). cbn in Hfind.
             by rewrite String.eqb_refl in Hfind. }
           split; [|discriminate]. intros e [= <-]. by eexists.
      * split; [split; [intros _; by right; left|done]|].
        split; [discriminate|].
        intros ? ? [= <- <-]. split; [done|by apply Hnodes].
    + split; [split; [intros _; by right; left|done]|].
      split; [discriminate|].
      intros ? ? [= <- <-]. split; [done|by apply Hnodes].
Qed.
End UpgradeProperties.

Lemma Run_update_exclusive_witness :
  ∃ upgrade_message update,
    @UpgradeCommand.Run_update () () ApiAdapter.Update.APIAdapter_base
      (λ _ noun, noun +:+ "s")
      {| UpgradeCommand.name := "prod"; UpgradeCommand.cluster_version := None;
         UpgradeCommand.node_pool := Some "no-such-pool";
         UpgradeCommand.main := true;
         UpgradeCommand.image_type := Some "COS" |}
      Lookup.two_pool_cluster
      {| ContainerCommandUtil.currentMainVersion := Some "1.8.7";
         ContainerCommandUtil.currentNodeVersion := Some "1.8.6";
         ContainerCommandUtil.currentNodeCount := Some 4 |}
    = Return (upgrade_message, update)
    ∧ update = ApiAdapter.Update.with_desiredMainVersion (Some "-")
                 ApiAdapter.Update.ClusterUpdate0.
Proof.
  destruct (@Run_update_exclusive () () ApiAdapter.Update.APIAdapter_base
              (λ _ noun, noun +:+ "s")
              {| UpgradeCommand.name := "prod";
                 UpgradeCommand.cluster_version := None;
                 UpgradeCommand.node_pool := Some "no-such-pool";
                 UpgradeCommand.main := true;
                 UpgradeCommand.image_type := Some "COS" |}
              Lookup.two_pool_cluster
              {| ContainerCommandUtil.currentMainVersion := Some "1.8.7";
                 ContainerCommandUtil.currentNodeVersion := Some "1.8.6";
                 ContainerCommandUtil.currentNodeCount := Some 4 |})
    as (_ & _ & H).
  eexists _, _. split; [reflexivity|].
  by destruct (H _ _ eq_refl) as [-> _].
Defined.


(** ** Updating a node pool *)

Section NodePoolUpdateProperties.
Import NodePoolUpdate.
Implicit Types (pool : NodePool) (options : UpdateNodePoolOptions).

(** [UpdateNodePoolAutoscaling] writes what the options give and keeps the
    rest of the pool's autoscaling, with two exceptions: autoprovisioning
    given without a minimum resets the minimum to 0, and autoscaling that
    is not on, with no word on autoprovisioning, turns autoprovisioning
    off. The same options applied to the result change nothing. *)
Theorem UpdateNodePoolAutoscaling_idempotent pool options :
  let autoscaling := UpdateNodePoolAutoscaling pool options in
  let before :=
    default {| enabled := None; minNodeCount := None; maxNodeCount := None;
               autoprovisioned := None |} (NodePoolUpdate.autoscaling pool) in
  UpdateNodePoolAutoscaling
    {| management := management pool; NodePoolUpdate.autoscaling := Some autoscaling |}
    options = autoscaling
  ∧ enabled autoscaling
    = (if enable_autoscaling options is Some b then Some b else enabled before)
  ∧ maxNodeCount autoscaling
    = (if max_nodes options is Some n then Some n else maxNodeCount before)
  ∧ minNodeCount autoscaling
    = (if min_nodes options is Some n then Some n
       else if enable_autoprovisioning options is Some _ then Some 0
       else minNodeCount before)
  ∧ (enable_autoprovisioning options = None →
     truthy (enabled autoscaling) = false →
     autoprovisioned autoscaling = Some false)
  ∧ (enable_autoprovisioning options = None →
     truthy (enabled autoscaling) = true →
     autoprovisioned autoscaling = autoprovisioned before)
  ∧ (∀ b, enable_autoprovisioning options = Some b →
          autoprovisioned autoscaling = Some b).
Proof.
  cbv zeta. unfold UpdateNodePoolAutoscaling.
  cbn [NodePoolUpdate.autoscaling default from_option enabled minNodeCount
       maxNodeCount autoprovisioned].
  set (before := default _ (NodePoolUpdate.autoscaling pool)).
  destruct (enable_autoscaling options) as [ea|],
           (max_nodes options) as [mx|], (min_nodes options) as [mn|],
           (enable_autoprovisioning options) as [ap|];
    cbn [is_not_None];
    repeat (split; [try done|]); try done;
    try (intros _ ->; done); try (by intros ? [= <-]);
    try (f_equal; by destruct (negb _));
    try (by intros _ ->).
Qed.

(** The alpha [UpdateNodePool] sends one of two requests. With any
    autoscaling option it updates the autoscaling of the pool through the
    cluster, and the repair and upgrade flags given along with it have no
    effect on the request; otherwise it sets the node management, where a
    flag that is not given keeps the value of the pool. *)
Theorem UpdateNodePool_dispatch (node_pool_ref : NodePoolRef) pool options :
  (IsAutoscalingUpdate options = true →
     UpdateNodePool node_pool_ref pool options
     = UpdateClusterRequest
         (ProjectLocationCluster (projectId node_pool_ref)
            (zone node_pool_ref) (clusterId node_pool_ref))
         (nodePoolId node_pool_ref) (UpdateNodePoolAutoscaling pool options)
     ∧ ∀ autorepair autoupgrade,
         UpdateNodePool node_pool_ref pool
           {| enable_autorepair := autorepair;
              enable_autoupgrade := autoupgrade;
              enable_autoscaling := enable_autoscaling options;
              max_nodes := max_nodes options; min_nodes := min_nodes options;
              enable_autoprovisioning := enable_autoprovisioning options |}
         = UpdateNodePool node_pool_ref pool options)
  ∧ (IsAutoscalingUpdate options = false →
     ∃ node_management,
       UpdateNodePool node_pool_ref pool options
       = SetNodePoolManagementRequest
           (ProjectLocationCluster (projectId node_pool_ref)
              (zone node_pool_ref) (clusterId node_pool_ref)
            +:+ "/nodePools/" +:+ nodePoolId node_pool_ref)
           node_management
       ∧ ApiAdapter.autoRepair node_management
         = (if enable_autorepair options is Some b then Some b
            else management pool ≫= ApiAdapter.autoRepair)
       ∧ ApiAdapter.autoUpgrade node_management
         = (if enable_autoupgrade options is Some b then Some b
            else management pool ≫= ApiAdapter.autoUpgrade)).
Proof.
  unfold UpdateNodePool. split.
  - intros Hauto. rewrite Hauto. split; [done|].
    intros autorepair autoupgrade.
    unfold IsAutoscalingUpdate in *. cbn. by rewrite Hauto.
  - intros ->. eexists. split; [done|].
    unfold UpdateNodePoolNodeManagement.
    destruct (management pool) as [nm|],
             (enable_autorepair options), (enable_autoupgrade options); done.
Qed.

(** [CreateClusterAutoscalingCommon] of the alpha adapter returns exactly
    when autoprovisioning is not asked for without a cpu and a memory
    maximum and the two accelerator limits, when both are given, name one
    type. The limits come in the order cpu, memory, accelerator, one for
    each resource that has a limit; with autoprovisioning on, the cpu and
    the memory limit are there and carry a maximum; the accelerator limit
    has a minimum and a maximum, 0 when no count is given. *)
Theorem CreateClusterAutoscalingCommon_limits (options : AutoprovisioningOptions) :
  (is_ok (CreateClusterAutoscalingCommon options) = true ↔
     (truthy (ap_enable_autoprovisioning options) = true →
      is_Some (max_cpu options) ∧ is_Some (max_memory options))
     ∧ ∀ lo hi, min_accelerator options = Some lo →
                max_accelerator options = Some hi →
                acc_type lo = acc_type hi)
  ∧ ∀ autoscaling,
      CreateClusterAutoscalingCommon options = Ok autoscaling →
      enableNodeAutoprovisioning autoscaling
      = ap_enable_autoprovisioning options
      ∧ limit_name <$> resourceLimits autoscaling
        = (if is_not_None (min_cpu options) || is_not_None (max_cpu options)
           then [Some "cpu"] else [])
          ++ (if is_not_None (min_memory options)
                 || is_not_None (max_memory options)
              then [Some "memory"] else [])
          ++ (if max_accelerator options is Some hi then [acc_type hi] else [])
      ∧ (truthy (ap_enable_autoprovisioning options) = true →
         ∃ cpu memory rest,
           resourceLimits autoscaling = cpu :: memory :: rest
           ∧ limit_name cpu = Some "cpu" ∧ is_Some (maximum cpu)
           ∧ maximum cpu = max_cpu options
           ∧ limit_name memory = Some "memory" ∧ is_Some (maximum memory)
           ∧ maximum memory = max_memory options)
      ∧ (∀ hi, max_accelerator options = Some hi →
           ∃ limit,
             last (resourceLimits autoscaling) = Some limit
             ∧ limit_name limit = acc_type hi
             ∧ maximum limit = Some (default 0 (acc_count hi))
             ∧ minimum limit
               = Some (default 0 (min_accelerator options ≫= acc_count))).
Proof.
  unfold CreateClusterAutoscalingCommon.
  destruct (truthy (ap_enable_autoprovisioning options)) eqn:Hap,
           (max_cpu options) as [xc|] eqn:Hxc,
           (max_memory options) as [xm|] eqn:Hxm,
           (max_accelerator options) as [hi|] eqn:Hhi,
           (min_accelerator options) as [lo|] eqn:Hlo;
    cbn [is_not_None negb orb andb is_ok mbind result_bind];
    try destruct (decide (acc_type lo = acc_type hi)) as [Heq|Hne];
    rewrite ?(bool_decide_eq_true_2 _ Heq), ?(bool_decide_eq_false_2 _ Hne);
    cbn [negb mbind result_bind is_ok];
    (split;
       [split;
          [intros Hok;
           first [discriminate Hok
                 |split;
                    [first [intros ?; discriminate
                           |intros _; split; by eexists]
                    |intros ? ? ? ?; congruence]]
          |intros [Hlim Hacc];
           first [done
                 |exfalso; destruct (Hlim eq_refl) as [[? ?] [? ?]];
                  discriminate
                 |exfalso; by specialize (Hacc _ _ eq_refl eq_refl)]]|]);
    try discriminate;
    intros autoscaling [= <-];
    cbn [enableNodeAutoprovisioning resourceLimits];
    (split; [done|]);
    destruct (min_cpu options), (min_memory options);
    cbn [is_not_None orb app fmap list_fmap limit_name];
    (split; [done|]);
    (split; [first [done
                   |intros _; eexists _, _, _; cbn;
                    split; [done|]; split; [done|]; split; [by eexists|];
                    split; [done|]; split; [done|]; split; [by eexists|done]]
            |]);
    first [solve [intros ? [=]]
          |intros ? [= <-]; cbn; eexists; (split; [done|]); done].
Qed.
End NodePoolUpdateProperties.

Lemma UpdateNodePoolAutoscaling_idempotent_witness :
  NodePoolUpdate.autoprovisioned
    (NodePoolUpdate.UpdateNodePoolAutoscaling
       NodePoolUpdate.autoprovisioned_pool NodePoolUpdate.disable_autoscaling)
  = Some false.
Proof.
  destruct (UpdateNodePoolAutoscaling_idempotent
              NodePoolUpdate.autoprovisioned_pool
              NodePoolUpdate.disable_autoscaling)
    as (_ & _ & _ & _ & H & _).
  by apply H.
Defined.

Lemma UpdateNodePool_dispatch_witness :
  NodePoolUpdate.UpdateNodePool
    {| NodePoolUpdate.projectId := "p"; NodePoolUpdate.zone := "us-east1-b";
       NodePoolUpdate.clusterId := "prod";
       NodePoolUpdate.nodePoolId := "default-pool" |}
    NodePoolUpdate.autoprovisioned_pool NodePoolUpdate.disable_autoscaling
  = NodePoolUpdate.UpdateClusterRequest
      "projects/p/locations/us-east1-b/clusters/prod" "default-pool"
      {| NodePoolUpdate.enabled := Some false;
         NodePoolUpdate.minNodeCount := Some 1;
         NodePoolUpdate.maxNodeCount := Some 5;
         NodePoolUpdate.autoprovisioned := Some false |}.
Proof.
  destruct (UpdateNodePool_dispatch
              {| NodePoolUpdate.projectId := "p";
                 NodePoolUpdate.zone := "us-east1-b";
                 NodePoolUpdate.clusterId := "prod";
                 NodePoolUpdate.nodePoolId := "default-pool" |}
              NodePoolUpdate.autoprovisioned_pool
              NodePoolUpdate.disable_autoscaling) as [H _].
  by destruct (H eq_refl) as [-> _].
Defined.

Lemma CreateClusterAutoscalingCommon_limits_witness :
  ∃ autoscaling,
    NodePoolUpdate.CreateClusterAutoscalingCommon
      NodePoolUpdate.cpu_memory_limits = Ok autoscaling
    ∧ NodePoolUpdate.limit_name <$> NodePoolUpdate.resourceLimits autoscaling
      = [Some "cpu"; Some "memory"; Some "nvidia-tesla-k80"].
Proof.
  eexists. split; [reflexivity|].
  destruct (CreateClusterAutoscalingCommon_limits
              NodePoolUpdate.cpu_memory_limits) as [_ H].
  by destruct (H _ eq_refl) as (_ & -> & _).
Defined.


(** ** Settings of a new SQL instance *)

Section SqlSettings.
Import SqlInstances.
Context {B F M L : Type} `{!Reducers B F M L}.
Implicit Types (cls : Dialect) (args : Args) (release_track : ReleaseTrack).
Implicit Types (original : option (DatabaseInstance B F M L)).
Implicit Types (s : Settings B F M L).

Lemma _ConstructBaseSettingsFromArgs_Ok cls args original release_track s :
  _ConstructBaseSettingsFromArgs cls args original release_track = Ok s →
  (release_track ≠ BETA →
     storageAutoResizeLimit s = None ∧ availabilityType s = None)
  ∧ (release_track = BETA →
     (IsSpecified args "storage_auto_increase_limit" = true →
        storageAutoResizeLimit s
        = Some (or_default (storage_auto_increase_limit args) 0)
        ∧ (truthy (storage_auto_increase args) = true
           ∨ original_auto_resize original = Ok true))
     ∧ (IsSpecified args "storage_auto_increase_limit" = false →
        storageAutoResizeLimit s = None)
     ∧ availabilityType s
       = if IsSpecified args "availability_type" then availability_type args
         else None)
  ∧ storageAutoResize s = storage_auto_increase args
  ∧ (ipConfiguration s
     = if is_not_None (assign_ip args) || is_not_None (require_ssl args)
          || truthy (authorized_networks args)
       then Some
         {| enabled := if cls is InstancesV1Beta3 then assign_ip args else None;
            ipv4Enabled :=
              if cls is InstancesV1Beta4 then assign_ip args else None;
            authorizedNetworks :=
              (if cls is InstancesV1Beta3 then RawNetwork else AclEntry)
                <$> (if truthy (authorized_networks args)
                     then default [] (authorized_networks args) else []);
            requireSsl := require_ssl args |}
       else None).
Proof.
  unfold _ConstructBaseSettingsFromArgs. intros Hs.
  destruct (MachineType original _ _ _) as [tier|];
    cbn [mbind result_bind] in Hs; [|discriminate Hs].
  match type of Hs with
  | (?r ≫= _) = Ok _ =>
      destruct r as [size|]; cbn [mbind result_bind] in Hs; [|discriminate Hs]
  end.
  match type of Hs with
  | (?r ≫= _) = Ok _ =>
      destruct r as [limit|] eqn:Hlimit; cbn [mbind result_bind] in Hs;
        [|discriminate Hs]
  end.
  injection Hs as <-.
  cbn [storageAutoResizeLimit availabilityType storageAutoResize
       ipConfiguration].
  split; [|split; [|split; [done|done]]].
  - intros Htrack. destruct release_track; [|done|]; by injection Hlimit as <-.
  - intros ->.
    destruct (IsSpecified args "storage_auto_increase_limit");
      [|injection Hlimit as <-; by repeat split].
    destruct (original_auto_resize original) as [resize|] eqn:Hres;
      cbn [mbind result_bind] in Hlimit; [|discriminate Hlimit].
    destruct resize, (truthy (storage_auto_increase args)) eqn:Hinc;
      cbn [orb] in Hlimit; try discriminate Hlimit;
      injection Hlimit as <-;
      (split; [intros _; split; [done|auto]|split; [done|done]]).
Qed.

(** The BETA settings are written on the BETA track only. There, a storage
    limit that is specified is stored, 0 standing for none, and its being
    stored means that automatic increase is on in the arguments or on the
    original instance; an availability type that is specified is stored
    and the database is Postgres. On every track an on-premises host
    excludes [--require_ssl]. *)
Theorem ConstructCreateInstanceFromArgs_beta_settings cls args original
    (instance_ref : option (string * string)) release_track
    (instance_resource : DatabaseInstance B F M L) :
  ConstructCreateInstanceFromArgs cls args original instance_ref release_track
    = Ok instance_resource →
  ∃ s,
    settings instance_resource = Some s
    ∧ (release_track ≠ BETA →
       storageAutoResizeLimit s = None ∧ availabilityType s = None
       ∧ userLabels s = None)
    ∧ (release_track = BETA →
       IsSpecified args "storage_auto_increase_limit" = true →
       storageAutoResizeLimit s
       = Some (or_default (storage_auto_increase_limit args) 0)
       ∧ (truthy (storage_auto_increase args) = true
          ∨ original_auto_resize original = Ok true))
    ∧ (release_track = BETA →
       IsSpecified args "availability_type" = true →
       availabilityType s = availability_type args
       ∧ IsPostgresDatabaseVersion (database_version args) = true)
    ∧ (truthy (on_premises_host_port args) = true →
       truthy (require_ssl args) = false
       ∧ onPremisesConfiguration s = on_premises_host_port args).
Proof.
  unfold ConstructCreateInstanceFromArgs, _ConstructCreateSettingsFromArgs.
  intros Hs.
  destruct (_ConstructBaseSettingsFromArgs cls args original release_track)
    as [base|] eqn:Hbase; cbn [mbind result_bind] in Hs; [|discriminate Hs].
  destruct (_ConstructBaseSettingsFromArgs_Ok _ _ _ _ _ Hbase)
    as (Hother & Hbeta & _ & _).
  match type of Hs with
  | ((?r ≫= _) ≫= _) = Ok _ =>
      destruct r as [on_premises|] eqn:Hprem; cbn [mbind result_bind] in Hs;
        [|discriminate Hs]
  end.
  destruct (BackupConfiguration_of _ _ _ _) as [backup_configuration|];
    cbn [mbind result_bind] in Hs; [|discriminate Hs].
  destruct (DatabaseFlags_of _ _) as [flags|];
    cbn [mbind result_bind] in Hs; [|discriminate Hs].
  destruct (MaintenanceWindow_of _ _ _ _) as [window|];
    cbn [mbind result_bind] in Hs; [|discriminate Hs].
  match type of Hs with
  | ((?r ≫= _) ≫= _) = Ok _ =>
      destruct r as [labels|] eqn:Hlabels; cbn [mbind result_bind] in Hs;
        [|discriminate Hs]
  end.
  injection Hs as <-. cbn [settings].
  eexists. split; [by destruct (negb _)|].
  destruct (negb (truthy (replication args)));
    cbn [with_replicationType storageAutoResizeLimit availabilityType
         userLabels onPremisesConfiguration].
  all: split; [|split; [|split; [|]]].
  all: try (intros Htrack; destruct (Hother Htrack) as [-> ->];
            split; [done|]; split; [done|];
            destruct release_track; [|done|]; by injection Hlabels as <-).
  all: try (intros -> Hspec; destruct Hbeta as (Hb & _ & _); [done|];
            by apply Hb).
  all: try (intros -> Hspec; destruct Hbeta as (_ & _ & ->); [done|];
            rewrite Hspec; split; [done|];
            destruct (ParseCreateArgs args); cbn [mbind result_bind] in Hlabels;
            [|discriminate Hlabels]; rewrite Hspec in Hlabels;
            cbn [andb] in Hlabels;
            by destruct (IsPostgresDatabaseVersion (database_version args))).
  all: intros Hprem'; rewrite Hprem' in Hprem;
    destruct (truthy (require_ssl args)); [discriminate Hprem|];
    by injection Hprem as <-.
Qed.

End SqlSettings.

Section SqlDialects.
Import SqlInstances.
Context {B3 F3 M3 L3 : Type} (messages3 : Reducers B3 F3 M3 L3).
Context {B4 F4 M4 L4 : Type} (messages4 : Reducers B4 F4 M4 L4).
Implicit Types (args : Args) (release_track : ReleaseTrack).

(** What the settings hold that is not the work of a reducer. *)
Lemma _ConstructCreateSettingsFromArgs_Ok {B F M L : Type}
    (messages : Reducers B F M L) cls args original release_track s :
  _ConstructCreateSettingsFromArgs cls args original release_track = Ok s →
  pricingPlan s = pricing_plan args
  ∧ replicationType s = replication args
  ∧ activationPolicy s = activation_policy args
  ∧ authorizedGaeApplications s
    = (if truthy (authorized_gae_apps args)
       then default [] (authorized_gae_apps args) else [])
  ∧ locationPreference s
    = (if truthy (follow_gae_app args) || truthy (gce_zone args)
       then Some {| followGaeApplication := follow_gae_app args;
                    zone := gce_zone args |}
       else None)
  ∧ storageAutoResize s = storage_auto_increase args
  ∧ storageAutoResizeLimit s
    = (if release_track is BETA then
         if IsSpecified args "storage_auto_increase_limit"
         then Some (or_default (storage_auto_increase_limit args) 0)
         else None
       else None)
  ∧ availabilityType s
    = (if release_track is BETA then
         if IsSpecified args "availability_type" then availability_type args
         else None
       else None)
  ∧ onPremisesConfiguration s
    = (if truthy (on_premises_host_port args) then on_premises_host_port args
       else None)
  ∧ dataDiskType s
    = (if truthy (storage_type args)
       then Some (STORAGE_TYPE_PREFIX +:+ default "" (storage_type args))
       else None)
  ∧ (if truthy (storage_size args)
     then Some <$> int_truediv (default 0 (storage_size args)) BYTES_TO_GB
     else Ok None) = Ok (dataDiskSizeGb s)
  ∧ ipConfiguration s
    = (if is_not_None (assign_ip args) || is_not_None (require_ssl args)
          || truthy (authorized_networks args)
       then Some
         {| enabled := if cls is InstancesV1Beta3 then assign_ip args else None;
            ipv4Enabled :=
              if cls is InstancesV1Beta4 then assign_ip args else None;
            authorizedNetworks :=
              (if cls is InstancesV1Beta3 then RawNetwork else AclEntry)
                <$> (if truthy (authorized_networks args)
                     then default [] (authorized_networks args) else []);
            requireSsl := require_ssl args |}
       else None)
  ∧ ∃ backup_configuration,
      BackupConfiguration_of original (backup args) (backup_start_time args)
        (enable_bin_log args) = Ok backup_configuration
      ∧ backupConfiguration s
        = match backup_configuration with
          | Some b =>
              if cls is InstancesV1Beta3 then BackupList [b] else BackupOne b
          | None => NoBackup
          end.
Proof.
  unfold _ConstructCreateSettingsFromArgs, _ConstructBaseSettingsFromArgs.
  intros Hs. cbv zeta in Hs.
  destruct (MachineType original _ _ _) as [tier|];
    cbn [mbind result_bind] in Hs; [|discriminate Hs].
  match type of Hs with
  | ((?r ≫= _) ≫= _) = Ok _ =>
      destruct r as [size|] eqn:Hsize; cbn [mbind result_bind] in Hs;
        [|discriminate Hs]
  end.
  match type of Hs with
  | ((?r ≫= _) ≫= _) = Ok _ =>
      destruct r as [limit|] eqn:Hlimit; cbn [mbind result_bind] in Hs;
        [|discriminate Hs]
  end.
  match type of Hs with
  | (?r ≫= _) = Ok _ =>
      destruct r as [on_premises|] eqn:Hprem; cbn [mbind result_bind] in Hs;
        [|discriminate Hs]
  end.
  destruct (BackupConfiguration_of _ _ _ _) as [backup_configuration|];
    cbn [mbind result_bind] in Hs; [|discriminate Hs].
  destruct (DatabaseFlags_of _ _) as [flags|];
    cbn [mbind result_bind] in Hs; [|discriminate Hs].
  destruct (MaintenanceWindow_of _ _ _ _) as [window|];
    cbn [mbind result_bind] in Hs; [|discriminate Hs].
  match type of Hs with
  | (?r ≫= _) = Ok _ =>
      destruct r as [labels|]; cbn [mbind result_bind] in Hs;
        [|discriminate Hs]
  end.
  injection Hs as <-.
  cbn [pricingPlan replicationType activationPolicy authorizedGaeApplications
       locationPreference storageAutoResize storageAutoResizeLimit
       availabilityType onPremisesConfiguration dataDiskType dataDiskSizeGb
       ipConfiguration backupConfiguration].
  repeat (split; [done|]).
  split.
  { destruct release_track; try by injection Hlimit as <-.
    destruct (IsSpecified args "storage_auto_increase_limit");
      [|by injection Hlimit as <-].
    destruct (original_auto_resize original) as [resize|];
      cbn [mbind result_bind] in Hlimit; [|discriminate Hlimit].
    destruct (resize || truthy (storage_auto_increase args));
      [by injection Hlimit as <-|discriminate Hlimit]. }
  split; [done|].
  split.
  { destruct (truthy (on_premises_host_port args)); [|by injection Hprem as <-].
    destruct (truthy (require_ssl args)); [discriminate Hprem|].
    by injection Hprem as <-. }
  split; [done|]. split; [done|]. split; [done|].
  by exists backup_configuration.
Qed.

(** The two API versions build the same instance from the same arguments,
    up to the fields that a reducer fills from the messages of the version
    and to four differences of form: what v1beta3 stores in [instance], in
    [enabled], as plain networks and as a list of one backup configuration,
    v1beta4 stores in [name], in [ipv4Enabled], as ACL entries and as one
    backup configuration. *)
Theorem ConstructCreateInstanceFromArgs_dialects args
    (original3 : option (DatabaseInstance B3 F3 M3 L3))
    (original4 : option (DatabaseInstance B4 F4 M4 L4))
    (instance_ref : option (string * string)) release_track i3 i4 :
  ConstructCreateInstanceFromArgs (Reducers0 := messages3) InstancesV1Beta3
    args original3 instance_ref release_track = Ok i3 →
  ConstructCreateInstanceFromArgs (Reducers0 := messages4) InstancesV1Beta4
    args original4 instance_ref release_track = Ok i4 →
  project i3 = project i4
  ∧ instance i3 = name i4 ∧ name i3 = None ∧ instance i4 = None
  ∧ instance_region i3 = instance_region i4
  ∧ databaseVersion i3 = databaseVersion i4
  ∧ mainInstanceName i3 = mainInstanceName i4
  ∧ replicaConfiguration i3 = replicaConfiguration i4
  ∧ failoverReplica i3 = failoverReplica i4
  ∧ ∃ s3 s4,
      settings i3 = Some s3 ∧ settings i4 = Some s4
      ∧ pricingPlan s3 = pricingPlan s4
      ∧ replicationType s3 = replicationType s4
      ∧ activationPolicy s3 = activationPolicy s4
      ∧ authorizedGaeApplications s3 = authorizedGaeApplications s4
      ∧ locationPreference s3 = locationPreference s4
      ∧ storageAutoResize s3 = storageAutoResize s4
      ∧ storageAutoResizeLimit s3 = storageAutoResizeLimit s4
      ∧ availabilityType s3 = availabilityType s4
      ∧ onPremisesConfiguration s3 = onPremisesConfiguration s4
      ∧ dataDiskType s3 = dataDiskType s4
      ∧ (BYTES_TO_GB (Reducers := messages3)
         = BYTES_TO_GB (Reducers := messages4) →
         dataDiskSizeGb s3 = dataDiskSizeGb s4)
      ∧ match ipConfiguration s3, ipConfiguration s4 with
        | Some ip3, Some ip4 =>
            enabled ip3 = ipv4Enabled ip4
            ∧ ipv4Enabled ip3 = None ∧ enabled ip4 = None
            ∧ requireSsl ip3 = requireSsl ip4
            ∧ ∃ networks,
                authorizedNetworks ip3 = RawNetwork <$> networks
                ∧ authorizedNetworks ip4 = AclEntry <$> networks
        | None, None => True
        | _, _ => False
        end
      ∧ match backupConfiguration s3 with
        | NoBackup | BackupList [_] => True
        | _ => False
        end
      ∧ match backupConfiguration s4 with
        | NoBackup | BackupOne _ => True
        | _ => False
        end.
Proof.
  unfold ConstructCreateInstanceFromArgs. intros H3 H4.
  destruct (_ConstructCreateSettingsFromArgs InstancesV1Beta3 args original3
              release_track) as [s3|] eqn:Hs3;
    cbn [mbind result_bind] in H3; [|discriminate H3].
  destruct (_ConstructCreateSettingsFromArgs InstancesV1Beta4 args original4
              release_track) as [s4|] eqn:Hs4;
    cbn [mbind result_bind] in H4; [|discriminate H4].
  injection H3 as <-. injection H4 as <-.
  cbn [project instance name instance_region databaseVersion mainInstanceName
       replicaConfiguration failoverReplica settings].
  repeat (split; [done|]).
  apply _ConstructCreateSettingsFromArgs_Ok in Hs3
    as (Hp3 & Hr3 & Ha3 & Hg3 & Hl3 & Hz3 & Hm3 & Hv3 & Ho3 & Ht3 & Hd3 & Hi3
        & b3 & _ & Hb3).
  apply _ConstructCreateSettingsFromArgs_Ok in Hs4
    as (Hp4 & Hr4 & Ha4 & Hg4 & Hl4 & Hz4 & Hm4 & Hv4 & Ho4 & Ht4 & Hd4 & Hi4
        & b4 & _ & Hb4).
  eexists _, _. split; [done|]. split; [done|].
  assert (∀ {B F M L} (s : Settings B F M L),
            let s' := if negb (truthy (replication args))
                      then with_replicationType
                             (Some (if truthy (main_instance_name args)
                                    then "ASYNCHRONOUS" else "SYNCHRONOUS")) s
                      else s in
            pricingPlan s' = pricingPlan s
            ∧ activationPolicy s' = activationPolicy s
            ∧ authorizedGaeApplications s' = authorizedGaeApplications s
            ∧ locationPreference s' = locationPreference s
            ∧ storageAutoResize s' = storageAutoResize s
            ∧ storageAutoResizeLimit s' = storageAutoResizeLimit s
            ∧ availabilityType s' = availabilityType s
            ∧ onPremisesConfiguration s' = onPremisesConfiguration s
            ∧ dataDiskType s' = dataDiskType s
            ∧ dataDiskSizeGb s' = dataDiskSizeGb s
            ∧ ipConfiguration s' = ipConfiguration s
            ∧ backupConfiguration s' = backupConfiguration s
            ∧ replicationType s'
              = if negb (truthy (replication args))
                then Some (if truthy (main_instance_name args)
                           then "ASYNCHRONOUS" else "SYNCHRONOUS")
                else replicationType s) as Hsame.
  { intros ? ? ? ? s. cbv zeta.
    by destruct (negb (truthy (replication args))). }
  destruct (Hsame _ _ _ _ s3)
    as (-> & -> & -> & -> & -> & -> & -> & -> & -> & -> & -> & -> & ->).
  destruct (Hsame _ _ _ _ s4)
    as (-> & -> & -> & -> & -> & -> & -> & -> & -> & -> & -> & -> & ->).
  rewrite Hp3, Hp4, Hr3, Hr4, Ha3, Ha4, Hg3, Hg4, Hl3, Hl4, Hz3, Hz4, Hm3, Hm4,
    Hv3, Hv4, Ho3, Ho4, Ht3, Ht4, Hi3, Hi4, Hb3, Hb4.
  repeat (split; [done|]).
  split.
  { intros Hgb. rewrite Hgb in Hd3. rewrite Hd3 in Hd4. by injection Hd4. }
  split.
  { destruct (is_not_None (assign_ip args) || is_not_None (require_ssl args)
              || truthy (authorized_networks args)); [|done].
    cbn. repeat (split; [done|]). by eexists. }
  split; [by destruct b3|by destruct b4].
Qed.
End SqlDialects.

Lemma ConstructCreateInstanceFromArgs_dialects_witness :
  ∃ i3 i4 s3 s4 ip3 ip4,
    SqlInstances.ConstructCreateInstanceFromArgs
      (Reducers0 := SqlInstances.plain_reducers) SqlInstances.InstancesV1Beta3
      SqlInstances.network_args None (Some ("p1", "db1")) SqlInstances.GA
    = Ok i3
    ∧ SqlInstances.ConstructCreateInstanceFromArgs
        (Reducers0 := SqlInstances.backup_reducers)
        SqlInstances.InstancesV1Beta4
        SqlInstances.network_args None (Some ("p1", "db1")) SqlInstances.GA
      = Ok i4
    ∧ SqlInstances.instance i3 = SqlInstances.name i4
    ∧ SqlInstances.settings i3 = Some s3 ∧ SqlInstances.settings i4 = Some s4
    ∧ SqlInstances.dataDiskSizeGb s3 = SqlInstances.dataDiskSizeGb s4
    ∧ SqlInstances.ipConfiguration s3 = Some ip3
    ∧ SqlInstances.ipConfiguration s4 = Some ip4
    ∧ SqlInstances.enabled ip3 = SqlInstances.ipv4Enabled ip4.
Proof.
  destruct (ConstructCreateInstanceFromArgs_dialects
              SqlInstances.plain_reducers SqlInstances.backup_reducers
              SqlInstances.network_args None None (Some ("p1", "db1"))
              SqlInstances.GA _ _ eq_refl eq_refl)
    as (_ & Hname & _ & _ & _ & _ & _ & _ & _ & s3 & s4 & Hs3 & Hs4 & _ & _
        & _ & _ & _ & _ & _ & _ & _ & _ & Hsize & Hip & _).
  injection Hs3 as <-. injection Hs4 as <-.
  eexists _, _, _, _, _, _. split; [reflexivity|]. split; [reflexivity|].
  split; [exact Hname|]. split; [reflexivity|]. split; [reflexivity|].
  split; [exact (Hsize eq_refl)|]. split; [reflexivity|].
  split; [reflexivity|]. exact (proj1 Hip).
Defined.

(** [int(a / b)] on the sizes the command line gives, and where the float
    differs from the quotient. *)
Lemma int_truediv_examples :
  SqlInstances.int_truediv (10 * 2 ^ 30) (2 ^ 30) = Ok 10
  ∧ SqlInstances.int_truediv (2 ^ 30 + 2 ^ 29) (2 ^ 30) = Ok 1
  ∧ SqlInstances.int_truediv (- 7) 2 = Ok (- 3)
  ∧ SqlInstances.int_truediv (2 ^ 60 - 1) (2 ^ 60) = Ok 1
  ∧ SqlInstances.int_truediv (2 ^ 2000) 1 = Raise OverflowError
  ∧ SqlInstances.int_truediv 5 0 = Raise ZeroDivisionError.
Proof. by vm_compute. Qed.

Lemma ConstructCreateInstanceFromArgs_beta_settings_witness :
  ∃ instance_resource s,
    SqlInstances.ConstructCreateInstanceFromArgs
      (Reducers0 := SqlInstances.plain_reducers)
      SqlInstances.InstancesV1Beta4
      (SqlInstances.replica_args None None None) None None SqlInstances.GA
    = Ok instance_resource
    ∧ SqlInstances.settings instance_resource = Some s
    ∧ SqlInstances.storageAutoResizeLimit s = None.
Proof.
  destruct (ConstructCreateInstanceFromArgs_beta_settings
              (Reducers0 := SqlInstances.plain_reducers)
              SqlInstances.InstancesV1Beta4
              (SqlInstances.replica_args None None None) None None
              SqlInstances.GA _ eq_refl) as (s & Hs & Hga & _).
  eexists _, s. split; [reflexivity|]. split; [exact Hs|].
  by destruct Hga as [-> _].
Defined.
